(** * Calibration import of the device providers (mqt.bench.devices)

    A shallow embedding of [provider.py], [ibm.py], [ibm_open_access.py] and
    [oqc.py].  Python dictionaries are finite maps ([gmap]), the [float]s of
    the calibration tables are IEEE binary64 numbers (Rocq's primitive
    floats), Python [int]s are [Z], and a raised exception is the [Raise]
    branch of an error monad. *)

From Stdlib Require Import ZArith Floats.
From stdpp Require Import gmap strings list fin_maps pretty.

Set Warnings "-inexact-float".
Local Open Scope Z_scope.
Local Open Scope string_scope.

(** ** Exceptions and the error monad *)

Inductive exn :=
| ValueError (msg : string)
| KeyError (key : string)
| IndexError (msg : string)
| FileNotFoundError (path : string).

Inductive result (A : Type) :=
| Ok (a : A)
| Raise (e : exn).
Arguments Ok {A} a.
Arguments Raise {A} e.

Global Instance result_ret : MRet result := fun A a => Ok a.
Global Instance result_bind : MBind result := fun A B f r =>
  match r with
  | Ok a => f a
  | Raise e => Raise e
  end.

(** A [for] loop whose body may raise: the state is threaded through the
    iterations, the first exception ends the loop. *)
Fixpoint for_each {A S : Type} (body : S -> A -> result S) (l : list A) (s : S)
  : result S :=
  match l with
  | [] => Ok s
  | x :: l' => s' ← body s x; for_each body l' s'
  end.

(** [str(i)] of a Python [int]. *)
Definition str (i : Z) : string := pretty i.

(** [range(n)]. *)
Definition range (n : Z) : list Z := seqZ 0 n.

(** [d[k]] on a dictionary: the value, or [KeyError]. *)
Definition getitem `{Countable K} {V : Type} (repr : K -> string)
    (d : gmap K V) (k : K) : result V :=
  match d !! k with
  | Some v => Ok v
  | None => Raise (KeyError (repr k))
  end.

Definition repr_pair (k : Z * Z) : string :=
  "(" +:+ str k.1 +:+ ", " +:+ str k.2 +:+ ")".

(** [qubit1, qubit2 = e]: unpacking a sequence into two names. *)
Definition unpack2 (e : list Z) : result (Z * Z) :=
  match e with
  | [q1; q2] => Ok (q1, q2)
  | [] | [_] => Raise (ValueError "not enough values to unpack")
  | _ => Raise (ValueError "too many values to unpack")
  end.

(** ** The data model *)

(** Modelled from the spec: [calibration.py] ([DeviceCalibration]) is not among
    the sources; the record has the eight tables the importers write to, and
    [DeviceCalibration()] starts with every table empty. *)
Record DeviceCalibration := mkCalibration {
  single_qubit_gate_fidelity : gmap Z (gmap string float);
  single_qubit_gate_duration : gmap Z (gmap string float);
  two_qubit_gate_fidelity : gmap (Z * Z) (gmap string float);
  two_qubit_gate_duration : gmap (Z * Z) (gmap string float);
  readout_fidelity : gmap Z float;
  readout_duration : gmap Z float;
  t1 : gmap Z float;
  t2 : gmap Z float
}.

Definition DeviceCalibration_new : DeviceCalibration :=
  mkCalibration ∅ ∅ ∅ ∅ ∅ ∅ ∅ ∅.

Definition set_single_qubit_gate_fidelity m c :=
  mkCalibration m (single_qubit_gate_duration c) (two_qubit_gate_fidelity c)
    (two_qubit_gate_duration c) (readout_fidelity c) (readout_duration c) (t1 c) (t2 c).
Definition set_single_qubit_gate_duration m c :=
  mkCalibration (single_qubit_gate_fidelity c) m (two_qubit_gate_fidelity c)
    (two_qubit_gate_duration c) (readout_fidelity c) (readout_duration c) (t1 c) (t2 c).
Definition set_two_qubit_gate_fidelity m c :=
  mkCalibration (single_qubit_gate_fidelity c) (single_qubit_gate_duration c) m
    (two_qubit_gate_duration c) (readout_fidelity c) (readout_duration c) (t1 c) (t2 c).
Definition set_two_qubit_gate_duration m c :=
  mkCalibration (single_qubit_gate_fidelity c) (single_qubit_gate_duration c)
    (two_qubit_gate_fidelity c) m (readout_fidelity c) (readout_duration c) (t1 c) (t2 c).
Definition set_readout_fidelity m c :=
  mkCalibration (single_qubit_gate_fidelity c) (single_qubit_gate_duration c)
    (two_qubit_gate_fidelity c) (two_qubit_gate_duration c) m (readout_duration c) (t1 c) (t2 c).
Definition set_readout_duration m c :=
  mkCalibration (single_qubit_gate_fidelity c) (single_qubit_gate_duration c)
    (two_qubit_gate_fidelity c) (two_qubit_gate_duration c) (readout_fidelity c) m (t1 c) (t2 c).
Definition set_t1 m c :=
  mkCalibration (single_qubit_gate_fidelity c) (single_qubit_gate_duration c)
    (two_qubit_gate_fidelity c) (two_qubit_gate_duration c) (readout_fidelity c)
    (readout_duration c) m (t2 c).
Definition set_t2 m c :=
  mkCalibration (single_qubit_gate_fidelity c) (single_qubit_gate_duration c)
    (two_qubit_gate_fidelity c) (two_qubit_gate_duration c) (readout_fidelity c)
    (readout_duration c) (t1 c) m.

(** Modelled from the spec: [device.py] ([Device]) is not among the sources;
    the record has the five attributes the importers assign. *)
Record Device := mkDevice {
  name : string;
  num_qubits : Z;
  basis_gates : list string;
  coupling_map : list (list Z);
  calibration : DeviceCalibration
}.

(** ** The decoded calibration files (the [TypedDict]s of the sources)

    [json.load] followed by [cast] gives a dictionary of the declared shape;
    the fixed keys of a [TypedDict] are record fields, the dictionaries keyed
    by qubit or edge strings stay finite maps whose lookups may fail.  The
    numbers are [float]s, as declared; a JSON integer such as [100] stands for
    the float of the same value, which is what Python's arithmetic with
    [1e-6] and [1e-9] makes of it. *)

Module QubitPropertiesIBM.
Record t := mk {
  T1 : float; (* us *)
  T2 : float; (* us *)
  eRO : float;
  tRO : float; (* ns *)
  eID : float;
  eSX : float;
  eX : float;
  eCX : gmap string float;
  tCX : gmap string float (* ns *)
}.
End QubitPropertiesIBM.

Module QubitPropertiesOpenAccess.
Record t := mk {
  T1 : float; (* us *)
  T2 : float; (* us *)
  eRO : float;
  tRO : float; (* ns *)
  eID : float;
  eSX : float;
  eX : float;
  eECR : gmap string float;
  tECR : gmap string float (* ns *)
}.
End QubitPropertiesOpenAccess.

Module IBMCalibration.
Record t := mk {
  name : string;
  basis_gates : list string;
  num_qubits : Z;
  connectivity : list (list Z);
  properties : gmap string QubitPropertiesIBM.t
}.
End IBMCalibration.

(** [ibm.py] and [ibm_open_access.py] declare this dictionary twice, with the
    same keys. *)
Module IBMOpenAccessCalibration.
Record t := mk {
  name : string;
  basis_gates : list string;
  num_qubits : Z;
  connectivity : list (list Z);
  properties : gmap string QubitPropertiesOpenAccess.t
}.
End IBMOpenAccessCalibration.

Module OQC.
Record QubitProperties := mkQubit {
  T1 : float;
  T2 : float;
  fRB : float;
  fRO : float;
  qubit : float
}.
Record Coupling := mkCoupling {
  control_qubit : float;
  target_qubit : float
}.
Record TwoQubitProperties := mkTwoQubit {
  coupling : Coupling;
  fECR : float
}.
Record Properties := mkProperties {
  one_qubit : gmap string QubitProperties;
  two_qubit : gmap string TwoQubitProperties
}.
Record OQCCalibration := mk {
  name : string;
  basis_gates : list string;
  num_qubits : Z;
  connectivity : list (list Z);
  properties : Properties
}.
End OQC.

(** ** The Qiskit objects read by the live imports

    [BackendProperties] and [Target] belong to Qiskit; they are given by the
    accessors the importers call. *)

Module BackendProperties.
Record Gate := mkGate {
  gate : string;
  qubits : list Z
}.
Record t := mk {
  len_qubits : Z; (* len(backend_properties.qubits) *)
  t1 : Z -> float;
  t2 : Z -> float;
  readout_error : Z -> float;
  readout_length : Z -> float;
  gates : list Gate;
  gate_error : string -> list Z -> float;
  gate_length : string -> list Z -> float
}.
End BackendProperties.

Module Target.
Record QubitProperties := mkQubit {
  t1 : float;
  t2 : float
}.
Record InstructionProperties := mkInstruction {
  error : float;
  duration : float
}.
Record t := mk {
  qubit_properties : list QubitProperties;
  coupling_map_edges : list (Z * Z); (* target.build_coupling_map().get_edges() *)
  instructions : list (string * list Z); (* (instruction.name, qargs) *)
  getitem : string -> list Z -> InstructionProperties (* target[name][qargs] *)
}.
End Target.

(** A Qiskit [BackendV2], by the attributes [import_qiskit_backend] reads. *)
Module BackendV2.
Record t := mk {
  name : string;
  num_qubits : Z;
  operation_names : list string;
  coupling_map_edges : list (Z * Z); (* backend.coupling_map.get_edges() *)
  target : Target.t
}.
End BackendV2.

(** ** ibm.py: the file-based importers *)

Module ibm.

(** Body of [for qubit in range(device.num_qubits)] of
    [IBMProvider.import_backend]. *)
Definition IBMProvider_qubit_step (properties : gmap string QubitPropertiesIBM.t)
    (calibration : DeviceCalibration) (qubit : Z) : result DeviceCalibration :=
  p ← getitem id properties (str qubit);
  let calibration :=
    set_single_qubit_gate_fidelity
      (<[qubit := <["id" := (1 - QubitPropertiesIBM.eID p)%float]>
                  (<["rz" := 1%float]> (* rz is always perfect *)
                  (<["sx" := (1 - QubitPropertiesIBM.eSX p)%float]>
                  (<["x" := (1 - QubitPropertiesIBM.eX p)%float]> ∅)))]>
         (single_qubit_gate_fidelity calibration)) calibration in
  let calibration :=
    set_readout_fidelity
      (<[qubit := (1 - QubitPropertiesIBM.eRO p)%float]> (readout_fidelity calibration))
      calibration in
  let calibration :=
    set_readout_duration
      (<[qubit := (QubitPropertiesIBM.tRO p * 1e-9)%float]> (readout_duration calibration))
      calibration in
  let calibration :=
    set_t1 (<[qubit := (QubitPropertiesIBM.T1 p * 1e-6)%float]> (t1 calibration))
      calibration in
  let calibration :=
    set_t2 (<[qubit := (QubitPropertiesIBM.T2 p * 1e-6)%float]> (t2 calibration))
      calibration in
  Ok calibration.

(** Body of [for qubit1, qubit2 in device.coupling_map] of
    [IBMProvider.import_backend]. *)
Definition IBMProvider_edge_step (properties : gmap string QubitPropertiesIBM.t)
    (calibration : DeviceCalibration) (e : list Z) : result DeviceCalibration :=
  '(qubit1, qubit2) ← unpack2 e;
  let edge := str qubit1 +:+ "_" +:+ str qubit2 in
  p ← getitem id properties (str qubit1);
  error ← getitem id (QubitPropertiesIBM.eCX p) edge;
  let calibration :=
    set_two_qubit_gate_fidelity
      (<[(qubit1, qubit2) := {["cx" := (1 - error)%float]}]>
         (two_qubit_gate_fidelity calibration)) calibration in
  p ← getitem id properties (str qubit1);
  t ← getitem id (QubitPropertiesIBM.tCX p) edge;
  let duration := (t * 1e-9)%float in
  let calibration :=
    set_two_qubit_gate_duration
      (<[(qubit1, qubit2) := {["cx" := duration]}]>
         (two_qubit_gate_duration calibration)) calibration in
  Ok calibration.

(** [IBMProvider.import_backend], from the decoded file on. *)
Definition IBMProvider_import_backend (ibm_calibration : IBMCalibration.t)
  : result Device :=
  let device_name := IBMCalibration.name ibm_calibration in
  let device_num_qubits := IBMCalibration.num_qubits ibm_calibration in
  let device_basis_gates := IBMCalibration.basis_gates ibm_calibration in
  let device_coupling_map := IBMCalibration.connectivity ibm_calibration in
  let calibration := DeviceCalibration_new in
  calibration ← for_each
    (IBMProvider_qubit_step (IBMCalibration.properties ibm_calibration))
    (range device_num_qubits) calibration;
  calibration ← for_each
    (IBMProvider_edge_step (IBMCalibration.properties ibm_calibration))
    device_coupling_map calibration;
  Ok (mkDevice device_name device_num_qubits device_basis_gates device_coupling_map
        calibration).

(** Body of [for qubit in range(device.num_qubits)] of
    [IBMOpenAccessProvider.import_backend]. *)
Definition IBMOpenAccessProvider_qubit_step
    (properties : gmap string QubitPropertiesOpenAccess.t)
    (calibration : DeviceCalibration) (qubit : Z) : result DeviceCalibration :=
  p ← getitem id properties (str qubit);
  let calibration :=
    set_single_qubit_gate_fidelity
      (<[qubit := <["id" := (1 - QubitPropertiesOpenAccess.eID p)%float]>
                  (<["rz" := 1%float]> (* rz is always perfect *)
                  (<["sx" := (1 - QubitPropertiesOpenAccess.eSX p)%float]>
                  (<["x" := (1 - QubitPropertiesOpenAccess.eX p)%float]> ∅)))]>
         (single_qubit_gate_fidelity calibration)) calibration in
  let calibration :=
    set_readout_fidelity
      (<[qubit := (1 - QubitPropertiesOpenAccess.eRO p)%float]>
         (readout_fidelity calibration)) calibration in
  let calibration :=
    set_readout_duration
      (<[qubit := (QubitPropertiesOpenAccess.tRO p * 1e-9)%float]>
         (readout_duration calibration)) calibration in
  let calibration :=
    set_t1 (<[qubit := (QubitPropertiesOpenAccess.T1 p * 1e-6)%float]> (t1 calibration))
      calibration in
  let calibration :=
    set_t2 (<[qubit := (QubitPropertiesOpenAccess.T2 p * 1e-6)%float]> (t2 calibration))
      calibration in
  Ok calibration.

(** Body of [for qubit1, qubit2 in device.coupling_map] of
    [IBMOpenAccessProvider.import_backend]: the duration is read from
    [tECR]. *)
Definition IBMOpenAccessProvider_edge_step
    (properties : gmap string QubitPropertiesOpenAccess.t)
    (calibration : DeviceCalibration) (e : list Z) : result DeviceCalibration :=
  '(qubit1, qubit2) ← unpack2 e;
  let edge := str qubit1 +:+ "_" +:+ str qubit2 in
  p ← getitem id properties (str qubit1);
  error ← getitem id (QubitPropertiesOpenAccess.eECR p) edge;
  let calibration :=
    set_two_qubit_gate_fidelity
      (<[(qubit1, qubit2) := {["ecr" := (1 - error)%float]}]>
         (two_qubit_gate_fidelity calibration)) calibration in
  p ← getitem id properties (str qubit1);
  t ← getitem id (QubitPropertiesOpenAccess.tECR p) edge;
  let duration := (t * 1e-9)%float in
  let calibration :=
    set_two_qubit_gate_duration
      (<[(qubit1, qubit2) := {["ecr" := duration]}]>
         (two_qubit_gate_duration calibration)) calibration in
  Ok calibration.

(** [IBMOpenAccessProvider.import_backend] of [ibm.py], from the decoded
    file on. *)
Definition IBMOpenAccessProvider_import_backend
    (open_access_ibm_calibration : IBMOpenAccessCalibration.t) : result Device :=
  let device_name := IBMOpenAccessCalibration.name open_access_ibm_calibration in
  let device_num_qubits :=
    IBMOpenAccessCalibration.num_qubits open_access_ibm_calibration in
  let device_basis_gates :=
    IBMOpenAccessCalibration.basis_gates open_access_ibm_calibration in
  let device_coupling_map :=
    IBMOpenAccessCalibration.connectivity open_access_ibm_calibration in
  let calibration := DeviceCalibration_new in
  calibration ← for_each
    (IBMOpenAccessProvider_qubit_step
       (IBMOpenAccessCalibration.properties open_access_ibm_calibration))
    (range device_num_qubits) calibration;
  calibration ← for_each
    (IBMOpenAccessProvider_edge_step
       (IBMOpenAccessCalibration.properties open_access_ibm_calibration))
    device_coupling_map calibration;
  Ok (mkDevice device_name device_num_qubits device_basis_gates device_coupling_map
        calibration).

(** *** [BaseIBMProvider]: the imports from live Qiskit objects *)

(** Body of the first loop of [import_backend_properties]. *)
Definition import_backend_properties_qubit_step (backend_properties : BackendProperties.t)
    (calibration : DeviceCalibration) (qubit : Z) : result DeviceCalibration :=
  let calibration :=
    set_t1 (<[qubit := BackendProperties.t1 backend_properties qubit]> (t1 calibration))
      calibration in
  let calibration :=
    set_t2 (<[qubit := BackendProperties.t2 backend_properties qubit]> (t2 calibration))
      calibration in
  let calibration :=
    set_readout_fidelity
      (<[qubit := (1 - BackendProperties.readout_error backend_properties qubit)%float]>
         (readout_fidelity calibration)) calibration in
  let calibration :=
    set_readout_duration
      (<[qubit := BackendProperties.readout_length backend_properties qubit]>
         (readout_duration calibration)) calibration in
  Ok calibration.

(** Body of [for gate in backend_properties.gates]: only ["reset"] is
    skipped. *)
Definition import_backend_properties_gate_step (backend_properties : BackendProperties.t)
    (calibration : DeviceCalibration) (gate : BackendProperties.Gate)
  : result DeviceCalibration :=
  if decide (BackendProperties.gate gate = "reset") then Ok calibration
  else
    let error :=
      BackendProperties.gate_error backend_properties
        (BackendProperties.gate gate) (BackendProperties.qubits gate) in
    let duration :=
      BackendProperties.gate_length backend_properties
        (BackendProperties.gate gate) (BackendProperties.qubits gate) in
    match BackendProperties.qubits gate with
    | [qubit] =>
        d ← getitem str (single_qubit_gate_fidelity calibration) qubit;
        let calibration :=
          set_single_qubit_gate_fidelity
            (<[qubit := <[BackendProperties.gate gate := (1 - error)%float]> d]>
               (single_qubit_gate_fidelity calibration)) calibration in
        d ← getitem str (single_qubit_gate_duration calibration) qubit;
        let calibration :=
          set_single_qubit_gate_duration
            (<[qubit := <[BackendProperties.gate gate := duration]> d]>
               (single_qubit_gate_duration calibration)) calibration in
        Ok calibration
    | [qubit1; qubit2] =>
        let calibration :=
          match two_qubit_gate_fidelity calibration !! (qubit1, qubit2) with
          | None =>
              set_two_qubit_gate_fidelity
                (<[(qubit1, qubit2) := ∅]> (two_qubit_gate_fidelity calibration))
                calibration
          | Some _ => calibration
          end in
        d ← getitem repr_pair (two_qubit_gate_fidelity calibration) (qubit1, qubit2);
        let calibration :=
          set_two_qubit_gate_fidelity
            (<[(qubit1, qubit2) := <[BackendProperties.gate gate := (1 - error)%float]> d]>
               (two_qubit_gate_fidelity calibration)) calibration in
        let calibration :=
          match two_qubit_gate_duration calibration !! (qubit1, qubit2) with
          | None =>
              set_two_qubit_gate_duration
                (<[(qubit1, qubit2) := ∅]> (two_qubit_gate_duration calibration))
                calibration
          | Some _ => calibration
          end in
        d ← getitem repr_pair (two_qubit_gate_duration calibration) (qubit1, qubit2);
        let calibration :=
          set_two_qubit_gate_duration
            (<[(qubit1, qubit2) := <[BackendProperties.gate gate := duration]> d]>
               (two_qubit_gate_duration calibration)) calibration in
        Ok calibration
    | _ => Ok calibration
    end.

(** [{qubit: {} for qubit in range(num_qubits)}] and
    [{(qubit1, qubit2): {} for qubit1, qubit2 in coupling_map}]. *)
Definition empty_tables {K : Type} `{Countable K} (keys : list K)
  : gmap K (gmap string float) :=
  list_to_map ((fun k => (k, ∅)) <$> keys).

Definition import_backend_properties (backend_properties : BackendProperties.t)
  : result DeviceCalibration :=
  let calibration := DeviceCalibration_new in
  let num_qubits := BackendProperties.len_qubits backend_properties in
  calibration ← for_each (import_backend_properties_qubit_step backend_properties)
    (range num_qubits) calibration;
  let calibration :=
    set_single_qubit_gate_fidelity (empty_tables (range num_qubits)) calibration in
  let calibration :=
    set_single_qubit_gate_duration (empty_tables (range num_qubits)) calibration in
  for_each (import_backend_properties_gate_step backend_properties)
    (BackendProperties.gates backend_properties) calibration.

(** Body of the first loop of [import_target]. *)
Definition import_target_qubit_step (target : Target.t)
    (calibration : DeviceCalibration) (qubit : Z) : result DeviceCalibration :=
  match Target.qubit_properties target !! Z.to_nat qubit with
  | None => Raise (IndexError "list index out of range")
  | Some qubit_props =>
      let calibration :=
        set_t1 (<[qubit := Target.t1 qubit_props]> (t1 calibration)) calibration in
      let calibration :=
        set_t2 (<[qubit := Target.t2 qubit_props]> (t2 calibration)) calibration in
      Ok calibration
  end.

(** Body of [for instruction, qargs in target.instructions]: ["reset"] and
    ["delay"] are skipped. *)
Definition import_target_instruction_step (target : Target.t)
    (calibration : DeviceCalibration) (instruction : string * list Z)
  : result DeviceCalibration :=
  let '(instruction_name, qargs) := instruction in
  if decide (instruction_name ∈ ["reset"; "delay"]) then Ok calibration
  else
    let instruction_props := Target.getitem target instruction_name qargs in
    let error := Target.error instruction_props in
    let duration := Target.duration instruction_props in
    match qargs with
    | [] => Raise (IndexError "tuple index out of range")
    | qubit :: _ =>
        if decide (instruction_name = "measure") then
          let calibration :=
            set_readout_fidelity
              (<[qubit := (1 - error)%float]> (readout_fidelity calibration))
              calibration in
          let calibration :=
            set_readout_duration
              (<[qubit := duration]> (readout_duration calibration)) calibration in
          Ok calibration
        else
          match qargs with
          | [_] =>
              d ← getitem str (single_qubit_gate_fidelity calibration) qubit;
              let calibration :=
                set_single_qubit_gate_fidelity
                  (<[qubit := <[instruction_name := (1 - error)%float]> d]>
                     (single_qubit_gate_fidelity calibration)) calibration in
              d ← getitem str (single_qubit_gate_duration calibration) qubit;
              let calibration :=
                set_single_qubit_gate_duration
                  (<[qubit := <[instruction_name := duration]> d]>
                     (single_qubit_gate_duration calibration)) calibration in
              Ok calibration
          | [qubit1; qubit2] =>
              d ← getitem repr_pair (two_qubit_gate_fidelity calibration)
                    (qubit1, qubit2);
              let calibration :=
                set_two_qubit_gate_fidelity
                  (<[(qubit1, qubit2) := <[instruction_name := (1 - error)%float]> d]>
                     (two_qubit_gate_fidelity calibration)) calibration in
              d ← getitem repr_pair (two_qubit_gate_duration calibration)
                    (qubit1, qubit2);
              let calibration :=
                set_two_qubit_gate_duration
                  (<[(qubit1, qubit2) := <[instruction_name := duration]> d]>
                     (two_qubit_gate_duration calibration)) calibration in
              Ok calibration
          | _ => Ok calibration
          end
    end.

Definition import_target (target : Target.t) : result DeviceCalibration :=
  let calibration := DeviceCalibration_new in
  let num_qubits := Z.of_nat (length (Target.qubit_properties target)) in
  calibration ← for_each (import_target_qubit_step target) (range num_qubits)
    calibration;
  let calibration :=
    set_single_qubit_gate_fidelity (empty_tables (range num_qubits)) calibration in
  let calibration :=
    set_single_qubit_gate_duration (empty_tables (range num_qubits)) calibration in
  let coupling_map := Target.coupling_map_edges target in
  let calibration :=
    set_two_qubit_gate_fidelity (empty_tables coupling_map) calibration in
  let calibration :=
    set_two_qubit_gate_duration (empty_tables coupling_map) calibration in
  for_each (import_target_instruction_step target) (Target.instructions target)
    calibration.

(** [IBMProvider.import_qiskit_backend]; an edge [(q1, q2)] of the backend's
    coupling map is the two-element sequence [[q1; q2]] of the device. *)
Definition IBMProvider_import_qiskit_backend (backend : BackendV2.t) : result Device :=
  let device_name := BackendV2.name backend in
  let device_num_qubits := BackendV2.num_qubits backend in
  let device_basis_gates := BackendV2.operation_names backend in
  let device_coupling_map :=
    (fun e : Z * Z => [e.1; e.2]) <$> BackendV2.coupling_map_edges backend in
  calibration ← import_target (BackendV2.target backend);
  Ok (mkDevice device_name device_num_qubits device_basis_gates device_coupling_map
        calibration).

End ibm.

(** ** ibm_open_access.py: the second open-access importer *)

Module ibm_open_access.

(** Body of [for qubit in range(device.num_qubits)]. *)
Definition IBMOpenAccessProvider_qubit_step
    (properties : gmap string QubitPropertiesOpenAccess.t)
    (calibration : DeviceCalibration) (qubit : Z) : result DeviceCalibration :=
  p ← getitem id properties (str qubit);
  let calibration :=
    set_single_qubit_gate_fidelity
      (<[qubit := <["id" := (1 - QubitPropertiesOpenAccess.eID p)%float]>
                  (<["rz" := 1%float]> (* rz is always perfect *)
                  (<["sx" := (1 - QubitPropertiesOpenAccess.eSX p)%float]>
                  (<["x" := (1 - QubitPropertiesOpenAccess.eX p)%float]> ∅)))]>
         (single_qubit_gate_fidelity calibration)) calibration in
  let calibration :=
    set_readout_fidelity
      (<[qubit := (1 - QubitPropertiesOpenAccess.eRO p)%float]>
         (readout_fidelity calibration)) calibration in
  let calibration :=
    set_readout_duration
      (<[qubit := (QubitPropertiesOpenAccess.tRO p * 1e-9)%float]>
         (readout_duration calibration)) calibration in
  let calibration :=
    set_t1 (<[qubit := (QubitPropertiesOpenAccess.T1 p * 1e-6)%float]> (t1 calibration))
      calibration in
  let calibration :=
    set_t2 (<[qubit := (QubitPropertiesOpenAccess.T2 p * 1e-6)%float]> (t2 calibration))
      calibration in
  Ok calibration.

(** Body of [for qubit1, qubit2 in device.coupling_map]: here the duration
    is read from [eECR], the field the error was read from. *)
Definition IBMOpenAccessProvider_edge_step
    (properties : gmap string QubitPropertiesOpenAccess.t)
    (calibration : DeviceCalibration) (e : list Z) : result DeviceCalibration :=
  '(qubit1, qubit2) ← unpack2 e;
  let edge := str qubit1 +:+ "_" +:+ str qubit2 in
  p ← getitem id properties (str qubit1);
  error ← getitem id (QubitPropertiesOpenAccess.eECR p) edge;
  let calibration :=
    set_two_qubit_gate_fidelity
      (<[(qubit1, qubit2) := {["ecr" := (1 - error)%float]}]>
         (two_qubit_gate_fidelity calibration)) calibration in
  p ← getitem id properties (str qubit1);
  t ← getitem id (QubitPropertiesOpenAccess.eECR p) edge;
  let duration := (t * 1e-9)%float in
  let calibration :=
    set_two_qubit_gate_duration
      (<[(qubit1, qubit2) := {["ecr" := duration]}]>
         (two_qubit_gate_duration calibration)) calibration in
  Ok calibration.

(** [IBMOpenAccessProvider.import_backend] of [ibm_open_access.py], from the
    decoded file on. *)
Definition IBMOpenAccessProvider_import_backend
    (open_access_ibm_calibration : IBMOpenAccessCalibration.t) : result Device :=
  let device_name := IBMOpenAccessCalibration.name open_access_ibm_calibration in
  let device_num_qubits :=
    IBMOpenAccessCalibration.num_qubits open_access_ibm_calibration in
  let device_basis_gates :=
    IBMOpenAccessCalibration.basis_gates open_access_ibm_calibration in
  let device_coupling_map :=
    IBMOpenAccessCalibration.connectivity open_access_ibm_calibration in
  let calibration := DeviceCalibration_new in
  calibration ← for_each
    (IBMOpenAccessProvider_qubit_step
       (IBMOpenAccessCalibration.properties open_access_ibm_calibration))
    (range device_num_qubits) calibration;
  calibration ← for_each
    (IBMOpenAccessProvider_edge_step
       (IBMOpenAccessCalibration.properties open_access_ibm_calibration))
    device_coupling_map calibration;
  Ok (mkDevice device_name device_num_qubits device_basis_gates device_coupling_map
        calibration).

(** *** The private copies of the live imports *)

(** Body of the first loop of [__import_backend_properties]. *)
Definition IBMOpenAccessProvider__import_backend_properties_qubit_step
    (backend_properties : BackendProperties.t)
    (calibration : DeviceCalibration) (qubit : Z) : result DeviceCalibration :=
  let calibration :=
    set_t1 (<[qubit := BackendProperties.t1 backend_properties qubit]> (t1 calibration))
      calibration in
  let calibration :=
    set_t2 (<[qubit := BackendProperties.t2 backend_properties qubit]> (t2 calibration))
      calibration in
  let calibration :=
    set_readout_fidelity
      (<[qubit := (1 - BackendProperties.readout_error backend_properties qubit)%float]>
         (readout_fidelity calibration)) calibration in
  let calibration :=
    set_readout_duration
      (<[qubit := BackendProperties.readout_length backend_properties qubit]>
         (readout_duration calibration)) calibration in
  Ok calibration.

(** Body of [for gate in backend_properties.gates] of
    [__import_backend_properties]. *)
Definition IBMOpenAccessProvider__import_backend_properties_gate_step
    (backend_properties : BackendProperties.t)
    (calibration : DeviceCalibration) (gate : BackendProperties.Gate)
  : result DeviceCalibration :=
  (* Skip `reset` gate as its error information is not exposed. *)
  if decide (BackendProperties.gate gate = "reset") then Ok calibration
  else
    let error :=
      BackendProperties.gate_error backend_properties
        (BackendProperties.gate gate) (BackendProperties.qubits gate) in
    let duration :=
      BackendProperties.gate_length backend_properties
        (BackendProperties.gate gate) (BackendProperties.qubits gate) in
    match BackendProperties.qubits gate with
    | [qubit] =>
        d ← getitem str (single_qubit_gate_fidelity calibration) qubit;
        let calibration :=
          set_single_qubit_gate_fidelity
            (<[qubit := <[BackendProperties.gate gate := (1 - error)%float]> d]>
               (single_qubit_gate_fidelity calibration)) calibration in
        d ← getitem str (single_qubit_gate_duration calibration) qubit;
        let calibration :=
          set_single_qubit_gate_duration
            (<[qubit := <[BackendProperties.gate gate := duration]> d]>
               (single_qubit_gate_duration calibration)) calibration in
        Ok calibration
    | [qubit1; qubit2] =>
        let calibration :=
          match two_qubit_gate_fidelity calibration !! (qubit1, qubit2) with
          | None =>
              set_two_qubit_gate_fidelity
                (<[(qubit1, qubit2) := ∅]> (two_qubit_gate_fidelity calibration))
                calibration
          | Some _ => calibration
          end in
        d ← getitem repr_pair (two_qubit_gate_fidelity calibration) (qubit1, qubit2);
        let calibration :=
          set_two_qubit_gate_fidelity
            (<[(qubit1, qubit2) := <[BackendProperties.gate gate := (1 - error)%float]> d]>
               (two_qubit_gate_fidelity calibration)) calibration in
        let calibration :=
          match two_qubit_gate_duration calibration !! (qubit1, qubit2) with
          | None =>
              set_two_qubit_gate_duration
                (<[(qubit1, qubit2) := ∅]> (two_qubit_gate_duration calibration))
                calibration
          | Some _ => calibration
          end in
        d ← getitem repr_pair (two_qubit_gate_duration calibration) (qubit1, qubit2);
        let calibration :=
          set_two_qubit_gate_duration
            (<[(qubit1, qubit2) := <[BackendProperties.gate gate := duration]> d]>
               (two_qubit_gate_duration calibration)) calibration in
        Ok calibration
    | _ => Ok calibration
    end.

(** [IBMOpenAccessProvider.__import_backend_properties]. *)
Definition IBMOpenAccessProvider__import_backend_properties
    (backend_properties : BackendProperties.t) : result DeviceCalibration :=
  let calibration := DeviceCalibration_new in
  let num_qubits := BackendProperties.len_qubits backend_properties in
  calibration ← for_each
    (IBMOpenAccessProvider__import_backend_properties_qubit_step backend_properties)
    (range num_qubits) calibration;
  let calibration :=
    set_single_qubit_gate_fidelity (ibm.empty_tables (range num_qubits)) calibration in
  let calibration :=
    set_single_qubit_gate_duration (ibm.empty_tables (range num_qubits)) calibration in
  for_each (IBMOpenAccessProvider__import_backend_properties_gate_step backend_properties)
    (BackendProperties.gates backend_properties) calibration.

(** Body of the first loop of [__import_target]. *)
Definition IBMOpenAccessProvider__import_target_qubit_step (target : Target.t)
    (calibration : DeviceCalibration) (qubit : Z) : result DeviceCalibration :=
  match Target.qubit_properties target !! Z.to_nat qubit with
  | None => Raise (IndexError "list index out of range")
  | Some qubit_props =>
      let calibration :=
        set_t1 (<[qubit := Target.t1 qubit_props]> (t1 calibration)) calibration in
      let calibration :=
        set_t2 (<[qubit := Target.t2 qubit_props]> (t2 calibration)) calibration in
      Ok calibration
  end.

(** Body of [for instruction, qargs in target.instructions] of
    [__import_target]: the skip is written with [or]. *)
Definition IBMOpenAccessProvider__import_target_instruction_step (target : Target.t)
    (calibration : DeviceCalibration) (instruction : string * list Z)
  : result DeviceCalibration :=
  let '(instruction_name, qargs) := instruction in
  (* Skip `reset` and `delay` gate as their error information is not exposed. *)
  if bool_decide (instruction_name = "reset") || bool_decide (instruction_name = "delay")
  then Ok calibration
  else
    let instruction_props := Target.getitem target instruction_name qargs in
    let error := Target.error instruction_props in
    let duration := Target.duration instruction_props in
    match qargs with
    | [] => Raise (IndexError "tuple index out of range")
    | qubit :: _ =>
        if decide (instruction_name = "measure") then
          let calibration :=
            set_readout_fidelity
              (<[qubit := (1 - error)%float]> (readout_fidelity calibration))
              calibration in
          let calibration :=
            set_readout_duration
              (<[qubit := duration]> (readout_duration calibration)) calibration in
          Ok calibration
        else
          match qargs with
          | [_] =>
              d ← getitem str (single_qubit_gate_fidelity calibration) qubit;
              let calibration :=
                set_single_qubit_gate_fidelity
                  (<[qubit := <[instruction_name := (1 - error)%float]> d]>
                     (single_qubit_gate_fidelity calibration)) calibration in
              d ← getitem str (single_qubit_gate_duration calibration) qubit;
              let calibration :=
                set_single_qubit_gate_duration
                  (<[qubit := <[instruction_name := duration]> d]>
                     (single_qubit_gate_duration calibration)) calibration in
              Ok calibration
          | [qubit1; qubit2] =>
              d ← getitem repr_pair (two_qubit_gate_fidelity calibration)
                    (qubit1, qubit2);
              let calibration :=
                set_two_qubit_gate_fidelity
                  (<[(qubit1, qubit2) := <[instruction_name := (1 - error)%float]> d]>
                     (two_qubit_gate_fidelity calibration)) calibration in
              d ← getitem repr_pair (two_qubit_gate_duration calibration)
                    (qubit1, qubit2);
              let calibration :=
                set_two_qubit_gate_duration
                  (<[(qubit1, qubit2) := <[instruction_name := duration]> d]>
                     (two_qubit_gate_duration calibration)) calibration in
              Ok calibration
          | _ => Ok calibration
          end
    end.

(** [IBMOpenAccessProvider.__import_target]. *)
Definition IBMOpenAccessProvider__import_target (target : Target.t)
  : result DeviceCalibration :=
  let calibration := DeviceCalibration_new in
  let num_qubits := Z.of_nat (length (Target.qubit_properties target)) in
  calibration ← for_each (IBMOpenAccessProvider__import_target_qubit_step target)
    (range num_qubits) calibration;
  let calibration :=
    set_single_qubit_gate_fidelity (ibm.empty_tables (range num_qubits)) calibration in
  let calibration :=
    set_single_qubit_gate_duration (ibm.empty_tables (range num_qubits)) calibration in
  let coupling_map := Target.coupling_map_edges target in
  let calibration :=
    set_two_qubit_gate_fidelity (ibm.empty_tables coupling_map) calibration in
  let calibration :=
    set_two_qubit_gate_duration (ibm.empty_tables coupling_map) calibration in
  for_each (IBMOpenAccessProvider__import_target_instruction_step target)
    (Target.instructions target) calibration.

End ibm_open_access.

(** ** oqc.py *)

Module oqc.

(** Body of [for qubit in range(device.num_qubits)]. *)
Definition OQCProvider_qubit_step (properties : OQC.Properties)
    (calibration : DeviceCalibration) (qubit : Z) : result DeviceCalibration :=
  p ← getitem id (OQC.one_qubit properties) (str qubit);
  let calibration :=
    set_single_qubit_gate_fidelity
      (<[qubit := <["rz" := OQC.fRB p]> (<["sx" := OQC.fRB p]> (<["x" := OQC.fRB p]> ∅))]>
         (single_qubit_gate_fidelity calibration)) calibration in
  let calibration :=
    set_readout_fidelity (<[qubit := OQC.fRO p]> (readout_fidelity calibration))
      calibration in
  let calibration :=
    set_t1 (<[qubit := (OQC.T1 p * 1e-6)%float]> (t1 calibration)) calibration in
  let calibration :=
    set_t2 (<[qubit := (OQC.T2 p * 1e-6)%float]> (t2 calibration)) calibration in
  Ok calibration.

(** Body of [for qubit1, qubit2 in device.coupling_map]. *)
Definition OQCProvider_edge_step (properties : OQC.Properties)
    (calibration : DeviceCalibration) (e : list Z) : result DeviceCalibration :=
  '(qubit1, qubit2) ← unpack2 e;
  tq ← getitem id (OQC.two_qubit properties) (str qubit1 +:+ "-" +:+ str qubit2);
  let calibration :=
    set_two_qubit_gate_fidelity
      (<[(qubit1, qubit2) := {["ecr" := OQC.fECR tq]}]>
         (two_qubit_gate_fidelity calibration)) calibration in
  Ok calibration.

(** The part of [OQCProvider.import_backend] after the file is decoded. *)
Definition OQCProvider_import_calibration (oqc_calibration : OQC.OQCCalibration)
  : result Device :=
  let device_name := OQC.name oqc_calibration in
  let device_num_qubits := OQC.num_qubits oqc_calibration in
  let device_basis_gates := OQC.basis_gates oqc_calibration in
  let device_coupling_map := OQC.connectivity oqc_calibration in
  let calibration := DeviceCalibration_new in
  calibration ← for_each (OQCProvider_qubit_step (OQC.properties oqc_calibration))
    (range device_num_qubits) calibration;
  calibration ← for_each (OQCProvider_edge_step (OQC.properties oqc_calibration))
    device_coupling_map calibration;
  Ok (mkDevice device_name device_num_qubits device_basis_gates device_coupling_map
        calibration).

(** [OQCProvider.import_backend]: [calibration_files] is the content of the
    package directory of that name, each file already decoded. *)
Definition OQCProvider_import_backend
    (calibration_files : gmap string OQC.OQCCalibration) (name : string)
  : result Device :=
  let ref := name +:+ "_calibration.json" in
  match calibration_files !! ref with
  | None => Raise (FileNotFoundError ref)
  | Some oqc_calibration => OQCProvider_import_calibration oqc_calibration
  end.

End oqc.

(** ** provider.py *)

(** The abstract members of [Provider]. *)
Class Provider := mkProvider {
  provider_name : string;
  get_available_device_names : list string;
  get_native_gates : list string;
  import_backend : string -> result Device
}.

(** [Device.sanitize_device] belongs to [device.py], which is not among the
    sources: it is a parameter of the development.  It works in place, so it
    is given as the device after the call. *)
Class DeviceMethods := {
  sanitize_device : Device -> result Device
}.

Section provider.
Context `{cls : Provider} `{DeviceMethods}.

Definition get_device (name : string) (sanitize : bool) : result Device :=
  if decide (name ∉ get_available_device_names) then
    let msg := "Device " +:+ name +:+ " not found." in
    Raise (ValueError msg)
  else
    device ← import_backend name;
    device ← (if sanitize then sanitize_device device else Ok device);
    Ok device.

(** The list comprehension over the device names, left to right. *)
Fixpoint get_devices (names : list string) (sanitize : bool) : result (list Device) :=
  match names with
  | [] => Ok []
  | name :: names' =>
      device ← get_device name sanitize;
      devices ← get_devices names' sanitize;
      Ok (device :: devices)
  end.

Definition get_available_devices (sanitize : bool) : result (list Device) :=
  get_devices get_available_device_names sanitize.

(** The set comprehension makes a set of tuples; the returned list holds
    its elements, in the order the set gives them. *)
Definition get_available_basis_gates : result (list (list string)) :=
  devices ← get_available_devices false;
  let unique_basis_gates : gset (list string) :=
    list_to_set (basis_gates <$> devices) in
  Ok (elements unique_basis_gates).

Definition get_max_qubits : result Z :=
  devices ← get_available_devices false;
  match num_qubits <$> devices with
  | [] => Raise (ValueError "max() arg is an empty sequence")
  | n :: ns => Ok (foldl Z.max n ns)
  end.

End provider.

Definition OQCProvider (calibration_files : gmap string OQC.OQCCalibration) : Provider :=
  {| provider_name := "oqc";
     get_available_device_names := ["oqc_lucy"];
     get_native_gates := ["rz"; "sx"; "x"; "ecr"; "measure"; "barrier"];
     import_backend := oqc.OQCProvider_import_backend calibration_files |}.

(** ** The common shape of the three IBM file imports

    [IBMProvider.import_backend] and the two
    [IBMOpenAccessProvider.import_backend] are the same text up to the names
    of the fields read and of the two-qubit gate; [file_calibration] is that
    text with the names as parameters. *)

Section file_import.
Context {QP : Type}.
Variables (T1 T2 eRO tRO eID eSX eX : QP -> float).
Variables (error_field duration_field : QP -> gmap string float).
Variable two_qubit_gate : string.

Definition file_qubit_step (properties : gmap string QP)
    (calibration : DeviceCalibration) (qubit : Z) : result DeviceCalibration :=
  p ← getitem id properties (str qubit);
  let calibration :=
    set_single_qubit_gate_fidelity
      (<[qubit := <["id" := (1 - eID p)%float]>
                  (<["rz" := 1%float]>
                  (<["sx" := (1 - eSX p)%float]>
                  (<["x" := (1 - eX p)%float]> ∅)))]>
         (single_qubit_gate_fidelity calibration)) calibration in
  let calibration :=
    set_readout_fidelity
      (<[qubit := (1 - eRO p)%float]> (readout_fidelity calibration)) calibration in
  let calibration :=
    set_readout_duration
      (<[qubit := (tRO p * 1e-9)%float]> (readout_duration calibration)) calibration in
  let calibration :=
    set_t1 (<[qubit := (T1 p * 1e-6)%float]> (t1 calibration)) calibration in
  let calibration :=
    set_t2 (<[qubit := (T2 p * 1e-6)%float]> (t2 calibration)) calibration in
  Ok calibration.

Definition file_edge_step (properties : gmap string QP)
    (calibration : DeviceCalibration) (e : list Z) : result DeviceCalibration :=
  '(qubit1, qubit2) ← unpack2 e;
  let edge := str qubit1 +:+ "_" +:+ str qubit2 in
  p ← getitem id properties (str qubit1);
  error ← getitem id (error_field p) edge;
  let calibration :=
    set_two_qubit_gate_fidelity
      (<[(qubit1, qubit2) := {[two_qubit_gate := (1 - error)%float]}]>
         (two_qubit_gate_fidelity calibration)) calibration in
  p ← getitem id properties (str qubit1);
  t ← getitem id (duration_field p) edge;
  let duration := (t * 1e-9)%float in
  let calibration :=
    set_two_qubit_gate_duration
      (<[(qubit1, qubit2) := {[two_qubit_gate := duration]}]>
         (two_qubit_gate_duration calibration)) calibration in
  Ok calibration.

Definition file_calibration (properties : gmap string QP) (num_qubits : Z)
    (connectivity : list (list Z)) : result DeviceCalibration :=
  calibration ← for_each (file_qubit_step properties) (range num_qubits)
    DeviceCalibration_new;
  for_each (file_edge_step properties) connectivity calibration.

(** What the loops look up: the property block of every qubit in range and,
    for every edge, its entry in both fields of the control qubit. *)
Definition file_qubit_ok (properties : gmap string QP) (qubit : Z) : bool :=
  bool_decide (is_Some (properties !! str qubit)).

Definition file_edge_ok (properties : gmap string QP) (e : list Z) : bool :=
  match e with
  | [qubit1; qubit2] =>
      let edge := str qubit1 +:+ "_" +:+ str qubit2 in
      match properties !! str qubit1 with
      | Some p =>
          bool_decide (is_Some (error_field p !! edge))
          && bool_decide (is_Some (duration_field p !! edge))
      | None => false
      end
  | _ => false
  end.

Definition file_well_formed (properties : gmap string QP) (num_qubits : Z)
    (connectivity : list (list Z)) : bool :=
  forallb (file_qubit_ok properties) (range num_qubits)
  && forallb (file_edge_ok properties) connectivity.

End file_import.

(** ** Well-formed calibration files

    A file is well formed when it has the property block of every qubit in
    [range(num_qubits)], every connectivity entry is a pair, and the control
    qubit's block has the edge under both of its two-qubit fields. *)

Definition IBM_well_formed (c : IBMCalibration.t) : bool :=
  file_well_formed QubitPropertiesIBM.eCX QubitPropertiesIBM.tCX
    (IBMCalibration.properties c) (IBMCalibration.num_qubits c)
    (IBMCalibration.connectivity c).

Definition IBMOpenAccess_well_formed (c : IBMOpenAccessCalibration.t) : bool :=
  file_well_formed QubitPropertiesOpenAccess.eECR QubitPropertiesOpenAccess.tECR
    (IBMOpenAccessCalibration.properties c) (IBMOpenAccessCalibration.num_qubits c)
    (IBMOpenAccessCalibration.connectivity c).

Definition OQC_edge_ok (properties : OQC.Properties) (e : list Z) : bool :=
  match e with
  | [qubit1; qubit2] =>
      bool_decide (is_Some (OQC.two_qubit properties !! (str qubit1 +:+ "-" +:+ str qubit2)))
  | _ => false
  end.

Definition OQC_well_formed (c : OQC.OQCCalibration) : bool :=
  forallb (fun q => bool_decide (is_Some (OQC.one_qubit (OQC.properties c) !! str q)))
    (range (OQC.num_qubits c))
  && forallb (OQC_edge_ok (OQC.properties c)) (OQC.connectivity c).

(** The edge key of the IBM files. *)
Definition edge_key (qubit1 qubit2 : Z) : string := str qubit1 +:+ "_" +:+ str qubit2.

(** ** The tables an import is expected to build *)

(** The property block the first loop reads for [qubit]: none outside
    [range(num_qubits)]. *)
Definition qubit_block {QP : Type} (properties : gmap string QP) (num_qubits : Z)
    (qubit : Z) : option QP :=
  if decide (qubit ∈ range num_qubits) then properties !! str qubit else None.

(** The entry of [field] the second loop reads for the edge
    [(qubit1, qubit2)]: none for a pair that is not in the connectivity
    list. *)
Definition edge_value {QP : Type} (field : QP -> gmap string float)
    (properties : gmap string QP) (connectivity : list (list Z))
    (qubit1 qubit2 : Z) : option float :=
  if decide ([qubit1; qubit2] ∈ connectivity) then
    p ← properties !! str qubit1; field p !! edge_key qubit1 qubit2
  else None.

(** The key a connectivity entry is stored under. *)
Definition pair_of (e : list Z) : option (Z * Z) :=
  match e with
  | [qubit1; qubit2] => Some (qubit1, qubit2)
  | _ => None
  end.

(** No entry under the gate name [g] in a table keyed by gate names. *)
Definition no_gate {K : Type} `{Countable K} (g : string)
    (tbl : gmap K (gmap string float)) : Prop :=
  forall k d, tbl !! k = Some d -> d !! g = None.

(** No fidelity or duration entry under the gate name [g]. *)
Definition no_entry_for (g : string) (c : DeviceCalibration) : Prop :=
  no_gate g (single_qubit_gate_fidelity c)
  /\ no_gate g (single_qubit_gate_duration c)
  /\ no_gate g (two_qubit_gate_fidelity c)
  /\ no_gate g (two_qubit_gate_duration c).

(** The invariant of the data model on the keys of a device's tables. *)
Definition qubit_keys_in_range (d : Device) : Prop :=
  forall q,
    is_Some (t1 (calibration d) !! q) \/ is_Some (t2 (calibration d) !! q)
    \/ is_Some (readout_fidelity (calibration d) !! q)
    \/ is_Some (readout_duration (calibration d) !! q) ->
    q ∈ range (num_qubits d).

Definition edge_keys_in_coupling_map (d : Device) : Prop :=
  forall q1 q2,
    is_Some (two_qubit_gate_fidelity (calibration d) !! (q1, q2))
    \/ is_Some (two_qubit_gate_duration (calibration d) !! (q1, q2)) ->
    [q1; q2] ∈ coupling_map d.

(** The device has a ["rz"] fidelity of exactly 1 for each of the
    [num_qubits] qubits of the file it was imported from. *)
Definition rz_fidelity_is_one (num_qubits : Z) (d : Device) : Prop :=
  forall q, 0 <= q < num_qubits ->
    exists g, single_qubit_gate_fidelity (calibration d) !! q = Some g
      /\ g !! "rz" = Some 1%float.

(** ** What the live imports are expected to record *)

(** [tbl[k][g]], when both keys are there. *)
Definition entry {K : Type} `{Countable K} (tbl : gmap K (gmap string float))
    (k : K) (g : string) : option float :=
  tbl !! k ≫= (.!! g).

(** The gates [import_backend_properties] can process: a single-qubit gate
    other than ["reset"] must act on a qubit in [range(num_qubits)]. *)
Definition backend_properties_gate_ok (num_qubits : Z) (gate : BackendProperties.Gate)
  : bool :=
  bool_decide (BackendProperties.gate gate = "reset")
  || match BackendProperties.qubits gate with
     | [qubit] => bool_decide (qubit ∈ range num_qubits)
     | _ => true
     end.

(** The instructions [import_target] can process: apart from ["reset"] and
    ["delay"], an instruction needs a first qubit, and unless it is
    ["measure"], a single-qubit one must act on a qubit in range and a
    two-qubit one on an edge of the coupling map. *)
Definition target_instruction_ok (num_qubits : Z) (edges : list (Z * Z))
    (instruction : string * list Z) : bool :=
  bool_decide (instruction.1 ∈ ["reset"; "delay"])
  || match instruction.2 with
     | [] => false
     | [qubit] =>
         bool_decide (instruction.1 = "measure") || bool_decide (qubit ∈ range num_qubits)
     | [qubit1; qubit2] =>
         bool_decide (instruction.1 = "measure")
         || bool_decide ((qubit1, qubit2) ∈ edges)
     | _ => true
     end.

(** The entry a gate of [backend_properties.gates] is recorded under: qubit
    and gate name for a single-qubit gate, qubit pair and gate name for a
    two-qubit gate; none for ["reset"] and for the other arities. *)
Definition gate_single_key (gate : BackendProperties.Gate) : option (Z * string) :=
  if decide (BackendProperties.gate gate = "reset") then None
  else match BackendProperties.qubits gate with
       | [qubit] => Some (qubit, BackendProperties.gate gate)
       | _ => None
       end.

Definition gate_pair_key (gate : BackendProperties.Gate) : option (Z * Z * string) :=
  if decide (BackendProperties.gate gate = "reset") then None
  else match BackendProperties.qubits gate with
       | [qubit1; qubit2] => Some (qubit1, qubit2, BackendProperties.gate gate)
       | _ => None
       end.

(** The same for an instruction of [target.instructions], where ["reset"]
    and ["delay"] are skipped and ["measure"] goes to the readout tables,
    under its first qubit. *)
Definition instruction_single_key (instruction : string * list Z) : option (Z * string) :=
  if decide (instruction.1 ∈ ["reset"; "delay"]) then None
  else if decide (instruction.1 = "measure") then None
  else match instruction.2 with
       | [qubit] => Some (qubit, instruction.1)
       | _ => None
       end.

Definition instruction_pair_key (instruction : string * list Z)
  : option (Z * Z * string) :=
  if decide (instruction.1 ∈ ["reset"; "delay"]) then None
  else if decide (instruction.1 = "measure") then None
  else match instruction.2 with
       | [qubit1; qubit2] => Some (qubit1, qubit2, instruction.1)
       | _ => None
       end.

Definition instruction_measure_key (instruction : string * list Z) : option Z :=
  if decide (instruction.1 = "measure") then head instruction.2 else None.

(** An open-access file with every [tECR] dictionary emptied. *)
Definition without_tECR (p : QubitPropertiesOpenAccess.t) : QubitPropertiesOpenAccess.t :=
  QubitPropertiesOpenAccess.mk (QubitPropertiesOpenAccess.T1 p)
    (QubitPropertiesOpenAccess.T2 p) (QubitPropertiesOpenAccess.eRO p)
    (QubitPropertiesOpenAccess.tRO p) (QubitPropertiesOpenAccess.eID p)
    (QubitPropertiesOpenAccess.eSX p) (QubitPropertiesOpenAccess.eX p)
    (QubitPropertiesOpenAccess.eECR p) ∅.

Definition file_without_tECR (c : IBMOpenAccessCalibration.t) : IBMOpenAccessCalibration.t :=
  IBMOpenAccessCalibration.mk (IBMOpenAccessCalibration.name c)
    (IBMOpenAccessCalibration.basis_gates c) (IBMOpenAccessCalibration.num_qubits c)
    (IBMOpenAccessCalibration.connectivity c)
    (without_tECR <$> IBMOpenAccessCalibration.properties c).

(** The file with another connectivity list. *)
Definition IBM_file_with_connectivity (c : IBMCalibration.t) (conn : list (list Z))
  : IBMCalibration.t :=
  IBMCalibration.mk (IBMCalibration.name c) (IBMCalibration.basis_gates c)
    (IBMCalibration.num_qubits c) conn (IBMCalibration.properties c).

(** The single-qubit part of a device imported from an IBM file with the
    property blocks [properties]: the four gate fidelities and the readout
    fidelity of every qubit, and no single-qubit duration. *)
Definition IBM_single_qubit_part {QP : Type} (eRO eID eSX eX : QP -> float)
    (properties : gmap string QP) (d : Device) : Prop :=
  single_qubit_gate_duration (calibration d) = ∅
  /\ forall q, 0 <= q < num_qubits d ->
       exists p g,
         properties !! str q = Some p
         /\ single_qubit_gate_fidelity (calibration d) !! q = Some g
         /\ dom g = list_to_set ["id"; "rz"; "sx"; "x"]
         /\ g !! "id" = Some (1 - eID p)%float
         /\ g !! "sx" = Some (1 - eSX p)%float
         /\ g !! "x" = Some (1 - eX p)%float
         /\ readout_fidelity (calibration d) !! q = Some (1 - eRO p)%float.

(** ** Sample inputs *)

(** The two-qubit file of the end-to-end check, with [T1] left open. *)
Definition sample_IBM_qubit (T1 : float) : QubitPropertiesIBM.t :=
  QubitPropertiesIBM.mk T1 70%float 0.02%float 1000%float 0.001%float 0.001%float
    0.002%float {["0_1" := 0.01%float]} {["0_1" := 300%float]}.

Definition sample_IBM_file (T1 : float) : IBMCalibration.t :=
  IBMCalibration.mk "ibm_sample" ["id"; "rz"; "sx"; "x"; "cx"; "measure"] 2 [[0; 1]]
    (<["0" := sample_IBM_qubit T1]> (<["1" := sample_IBM_qubit T1]> ∅)).

Definition sample_open_access_qubit : QubitPropertiesOpenAccess.t :=
  QubitPropertiesOpenAccess.mk 50%float 70%float 0.02%float 1000%float 0.001%float
    0.001%float 0.002%float {["0_1" := 0.01%float]} {["0_1" := 660%float]}.

Definition sample_open_access_file : IBMOpenAccessCalibration.t :=
  IBMOpenAccessCalibration.mk "ibm_sample" ["id"; "rz"; "sx"; "x"; "ecr"; "measure"] 2
    [[0; 1]]
    (<["0" := sample_open_access_qubit]> (<["1" := sample_open_access_qubit]> ∅)).

Definition sample_OQC_file : OQC.OQCCalibration :=
  OQC.mk "oqc_lucy" ["rz"; "sx"; "x"; "ecr"; "measure"] 2 [[0; 1]]
    (OQC.mkProperties
       (<["0" := OQC.mkQubit 30%float 20%float 0.999%float 0.9%float 0%float]>
        (<["1" := OQC.mkQubit 35%float 25%float 0.998%float 0.8%float 1%float]> ∅))
       {["0-1" := OQC.mkTwoQubit (OQC.mkCoupling 0%float 1%float) 0.95%float]}).

Definition sample_OQC_files : gmap string OQC.OQCCalibration :=
  {["oqc_lucy_calibration.json" := sample_OQC_file]}.

(** A provider with two devices that have the same basis gates. *)
Definition sample_provider : Provider :=
  {| provider_name := "sample";
     get_available_device_names := ["first"; "second"];
     get_native_gates := ["id"; "rz"; "sx"; "x"; "cx"; "measure"; "barrier"];
     import_backend := fun name =>
       if decide (name = "first") then ibm.IBMProvider_import_backend (sample_IBM_file 50)
       else ibm.IBMProvider_import_backend (sample_IBM_file 100) |}.

(** A stand-in for [sanitize_device]: it empties the calibration. *)
Definition sample_methods : DeviceMethods :=
  {| sanitize_device := fun d =>
       Ok (mkDevice (name d) (num_qubits d) (basis_gates d) (coupling_map d)
             DeviceCalibration_new) |}.

(** A [BackendProperties] whose gate list has a ["reset"] and a ["delay"]
    entry. *)
Definition sample_backend_properties : BackendProperties.t :=
  BackendProperties.mk 2
    (fun _ => 1e-4%float) (fun _ => 7e-5%float) (fun _ => 0.02%float) (fun _ => 1e-6%float)
    [BackendProperties.mkGate "reset" [0]; BackendProperties.mkGate "delay" [0];
     BackendProperties.mkGate "sx" [0]; BackendProperties.mkGate "cx" [0; 1]]
    (fun _ _ => 0.01%float) (fun _ _ => 3e-7%float).

(** A [Target] with a ["reset"] and a ["delay"] instruction. *)
Definition sample_target : Target.t :=
  Target.mk [Target.mkQubit 1e-4%float 7e-5%float; Target.mkQubit 1e-4%float 7e-5%float]
    [(0, 1)]
    [("reset", [0]); ("delay", [0]); ("measure", [0]); ("sx", [0]); ("cx", [0; 1])]
    (fun _ _ => Target.mkInstruction 0.01%float 3e-7%float).

(** The sample IBM file without the property block of qubit 1. *)
Definition sample_IBM_file_missing_block : IBMCalibration.t :=
  IBMCalibration.mk "ibm_sample" ["id"; "rz"; "sx"; "x"; "cx"; "measure"] 2 [[0; 1]]
    {["0" := sample_IBM_qubit 50]}.

(** The sample IBM file with connectivity entries after the edge [[0; 1]]: one
    that is not a pair, one whose control qubit has no block, one whose edge
    is not in [eCX]. *)
Definition sample_IBM_file_with_entry (e : list Z) : IBMCalibration.t :=
  IBM_file_with_connectivity (sample_IBM_file 50) [[0; 1]; e].

(** A provider without devices. *)
Definition empty_provider : Provider :=
  {| provider_name := "empty";
     get_available_device_names := [];
     get_native_gates := [];
     import_backend := fun name => Raise (FileNotFoundError name) |}.

(** A provider whose second device cannot be imported. *)
Definition failing_provider : Provider :=
  {| provider_name := "failing";
     get_available_device_names := ["first"; "second"];
     get_native_gates := [];
     import_backend := fun name =>
       if decide (name = "first") then ibm.IBMProvider_import_backend (sample_IBM_file 50)
       else ibm.IBMProvider_import_backend sample_IBM_file_missing_block |}.

(** The OQC sample file with a connectivity entry of three qubits, as the
    only file of the package directory. *)
Definition sample_OQC_file_with_triple : OQC.OQCCalibration :=
  OQC.mk (OQC.name sample_OQC_file) (OQC.basis_gates sample_OQC_file)
    (OQC.num_qubits sample_OQC_file) [[0; 1; 0]] (OQC.properties sample_OQC_file).

Definition sample_OQC_files_with_triple : gmap string OQC.OQCCalibration :=
  {["oqc_lucy_calibration.json" := sample_OQC_file_with_triple]}.

(** A backend over [sample_target]. *)
Definition sample_backend : BackendV2.t :=
  BackendV2.mk "ibm_sample" 2 ["reset"; "delay"; "measure"; "sx"; "cx"] [(0, 1)]
    sample_target.

(** * Properties *)

(** ** The error monad and the loops *)

Lemma bind_Ok {A B : Type} (r : result A) (f : A -> result B) (b : B) :
  r ≫= f = Ok b <-> exists a, r = Ok a /\ f a = Ok b.
Proof.
  destruct r as [a|e]; simpl; split.
  - intros Hf. exists a. auto.
  - intros (a' & Ha & Hf). congruence.
  - discriminate.
  - intros (a' & Ha & _). discriminate.
Qed.

Lemma getitem_Ok `{Countable K} {V : Type} (repr : K -> string) (d : gmap K V) k v :
  getitem repr d k = Ok v <-> d !! k = Some v.
Proof.
  unfold getitem. destruct (d !! k); split; congruence.
Qed.

Lemma unpack2_Ok (e : list Z) (k : Z * Z) :
  unpack2 e = Ok k <-> e = [k.1; k.2].
Proof.
  destruct k as [a b]; simpl.
  destruct e as [|x [|y [|z e']]]; simpl; split; intros Heq; try discriminate;
    congruence.
Qed.

Lemma pair_of_Some (e : list Z) (q1 q2 : Z) :
  pair_of e = Some (q1, q2) <-> e = [q1; q2].
Proof.
  destruct e as [|x [|y [|z e']]]; simpl; split; intros Heq; try discriminate;
    congruence.
Qed.

Section for_each_facts.
Context {A S : Type} (body : S -> A -> result S).

(** A property every iteration keeps is kept by the loop. *)
Lemma for_each_inv (P : S -> Prop) (l : list A) :
  (forall s x s', x ∈ l -> P s -> body s x = Ok s' -> P s') ->
  forall s s', P s -> for_each body l s = Ok s' -> P s'.
Proof.
  induction l as [|x l IH]; intros Hstep s s' HP Hrun; simpl in Hrun.
  - congruence.
  - apply bind_Ok in Hrun as (s1 & Hx & Hrest).
    apply (IH (fun s0 y s0' Hy => Hstep s0 y s0' (list_elem_of_further _ _ _ Hy)) s1 s');
      [|exact Hrest].
    apply (Hstep s x s1); [left | exact HP | exact Hx].
Qed.

(** A loop whose iterations all return, returns. *)
Lemma for_each_total (l : list A) :
  (forall x, x ∈ l -> forall s, exists s', body s x = Ok s') ->
  forall s, exists s', for_each body l s = Ok s'.
Proof.
  induction l as [|x l IH]; intros Hstep s; simpl.
  - eauto.
  - destruct (Hstep x (list_elem_of_here _ _) s) as [s1 ->]. simpl.
    apply IH. intros y Hy. apply Hstep. by right.
Qed.

(** A loop whose every iteration stores [val k] under its key [k] of one
    table: afterwards the keys of the iterations hold their values and the
    other keys are as before. *)
Lemma for_each_table `{Countable K} {V : Type} (tbl : S -> gmap K V)
    (key : A -> option K) (val : K -> option V) (l : list A) :
  (forall s x s', x ∈ l -> body s x = Ok s' ->
     exists k v, key x = Some k /\ val k = Some v /\ tbl s' = <[k := v]> (tbl s)) ->
  forall s s', for_each body l s = Ok s' ->
    forall k,
      ((exists x, x ∈ l /\ key x = Some k) -> tbl s' !! k = val k)
      /\ ((forall x, x ∈ l -> key x <> Some k) -> tbl s' !! k = tbl s !! k).
Proof.
  induction l as [|x l IH]; intros Hstep s s' Hrun k; simpl in Hrun.
  - inversion Hrun; subst. split; [|done].
    intros (x & Hx & _). by apply elem_of_nil in Hx.
  - apply bind_Ok in Hrun as (s1 & Hx & Hrest).
    destruct (Hstep s x s1 (list_elem_of_here _ _) Hx) as (k0 & v0 & Hk0 & Hv0 & Htbl).
    assert (Hstep' : forall s0 y s0', y ∈ l -> body s0 y = Ok s0' ->
              exists k v, key y = Some k /\ val k = Some v
                          /\ tbl s0' = <[k := v]> (tbl s0)).
    { intros s0 y s0' Hy. apply Hstep. by right. }
    destruct (IH Hstep' s1 s' Hrest k) as [Hhit Hmiss].
    destruct (decide (Some k ∈ key <$> l)) as [Hin|Hnin].
    + apply list_elem_of_fmap in Hin as (y & Hky & Hy).
      assert (Hk : tbl s' !! k = val k) by (apply Hhit; eauto).
      split; [done|]. intros Hno. exfalso. apply (Hno y); [by right | done].
    + assert (Hk : tbl s' !! k = tbl s1 !! k).
      { apply Hmiss. intros y Hy Hky. apply Hnin.
        apply list_elem_of_fmap. eauto. }
      rewrite Hk, Htbl. split.
      * intros (y & Hy & Hky). apply elem_of_cons in Hy as [->|Hy].
        -- assert (k = k0) as -> by congruence. by rewrite lookup_insert_eq.
        -- exfalso. apply Hnin. apply list_elem_of_fmap. eauto.
      * intros Hno. apply lookup_insert_ne. intros ->.
        apply (Hno x); [left | done].
Qed.

End for_each_facts.

Lemma for_each_frame {A S B : Type} (body : S -> A -> result S) (f : S -> B)
    (l : list A) :
  (forall s x s', x ∈ l -> body s x = Ok s' -> f s' = f s) ->
  forall s s', for_each body l s = Ok s' -> f s' = f s.
Proof.
  intros Hstep s s' Hrun.
  apply (for_each_inv body (fun s1 => f s1 = f s) l) with (s := s); [|done|done].
  intros s0 x s0' Hx Hs0 Hbody. rewrite <- Hs0. by apply (Hstep s0 x).
Qed.

(** ** The IBM file imports, in their common shape *)

Section file_import_facts.
Context {QP : Type}.
Variables (T1 T2 eRO tRO eID eSX eX : QP -> float).
Variables (error_field duration_field : QP -> gmap string float).
Variable two_qubit_gate : string.
Variable properties : gmap string QP.

Local Abbreviation qubit_step := (file_qubit_step T1 T2 eRO tRO eID eSX eX properties).
Local Abbreviation edge_step :=
  (file_edge_step error_field duration_field two_qubit_gate properties).

Lemma file_qubit_step_Ok cal q cal' :
  qubit_step cal q = Ok cal' ->
  exists p, properties !! str q = Some p
    /\ cal' = mkCalibration
         (<[q := <["id" := (1 - eID p)%float]> (<["rz" := 1%float]>
                 (<["sx" := (1 - eSX p)%float]> (<["x" := (1 - eX p)%float]> ∅)))]>
            (single_qubit_gate_fidelity cal))
         (single_qubit_gate_duration cal)
         (two_qubit_gate_fidelity cal) (two_qubit_gate_duration cal)
         (<[q := (1 - eRO p)%float]> (readout_fidelity cal))
         (<[q := (tRO p * 1e-9)%float]> (readout_duration cal))
         (<[q := (T1 p * 1e-6)%float]> (t1 cal))
         (<[q := (T2 p * 1e-6)%float]> (t2 cal)).
Proof.
  unfold file_qubit_step. intros Hrun.
  apply bind_Ok in Hrun as (p & Hp & Hrun). apply getitem_Ok in Hp.
  exists p. split; [done|]. by inversion Hrun.
Qed.

Lemma file_edge_step_Ok cal e cal' :
  edge_step cal e = Ok cal' ->
  exists q1 q2 p er t,
    e = [q1; q2] /\ properties !! str q1 = Some p
    /\ error_field p !! edge_key q1 q2 = Some er
    /\ duration_field p !! edge_key q1 q2 = Some t
    /\ cal' = mkCalibration
         (single_qubit_gate_fidelity cal) (single_qubit_gate_duration cal)
         (<[(q1, q2) := {[two_qubit_gate := (1 - er)%float]}]>
            (two_qubit_gate_fidelity cal))
         (<[(q1, q2) := {[two_qubit_gate := (t * 1e-9)%float]}]>
            (two_qubit_gate_duration cal))
         (readout_fidelity cal) (readout_duration cal) (t1 cal) (t2 cal).
Proof.
  unfold file_edge_step. intros Hrun.
  apply bind_Ok in Hrun as ([q1 q2] & He & Hrun). apply unpack2_Ok in He.
  apply bind_Ok in Hrun as (p & Hp & Hrun). apply getitem_Ok in Hp.
  apply bind_Ok in Hrun as (er & Her & Hrun). apply getitem_Ok in Her.
  apply bind_Ok in Hrun as (p' & Hp' & Hrun). apply getitem_Ok in Hp'.
  apply bind_Ok in Hrun as (t & Ht & Hrun). apply getitem_Ok in Ht.
  assert (p' = p) as -> by congruence.
  exists q1, q2, p, er, t. repeat split; try done. by inversion Hrun.
Qed.

(** A table the first loop fills with [f] of the qubit's block. *)
Lemma file_qubit_loop_table {V : Type} (tbl : DeviceCalibration -> gmap Z V)
    (f : QP -> V) (n : Z) :
  (forall cal q cal' p, qubit_step cal q = Ok cal' -> properties !! str q = Some p ->
     tbl cal' = <[q := f p]> (tbl cal)) ->
  forall cal cal', for_each qubit_step (range n) cal = Ok cal' ->
    forall q, tbl cal' !! q =
                if decide (q ∈ range n) then f <$> properties !! str q
                else tbl cal !! q.
Proof.
  intros Hstep cal cal' Hrun q.
  destruct (for_each_table qubit_step tbl Some
              (fun q => f <$> properties !! str q) (range n)) with
    (s := cal) (s' := cal') (k := q) as [Hhit Hmiss]; [|done|].
  - intros s x s' _ Hx. destruct (file_qubit_step_Ok _ _ _ Hx) as (p & Hp & _).
    exists x, (f p). rewrite Hp. split; [done|]. split; [done|]. by eapply Hstep.
  - destruct (decide (q ∈ range n)) as [Hq|Hq].
    + apply Hhit. eauto.
    + apply Hmiss. intros x Hx Hxq. congruence.
Qed.

(** A table the second loop fills with [f] of the edge's entry in [field]. *)
Lemma file_edge_loop_table (tbl : DeviceCalibration -> gmap (Z * Z) (gmap string float))
    (field : QP -> gmap string float) (f : float -> gmap string float)
    (conn : list (list Z)) :
  (forall cal e cal', edge_step cal e = Ok cal' ->
     exists q1 q2 p v, e = [q1; q2] /\ properties !! str q1 = Some p
       /\ field p !! edge_key q1 q2 = Some v
       /\ tbl cal' = <[(q1, q2) := f v]> (tbl cal)) ->
  forall cal cal', for_each edge_step conn cal = Ok cal' ->
    forall q1 q2, tbl cal' !! (q1, q2) =
                    if decide ([q1; q2] ∈ conn)
                    then f <$> (p ← properties !! str q1; field p !! edge_key q1 q2)
                    else tbl cal !! (q1, q2).
Proof.
  intros Hstep cal cal' Hrun q1 q2.
  destruct (for_each_table edge_step tbl pair_of
              (fun k => f <$> (p ← properties !! str k.1; field p !! edge_key k.1 k.2))
              conn) with (s := cal) (s' := cal') (k := (q1, q2)) as [Hhit Hmiss];
    [|done|].
  - intros s x s' _ Hx.
    destruct (Hstep _ _ _ Hx) as (a & b & p & v & -> & Hp & Hv & Htbl).
    exists (a, b), (f v). simpl. rewrite Hp. simpl. rewrite Hv. done.
  - destruct (decide ([q1; q2] ∈ conn)) as [Hq|Hq].
    + apply Hhit. exists [q1; q2]. done.
    + apply Hmiss. intros x Hx Hxq. apply pair_of_Some in Hxq. congruence.
Qed.

End file_import_facts.

Section file_calibration_facts.
Context {QP : Type}.
Variables (T1 T2 eRO tRO eID eSX eX : QP -> float).
Variables (error_field duration_field : QP -> gmap string float).
Variable two_qubit_gate : string.
Variable properties : gmap string QP.
Variable num_qubits : Z.
Variable connectivity : list (list Z).

Local Abbreviation qubit_step := (file_qubit_step T1 T2 eRO tRO eID eSX eX properties).
Local Abbreviation edge_step :=
  (file_edge_step error_field duration_field two_qubit_gate properties).
Local Abbreviation import :=
  (file_calibration T1 T2 eRO tRO eID eSX eX error_field duration_field two_qubit_gate
     properties num_qubits connectivity).

(** The two loops of an import that returned. *)
Lemma file_calibration_Ok cal :
  import = Ok cal ->
  exists cal1,
    for_each qubit_step (range num_qubits) DeviceCalibration_new = Ok cal1
    /\ for_each edge_step connectivity cal1 = Ok cal.
Proof. unfold file_calibration. intros Hrun. by apply bind_Ok in Hrun. Qed.

(** A per-qubit table of the result. *)
Lemma file_calibration_qubit_table {V : Type} (tbl : DeviceCalibration -> gmap Z V)
    (f : QP -> V) :
  tbl DeviceCalibration_new = ∅ ->
  (forall cal q cal' p, qubit_step cal q = Ok cal' -> properties !! str q = Some p ->
     tbl cal' = <[q := f p]> (tbl cal)) ->
  (forall cal e cal', edge_step cal e = Ok cal' -> tbl cal' = tbl cal) ->
  forall cal, import = Ok cal ->
    forall q, tbl cal !! q = f <$> qubit_block properties num_qubits q.
Proof.
  intros Hnew Hq He cal Hrun q.
  apply file_calibration_Ok in Hrun as (cal1 & Hrun1 & Hrun2).
  rewrite (for_each_frame edge_step tbl connectivity
             (fun s x s' _ Hx => He s x s' Hx) _ _ Hrun2).
  rewrite (file_qubit_loop_table T1 T2 eRO tRO eID eSX eX properties tbl f
             num_qubits Hq _ _ Hrun1 q).
  unfold qubit_block. destruct (decide (q ∈ range num_qubits)); [done|].
  by rewrite Hnew, lookup_empty.
Qed.

(** A per-edge table of the result. *)
Lemma file_calibration_edge_table
    (tbl : DeviceCalibration -> gmap (Z * Z) (gmap string float))
    (field : QP -> gmap string float) (f : float -> gmap string float) :
  tbl DeviceCalibration_new = ∅ ->
  (forall cal q cal', qubit_step cal q = Ok cal' -> tbl cal' = tbl cal) ->
  (forall cal e cal', edge_step cal e = Ok cal' ->
     exists q1 q2 p v, e = [q1; q2] /\ properties !! str q1 = Some p
       /\ field p !! edge_key q1 q2 = Some v
       /\ tbl cal' = <[(q1, q2) := f v]> (tbl cal)) ->
  forall cal, import = Ok cal ->
    forall q1 q2,
      tbl cal !! (q1, q2) = f <$> edge_value field properties connectivity q1 q2.
Proof.
  intros Hnew Hq He cal Hrun q1 q2.
  apply file_calibration_Ok in Hrun as (cal1 & Hrun1 & Hrun2).
  rewrite (file_edge_loop_table error_field duration_field two_qubit_gate properties
             tbl field f connectivity He _ _ Hrun2 q1 q2).
  unfold edge_value. destruct (decide ([q1; q2] ∈ connectivity)); [done|].
  rewrite (for_each_frame qubit_step tbl (range num_qubits)
             (fun s x s' _ Hx => Hq s x s' Hx) _ _ Hrun1).
  by rewrite Hnew, lookup_empty.
Qed.

(** Every table of the calibration an import returns. *)
Lemma file_calibration_spec cal :
  import = Ok cal ->
  (forall q, single_qubit_gate_fidelity cal !! q =
     (fun p => <["id" := (1 - eID p)%float]> (<["rz" := 1%float]>
               (<["sx" := (1 - eSX p)%float]> (<["x" := (1 - eX p)%float]> ∅))))
     <$> qubit_block properties num_qubits q)
  /\ single_qubit_gate_duration cal = ∅
  /\ (forall q1 q2, two_qubit_gate_fidelity cal !! (q1, q2) =
        (fun er => {[two_qubit_gate := (1 - er)%float]})
        <$> edge_value error_field properties connectivity q1 q2)
  /\ (forall q1 q2, two_qubit_gate_duration cal !! (q1, q2) =
        (fun t => {[two_qubit_gate := (t * 1e-9)%float]})
        <$> edge_value duration_field properties connectivity q1 q2)
  /\ (forall q, readout_fidelity cal !! q =
        (fun p => (1 - eRO p)%float) <$> qubit_block properties num_qubits q)
  /\ (forall q, readout_duration cal !! q =
        (fun p => (tRO p * 1e-9)%float) <$> qubit_block properties num_qubits q)
  /\ (forall q, t1 cal !! q =
        (fun p => (T1 p * 1e-6)%float) <$> qubit_block properties num_qubits q)
  /\ (forall q, t2 cal !! q =
        (fun p => (T2 p * 1e-6)%float) <$> qubit_block properties num_qubits q).
Proof.
  intros Hrun.
  assert (Hqs : forall {V} (tbl : DeviceCalibration -> gmap Z V) (f : QP -> V),
             tbl DeviceCalibration_new = ∅ ->
             (forall c q p, tbl (mkCalibration
                (<[q := <["id" := (1 - eID p)%float]> (<["rz" := 1%float]>
                   (<["sx" := (1 - eSX p)%float]> (<["x" := (1 - eX p)%float]> ∅)))]>
                   (single_qubit_gate_fidelity c))
                (single_qubit_gate_duration c)
                (two_qubit_gate_fidelity c) (two_qubit_gate_duration c)
                (<[q := (1 - eRO p)%float]> (readout_fidelity c))
                (<[q := (tRO p * 1e-9)%float]> (readout_duration c))
                (<[q := (T1 p * 1e-6)%float]> (t1 c))
                (<[q := (T2 p * 1e-6)%float]> (t2 c))) = <[q := f p]> (tbl c)) ->
             (forall c a b, tbl (mkCalibration (single_qubit_gate_fidelity c)
                (single_qubit_gate_duration c) a b (readout_fidelity c)
                (readout_duration c) (t1 c) (t2 c)) = tbl c) ->
             forall q, tbl cal !! q = f <$> qubit_block properties num_qubits q).
  { intros V tbl f Hnew Hq He.
    apply (file_calibration_qubit_table tbl f Hnew); [| |done].
    - intros c q c' p Hstep Hp.
      apply file_qubit_step_Ok in Hstep as (p' & Hp' & ->).
      assert (p' = p) as -> by congruence. apply Hq.
    - intros c e c' Hstep.
      apply file_edge_step_Ok in Hstep as (a & b & p & er & t & _ & _ & _ & _ & ->).
      apply He. }
  assert (Hframe1 : forall c q c', qubit_step c q = Ok c' ->
            single_qubit_gate_duration c' = single_qubit_gate_duration c
            /\ two_qubit_gate_fidelity c' = two_qubit_gate_fidelity c
            /\ two_qubit_gate_duration c' = two_qubit_gate_duration c).
  { intros c q c' Hstep. by apply file_qubit_step_Ok in Hstep as (p & _ & ->). }
  repeat split.
  - apply (Hqs _ single_qubit_gate_fidelity); done.
  - apply file_calibration_Ok in Hrun as (cal1 & Hrun1 & Hrun2).
    rewrite (for_each_frame edge_step single_qubit_gate_duration connectivity)
      with (s := cal1); [|intros c e c' _ Hstep|done].
    + rewrite (for_each_frame qubit_step single_qubit_gate_duration (range num_qubits))
        with (s := DeviceCalibration_new); [done| |done].
      intros c q c' _ Hstep. by destruct (Hframe1 _ _ _ Hstep) as (? & ? & ?).
    + by apply file_edge_step_Ok in Hstep as (a & b & p & er & t & _ & _ & _ & _ & ->).
  - apply (file_calibration_edge_table two_qubit_gate_fidelity); [done| |  |done].
    + intros c q c' Hstep. by destruct (Hframe1 _ _ _ Hstep) as (? & ? & ?).
    + intros c e c' Hstep.
      apply file_edge_step_Ok in Hstep as (a & b & p & er & t & -> & Hp & Her & Ht & ->).
      exists a, b, p, er. done.
  - apply (file_calibration_edge_table two_qubit_gate_duration); [done| |  |done].
    + intros c q c' Hstep. by destruct (Hframe1 _ _ _ Hstep) as (? & ? & ?).
    + intros c e c' Hstep.
      apply file_edge_step_Ok in Hstep as (a & b & p & er & t & -> & Hp & Her & Ht & ->).
      exists a, b, p, t. done.
  - apply (Hqs _ readout_fidelity); done.
  - apply (Hqs _ readout_duration); done.
  - apply (Hqs _ t1); done.
  - apply (Hqs _ t2); done.
Qed.

(** The import of a well-formed file returns. *)
Lemma file_calibration_total :
  file_well_formed error_field duration_field properties num_qubits connectivity = true ->
  exists cal, import = Ok cal.
Proof.
  unfold file_well_formed. intros Hwf.
  apply andb_prop in Hwf as [Hq He].
  rewrite forallb_forall in Hq, He.
  unfold file_calibration.
  destruct (for_each_total qubit_step (range num_qubits)) with
    (s := DeviceCalibration_new) as [cal1 Hcal1].
  { intros q Hq' s. apply list_elem_of_In in Hq'. specialize (Hq q Hq').
    unfold file_qubit_ok in Hq. apply bool_decide_eq_true in Hq as [p Hp].
    eexists. unfold file_qubit_step, getitem. rewrite Hp. simpl. reflexivity. }
  rewrite Hcal1. simpl.
  apply for_each_total. intros e He' s. apply list_elem_of_In in He'.
  specialize (He e He'). unfold file_edge_ok in He.
  destruct e as [|q1 [|q2 [|q3 e']]]; try discriminate.
  destruct (properties !! str q1) as [p|] eqn:Hp; [|discriminate].
  apply andb_prop in He as [Her Ht].
  apply bool_decide_eq_true in Her as [er Her], Ht as [t Ht].
  eexists. unfold file_edge_step, getitem. simpl. rewrite Hp. simpl.
  rewrite Her. simpl. rewrite Ht. simpl. reflexivity.
Qed.

End file_calibration_facts.

(** ** The three IBM file imports are instances of the common shape *)

Lemma IBMProvider_import_backend_eq (c : IBMCalibration.t) :
  ibm.IBMProvider_import_backend c =
  (cal ← file_calibration QubitPropertiesIBM.T1 QubitPropertiesIBM.T2
           QubitPropertiesIBM.eRO QubitPropertiesIBM.tRO QubitPropertiesIBM.eID
           QubitPropertiesIBM.eSX QubitPropertiesIBM.eX
           QubitPropertiesIBM.eCX QubitPropertiesIBM.tCX "cx"
           (IBMCalibration.properties c) (IBMCalibration.num_qubits c)
           (IBMCalibration.connectivity c);
   Ok (mkDevice (IBMCalibration.name c) (IBMCalibration.num_qubits c)
         (IBMCalibration.basis_gates c) (IBMCalibration.connectivity c) cal)).
Proof.
  unfold ibm.IBMProvider_import_backend, file_calibration.
  change (ibm.IBMProvider_qubit_step (IBMCalibration.properties c)) with
    (file_qubit_step QubitPropertiesIBM.T1 QubitPropertiesIBM.T2
       QubitPropertiesIBM.eRO QubitPropertiesIBM.tRO QubitPropertiesIBM.eID
       QubitPropertiesIBM.eSX QubitPropertiesIBM.eX (IBMCalibration.properties c)).
  change (ibm.IBMProvider_edge_step (IBMCalibration.properties c)) with
    (file_edge_step QubitPropertiesIBM.eCX QubitPropertiesIBM.tCX "cx"
       (IBMCalibration.properties c)).
  by destruct (for_each _ (range _) _).
Qed.

Lemma IBMOpenAccessProvider_import_backend_eq (c : IBMOpenAccessCalibration.t) :
  ibm.IBMOpenAccessProvider_import_backend c =
  (cal ← file_calibration QubitPropertiesOpenAccess.T1 QubitPropertiesOpenAccess.T2
           QubitPropertiesOpenAccess.eRO QubitPropertiesOpenAccess.tRO
           QubitPropertiesOpenAccess.eID QubitPropertiesOpenAccess.eSX
           QubitPropertiesOpenAccess.eX
           QubitPropertiesOpenAccess.eECR QubitPropertiesOpenAccess.tECR "ecr"
           (IBMOpenAccessCalibration.properties c) (IBMOpenAccessCalibration.num_qubits c)
           (IBMOpenAccessCalibration.connectivity c);
   Ok (mkDevice (IBMOpenAccessCalibration.name c) (IBMOpenAccessCalibration.num_qubits c)
         (IBMOpenAccessCalibration.basis_gates c)
         (IBMOpenAccessCalibration.connectivity c) cal)).
Proof.
  unfold ibm.IBMOpenAccessProvider_import_backend, file_calibration.
  change (ibm.IBMOpenAccessProvider_qubit_step (IBMOpenAccessCalibration.properties c))
    with (file_qubit_step QubitPropertiesOpenAccess.T1 QubitPropertiesOpenAccess.T2
            QubitPropertiesOpenAccess.eRO QubitPropertiesOpenAccess.tRO
            QubitPropertiesOpenAccess.eID QubitPropertiesOpenAccess.eSX
            QubitPropertiesOpenAccess.eX (IBMOpenAccessCalibration.properties c)).
  change (ibm.IBMOpenAccessProvider_edge_step (IBMOpenAccessCalibration.properties c))
    with (file_edge_step QubitPropertiesOpenAccess.eECR QubitPropertiesOpenAccess.tECR
            "ecr" (IBMOpenAccessCalibration.properties c)).
  by destruct (for_each _ (range _) _).
Qed.

(** In [ibm_open_access.py] the duration field of the common shape is
    [eECR]. *)
Lemma open_access_py_import_backend_eq (c : IBMOpenAccessCalibration.t) :
  ibm_open_access.IBMOpenAccessProvider_import_backend c =
  (cal ← file_calibration QubitPropertiesOpenAccess.T1 QubitPropertiesOpenAccess.T2
           QubitPropertiesOpenAccess.eRO QubitPropertiesOpenAccess.tRO
           QubitPropertiesOpenAccess.eID QubitPropertiesOpenAccess.eSX
           QubitPropertiesOpenAccess.eX
           QubitPropertiesOpenAccess.eECR QubitPropertiesOpenAccess.eECR "ecr"
           (IBMOpenAccessCalibration.properties c) (IBMOpenAccessCalibration.num_qubits c)
           (IBMOpenAccessCalibration.connectivity c);
   Ok (mkDevice (IBMOpenAccessCalibration.name c) (IBMOpenAccessCalibration.num_qubits c)
         (IBMOpenAccessCalibration.basis_gates c)
         (IBMOpenAccessCalibration.connectivity c) cal)).
Proof.
  unfold ibm_open_access.IBMOpenAccessProvider_import_backend, file_calibration.
  change (ibm_open_access.IBMOpenAccessProvider_qubit_step
            (IBMOpenAccessCalibration.properties c))
    with (file_qubit_step QubitPropertiesOpenAccess.T1 QubitPropertiesOpenAccess.T2
            QubitPropertiesOpenAccess.eRO QubitPropertiesOpenAccess.tRO
            QubitPropertiesOpenAccess.eID QubitPropertiesOpenAccess.eSX
            QubitPropertiesOpenAccess.eX (IBMOpenAccessCalibration.properties c)).
  change (ibm_open_access.IBMOpenAccessProvider_edge_step
            (IBMOpenAccessCalibration.properties c))
    with (file_edge_step QubitPropertiesOpenAccess.eECR QubitPropertiesOpenAccess.eECR
            "ecr" (IBMOpenAccessCalibration.properties c)).
  by destruct (for_each _ (range _) _).
Qed.

(** A file that has both two-qubit fields has, in particular, the one field
    that [ibm_open_access.py] reads twice. *)
Lemma file_well_formed_same_field {QP : Type} (e t : QP -> gmap string float)
    (properties : gmap string QP) (n : Z) (conn : list (list Z)) :
  file_well_formed e t properties n conn = true ->
  file_well_formed e e properties n conn = true.
Proof.
  unfold file_well_formed. intros Hwf. apply andb_prop in Hwf as [Hq He].
  rewrite Hq. simpl. rewrite forallb_forall in He. apply forallb_forall.
  intros x Hx. specialize (He x Hx). unfold file_edge_ok in *.
  destruct x as [|q1 [|q2 [|q3 x']]]; try done.
  destruct (properties !! str q1); [|done].
  apply andb_prop in He as [-> _]. done.
Qed.

(** ** Ranges, blocks and edge entries *)

Lemma range_spec (n q : Z) : q ∈ range n <-> 0 <= q < n.
Proof. unfold range. rewrite elem_of_seqZ. lia. Qed.

Lemma qubit_block_Some {QP : Type} (properties : gmap string QP) (n q : Z) (p : QP) :
  qubit_block properties n q = Some p <-> 0 <= q < n /\ properties !! str q = Some p.
Proof.
  unfold qubit_block. rewrite <- range_spec.
  destruct (decide (q ∈ range n)); split; try tauto; try done.
Qed.

Lemma edge_value_Some {QP : Type} (field : QP -> gmap string float)
    (properties : gmap string QP) (conn : list (list Z)) (q1 q2 : Z) (v : float) :
  edge_value field properties conn q1 q2 = Some v <->
  [q1; q2] ∈ conn
  /\ exists p, properties !! str q1 = Some p /\ field p !! edge_key q1 q2 = Some v.
Proof.
  unfold edge_value.
  destruct (decide ([q1; q2] ∈ conn)) as [Hin|Hnin].
  - destruct (properties !! str q1) as [p|]; simpl.
    + split; [eauto|]. by intros (_ & p' & [= <-] & Hv).
    + split; [done|]. by intros (_ & p' & ? & _).
  - split; [done|]. by intros [? _].
Qed.

(** In a well-formed file the blocks and entries the loops read exist. *)
Lemma file_well_formed_qubit {QP : Type} (e t : QP -> gmap string float)
    (properties : gmap string QP) (n : Z) (conn : list (list Z)) (q : Z) :
  file_well_formed e t properties n conn = true -> 0 <= q < n ->
  exists p, qubit_block properties n q = Some p.
Proof.
  unfold file_well_formed. intros Hwf Hq. apply andb_prop in Hwf as [Hqs _].
  rewrite forallb_forall in Hqs. apply range_spec in Hq.
  specialize (Hqs q (proj1 (list_elem_of_In _ _) Hq)).
  apply bool_decide_eq_true in Hqs as [p Hp].
  exists p. apply qubit_block_Some. by rewrite <- range_spec.
Qed.

Lemma file_well_formed_edge {QP : Type} (e t : QP -> gmap string float)
    (properties : gmap string QP) (n : Z) (conn : list (list Z)) (q1 q2 : Z) :
  file_well_formed e t properties n conn = true -> [q1; q2] ∈ conn ->
  exists p er du, properties !! str q1 = Some p
    /\ e p !! edge_key q1 q2 = Some er /\ t p !! edge_key q1 q2 = Some du
    /\ edge_value e properties conn q1 q2 = Some er
    /\ edge_value t properties conn q1 q2 = Some du.
Proof.
  unfold file_well_formed. intros Hwf Hin. apply andb_prop in Hwf as [_ Hes].
  rewrite forallb_forall in Hes.
  specialize (Hes _ (proj1 (list_elem_of_In _ _) Hin)). simpl in Hes.
  destruct (properties !! str q1) as [p|] eqn:Hp; [|done].
  apply andb_prop in Hes as [Her Hdu].
  apply bool_decide_eq_true in Her as [er Her], Hdu as [du Hdu].
  exists p, er, du. repeat split; try done; apply edge_value_Some; eauto.
Qed.

(** ** IBM file import: unit conversion *)

(** C3, as amended.  For a well-formed IBM calibration file the import
    returns a device with, for every qubit [q] in range,
    [t1[q] = T1 * 1e-6], [t2[q] = T2 * 1e-6] and [readout_duration[q] =
    tRO * 1e-9], and for every connectivity edge [(q1, q2)] the ["cx"] entries
    [1 - eCX[edge]] and [tCX[edge] * 1e-9] read from the block of [q1]; the
    products and differences are those of binary64 arithmetic.  In
    particular [T1 = 100] gives [t1[q] = 9.9999999999999991e-05], [eCX = 0.01]
    gives the fidelity [0.99], and [tCX = 300] gives the duration
    [3.0000000000000004e-07]. *)
Theorem IBM_import_unit_conversion (c : IBMCalibration.t) :
  IBM_well_formed c = true ->
  exists d,
    ibm.IBMProvider_import_backend c = Ok d
    /\ (forall q, 0 <= q < IBMCalibration.num_qubits c ->
          exists p,
            IBMCalibration.properties c !! str q = Some p
            /\ t1 (calibration d) !! q = Some (QubitPropertiesIBM.T1 p * 1e-6)%float
            /\ t2 (calibration d) !! q = Some (QubitPropertiesIBM.T2 p * 1e-6)%float
            /\ readout_duration (calibration d) !! q
               = Some (QubitPropertiesIBM.tRO p * 1e-9)%float
            /\ (QubitPropertiesIBM.T1 p = 100%float ->
                t1 (calibration d) !! q = Some 9.9999999999999991e-05%float))
    /\ (forall q1 q2, [q1; q2] ∈ IBMCalibration.connectivity c ->
          exists p er du,
            IBMCalibration.properties c !! str q1 = Some p
            /\ QubitPropertiesIBM.eCX p !! edge_key q1 q2 = Some er
            /\ QubitPropertiesIBM.tCX p !! edge_key q1 q2 = Some du
            /\ two_qubit_gate_fidelity (calibration d) !! (q1, q2)
               = Some {["cx" := (1 - er)%float]}
            /\ two_qubit_gate_duration (calibration d) !! (q1, q2)
               = Some {["cx" := (du * 1e-9)%float]}
            /\ (er = 0.01%float ->
                two_qubit_gate_fidelity (calibration d) !! (q1, q2)
                = Some {["cx" := 0.99%float]})
            /\ (du = 300%float ->
                two_qubit_gate_duration (calibration d) !! (q1, q2)
                = Some {["cx" := 3.0000000000000004e-07%float]})).
Proof.
  intros Hwf. unfold IBM_well_formed in Hwf.
  destruct (file_calibration_total QubitPropertiesIBM.T1 QubitPropertiesIBM.T2
              QubitPropertiesIBM.eRO QubitPropertiesIBM.tRO QubitPropertiesIBM.eID
              QubitPropertiesIBM.eSX QubitPropertiesIBM.eX _ _ "cx" _ _ _ Hwf)
    as [cal Hcal].
  eexists. split.
  { rewrite IBMProvider_import_backend_eq, Hcal. reflexivity. }
  destruct (file_calibration_spec _ _ _ _ _ _ _ _ _ _ _ _ _ cal Hcal)
    as (_ & _ & Htf & Htd & _ & Hrd & Ht1 & Ht2).
  simpl. split.
  - intros q Hq.
    destruct (file_well_formed_qubit _ _ _ _ _ q Hwf Hq) as [p Hp].
    exists p. rewrite Hrd, Ht1, Ht2, Hp. simpl.
    apply qubit_block_Some in Hp as [_ Hp].
    repeat split; try done. by intros ->.
  - intros q1 q2 Hin.
    destruct (file_well_formed_edge _ _ _ _ _ q1 q2 Hwf Hin)
      as (p & er & du & Hp & Her & Hdu & Hve & Hvd).
    exists p, er, du. rewrite Htf, Htd, Hve, Hvd. simpl.
    repeat split; try done; by intros ->.
Qed.

Lemma IBM_import_unit_conversion_witness :
  IBM_well_formed (sample_IBM_file 100) = true
  /\ exists d,
       ibm.IBMProvider_import_backend (sample_IBM_file 100) = Ok d
       /\ t1 (calibration d) !! 1 = Some 9.9999999999999991e-05%float
       /\ two_qubit_gate_fidelity (calibration d) !! (0, 1) = Some {["cx" := 0.99%float]}.
Proof.
  split; [reflexivity|].
  destruct (IBM_import_unit_conversion (sample_IBM_file 100)) as (d & Hd & Hq & He);
    [reflexivity|].
  exists d. split; [exact Hd|]. split.
  - destruct (Hq 1) as (p & Hp & _ & _ & _ & H100); [simpl; lia|].
    apply H100. vm_compute in Hp. by injection Hp as <-.
  - destruct (He 0 1) as (p & er & du & Hp & Her & _ & _ & _ & H001 & _).
    { simpl. left. }
    apply H001. vm_compute in Hp. injection Hp as <-.
    vm_compute in Her. by injection Her as <-.
Defined.

(** C3, counterexample.  On the well-formed two-qubit file with [T1 = 100],
    [eCX = {"0_1": 0.01}] and [tCX = {"0_1": 300}] the import stores
    [t1[0] = 100 * 1e-6] and the ["cx"] duration [300 * 1e-9]; neither is
    equal to the literal [100e-6], respectively [300e-9]. *)
Lemma IBM_import_T1_100_is_not_100e_6 :
  exists d x du,
    IBM_well_formed (sample_IBM_file 100) = true
    /\ ibm.IBMProvider_import_backend (sample_IBM_file 100) = Ok d
    /\ t1 (calibration d) !! 0 = Some x
    /\ PrimFloat.eqb x 100e-6 = false
    /\ two_qubit_gate_duration (calibration d) !! (0, 1) = Some {["cx" := du]}
    /\ PrimFloat.eqb du 300e-9 = false.
Proof.
  eexists _, _, _.
  split; [reflexivity|].
  split; [vm_compute; reflexivity|].
  split; [vm_compute; reflexivity|].
  split; [vm_compute; reflexivity|].
  split; [vm_compute; reflexivity|].
  vm_compute; reflexivity.
Qed.

(** ** Open-access import: the source of the two-qubit duration *)

(** [ibm.py]: the ["ecr"] duration of every edge is the [tECR] entry, in
    seconds. *)
Lemma ibm_py_open_access_duration_from_tECR (c : IBMOpenAccessCalibration.t) :
  IBMOpenAccess_well_formed c = true ->
  exists d,
    ibm.IBMOpenAccessProvider_import_backend c = Ok d
    /\ forall q1 q2, [q1; q2] ∈ IBMOpenAccessCalibration.connectivity c ->
         exists p du,
           IBMOpenAccessCalibration.properties c !! str q1 = Some p
           /\ QubitPropertiesOpenAccess.tECR p !! edge_key q1 q2 = Some du
           /\ two_qubit_gate_duration (calibration d) !! (q1, q2)
              = Some {["ecr" := (du * 1e-9)%float]}.
Proof.
  intros Hwf. unfold IBMOpenAccess_well_formed in Hwf.
  destruct (file_calibration_total QubitPropertiesOpenAccess.T1
              QubitPropertiesOpenAccess.T2 QubitPropertiesOpenAccess.eRO
              QubitPropertiesOpenAccess.tRO QubitPropertiesOpenAccess.eID
              QubitPropertiesOpenAccess.eSX QubitPropertiesOpenAccess.eX
              _ _ "ecr" _ _ _ Hwf) as [cal Hcal].
  eexists. split.
  { rewrite IBMOpenAccessProvider_import_backend_eq, Hcal. reflexivity. }
  destruct (file_calibration_spec _ _ _ _ _ _ _ _ _ _ _ _ _ cal Hcal)
    as (_ & _ & _ & Htd & _).
  simpl. intros q1 q2 Hin.
  destruct (file_well_formed_edge _ _ _ _ _ q1 q2 Hwf Hin)
    as (p & er & du & Hp & Her & Hdu & Hve & Hvd).
  exists p, du. by rewrite Htd, Hvd.
Qed.

(** [ibm_open_access.py]: the ["ecr"] duration of every edge is the [eECR]
    entry, the error probability, multiplied by [1e-9]; [tECR] is not
    read. *)
Lemma open_access_py_duration_from_eECR (c : IBMOpenAccessCalibration.t) :
  IBMOpenAccess_well_formed c = true ->
  exists d,
    ibm_open_access.IBMOpenAccessProvider_import_backend c = Ok d
    /\ forall q1 q2, [q1; q2] ∈ IBMOpenAccessCalibration.connectivity c ->
         exists p er,
           IBMOpenAccessCalibration.properties c !! str q1 = Some p
           /\ QubitPropertiesOpenAccess.eECR p !! edge_key q1 q2 = Some er
           /\ two_qubit_gate_duration (calibration d) !! (q1, q2)
              = Some {["ecr" := (er * 1e-9)%float]}.
Proof.
  intros Hwf. unfold IBMOpenAccess_well_formed in Hwf.
  apply file_well_formed_same_field in Hwf.
  destruct (file_calibration_total QubitPropertiesOpenAccess.T1
              QubitPropertiesOpenAccess.T2 QubitPropertiesOpenAccess.eRO
              QubitPropertiesOpenAccess.tRO QubitPropertiesOpenAccess.eID
              QubitPropertiesOpenAccess.eSX QubitPropertiesOpenAccess.eX
              _ _ "ecr" _ _ _ Hwf) as [cal Hcal].
  eexists. split.
  { rewrite open_access_py_import_backend_eq, Hcal. reflexivity. }
  destruct (file_calibration_spec _ _ _ _ _ _ _ _ _ _ _ _ _ cal Hcal)
    as (_ & _ & _ & Htd & _).
  simpl. intros q1 q2 Hin.
  destruct (file_well_formed_edge _ _ _ _ _ q1 q2 Hwf Hin)
    as (p & er & du & Hp & Her & Hdu & Hve & Hvd).
  exists p, er. by rewrite Htd, Hve.
Qed.

(** C2, at the failing input.  On the well-formed open-access file whose
    block of qubit 0 has [eECR = {"0_1": 0.01}] and [tECR = {"0_1": 660}],
    the import of [ibm_open_access.py] stores [0.01 * 1e-9] as the ["ecr"]
    duration of the edge [(0, 1)], which is not [660 * 1e-9]. *)
Theorem open_access_py_duration_is_not_tECR :
  exists d du,
    IBMOpenAccess_well_formed sample_open_access_file = true
    /\ ibm_open_access.IBMOpenAccessProvider_import_backend sample_open_access_file = Ok d
    /\ two_qubit_gate_duration (calibration d) !! (0, 1) = Some {["ecr" := du]}
    /\ du = (0.01 * 1e-9)%float
    /\ PrimFloat.eqb du (660 * 1e-9)%float = false.
Proof.
  eexists _, _.
  split; [reflexivity|].
  split; [vm_compute; reflexivity|].
  split; [vm_compute; reflexivity|].
  split; vm_compute; reflexivity.
Qed.

(** ** The two open-access importers compared *)

(** The two importers agree on everything but [two_qubit_gate_duration]. *)
Lemma open_access_importers_agree_elsewhere (c : IBMOpenAccessCalibration.t) :
  IBMOpenAccess_well_formed c = true ->
  exists d d',
    ibm.IBMOpenAccessProvider_import_backend c = Ok d
    /\ ibm_open_access.IBMOpenAccessProvider_import_backend c = Ok d'
    /\ name d = name d' /\ num_qubits d = num_qubits d'
    /\ basis_gates d = basis_gates d' /\ coupling_map d = coupling_map d'
    /\ single_qubit_gate_fidelity (calibration d)
       = single_qubit_gate_fidelity (calibration d')
    /\ single_qubit_gate_duration (calibration d)
       = single_qubit_gate_duration (calibration d')
    /\ two_qubit_gate_fidelity (calibration d) = two_qubit_gate_fidelity (calibration d')
    /\ readout_fidelity (calibration d) = readout_fidelity (calibration d')
    /\ readout_duration (calibration d) = readout_duration (calibration d')
    /\ t1 (calibration d) = t1 (calibration d')
    /\ t2 (calibration d) = t2 (calibration d').
Proof.
  intros Hwf. unfold IBMOpenAccess_well_formed in Hwf.
  pose proof (file_well_formed_same_field _ _ _ _ _ Hwf) as Hwf'.
  destruct (file_calibration_total QubitPropertiesOpenAccess.T1
              QubitPropertiesOpenAccess.T2 QubitPropertiesOpenAccess.eRO
              QubitPropertiesOpenAccess.tRO QubitPropertiesOpenAccess.eID
              QubitPropertiesOpenAccess.eSX QubitPropertiesOpenAccess.eX
              _ _ "ecr" _ _ _ Hwf) as [cal Hcal].
  destruct (file_calibration_total QubitPropertiesOpenAccess.T1
              QubitPropertiesOpenAccess.T2 QubitPropertiesOpenAccess.eRO
              QubitPropertiesOpenAccess.tRO QubitPropertiesOpenAccess.eID
              QubitPropertiesOpenAccess.eSX QubitPropertiesOpenAccess.eX
              _ _ "ecr" _ _ _ Hwf') as [cal' Hcal'].
  eexists _, _. split.
  { rewrite IBMOpenAccessProvider_import_backend_eq, Hcal. reflexivity. }
  split.
  { rewrite open_access_py_import_backend_eq, Hcal'. reflexivity. }
  destruct (file_calibration_spec _ _ _ _ _ _ _ _ _ _ _ _ _ cal Hcal)
    as (Hsf & Hsd & Htf & _ & Hrf & Hrd & Ht1 & Ht2).
  destruct (file_calibration_spec _ _ _ _ _ _ _ _ _ _ _ _ _ cal' Hcal')
    as (Hsf' & Hsd' & Htf' & _ & Hrf' & Hrd' & Ht1' & Ht2').
  simpl. repeat split; try congruence; apply map_eq.
  - intros q. by rewrite Hsf, Hsf'.
  - intros [q1 q2]. by rewrite Htf, Htf'.
  - intros q. by rewrite Hrf, Hrf'.
  - intros q. by rewrite Hrd, Hrd'.
  - intros q. by rewrite Ht1, Ht1'.
  - intros q. by rewrite Ht2, Ht2'.
Qed.

(** C10, at the failing input.  On the well-formed open-access file
    [sample_open_access_file] both importers return, and the devices differ:
    the ["ecr"] duration of the edge [(0, 1)] is [660 * 1e-9] in the device
    of [ibm.py] and [0.01 * 1e-9] in the device of [ibm_open_access.py]. *)
Theorem open_access_importers_differ :
  exists d d',
    IBMOpenAccess_well_formed sample_open_access_file = true
    /\ ibm.IBMOpenAccessProvider_import_backend sample_open_access_file = Ok d
    /\ ibm_open_access.IBMOpenAccessProvider_import_backend sample_open_access_file = Ok d'
    /\ two_qubit_gate_duration (calibration d) !! (0, 1)
       = Some {["ecr" := (660 * 1e-9)%float]}
    /\ two_qubit_gate_duration (calibration d') !! (0, 1)
       = Some {["ecr" := (0.01 * 1e-9)%float]}
    /\ d <> d'.
Proof.
  eexists _, _.
  split; [reflexivity|].
  split; [vm_compute; reflexivity|].
  split; [vm_compute; reflexivity|].
  split; [vm_compute; reflexivity|].
  split; [vm_compute; reflexivity|].
  intros Heq.
  apply (f_equal (fun d =>
            match two_qubit_gate_duration (calibration d) !! (0, 1) ≫= (.!! "ecr") with
            | Some du => PrimFloat.eqb du (660 * 1e-9)%float
            | None => false
            end)) in Heq.
  vm_compute in Heq. discriminate.
Qed.

(** ** The OQC import *)

Lemma OQC_qubit_step_Ok (properties : OQC.Properties) cal q cal' :
  oqc.OQCProvider_qubit_step properties cal q = Ok cal' ->
  exists p, OQC.one_qubit properties !! str q = Some p
    /\ cal' = mkCalibration
         (<[q := <["rz" := OQC.fRB p]> (<["sx" := OQC.fRB p]> (<["x" := OQC.fRB p]> ∅))]>
            (single_qubit_gate_fidelity cal))
         (single_qubit_gate_duration cal)
         (two_qubit_gate_fidelity cal) (two_qubit_gate_duration cal)
         (<[q := OQC.fRO p]> (readout_fidelity cal))
         (readout_duration cal)
         (<[q := (OQC.T1 p * 1e-6)%float]> (t1 cal))
         (<[q := (OQC.T2 p * 1e-6)%float]> (t2 cal)).
Proof.
  unfold oqc.OQCProvider_qubit_step. intros Hrun.
  apply bind_Ok in Hrun as (p & Hp & Hrun). apply getitem_Ok in Hp.
  exists p. split; [done|]. by inversion Hrun.
Qed.

Lemma OQC_edge_step_Ok (properties : OQC.Properties) cal e cal' :
  oqc.OQCProvider_edge_step properties cal e = Ok cal' ->
  exists q1 q2 tq,
    e = [q1; q2]
    /\ OQC.two_qubit properties !! (str q1 +:+ "-" +:+ str q2) = Some tq
    /\ cal' = mkCalibration
         (single_qubit_gate_fidelity cal) (single_qubit_gate_duration cal)
         (<[(q1, q2) := {["ecr" := OQC.fECR tq]}]> (two_qubit_gate_fidelity cal))
         (two_qubit_gate_duration cal)
         (readout_fidelity cal) (readout_duration cal) (t1 cal) (t2 cal).
Proof.
  unfold oqc.OQCProvider_edge_step. intros Hrun.
  apply bind_Ok in Hrun as ([q1 q2] & He & Hrun). apply unpack2_Ok in He.
  apply bind_Ok in Hrun as (tq & Htq & Hrun). apply getitem_Ok in Htq.
  exists q1, q2, tq. repeat split; try done. by inversion Hrun.
Qed.

Lemma OQC_import_Ok (c : OQC.OQCCalibration) (d : Device) :
  oqc.OQCProvider_import_calibration c = Ok d ->
  exists cal1 cal,
    for_each (oqc.OQCProvider_qubit_step (OQC.properties c)) (range (OQC.num_qubits c))
      DeviceCalibration_new = Ok cal1
    /\ for_each (oqc.OQCProvider_edge_step (OQC.properties c)) (OQC.connectivity c) cal1
       = Ok cal
    /\ d = mkDevice (OQC.name c) (OQC.num_qubits c) (OQC.basis_gates c)
             (OQC.connectivity c) cal.
Proof.
  unfold oqc.OQCProvider_import_calibration. intros Hrun.
  apply bind_Ok in Hrun as (cal1 & Hrun1 & Hrun).
  apply bind_Ok in Hrun as (cal & Hrun2 & Hrun).
  exists cal1, cal. repeat split; try done. by inversion Hrun.
Qed.

(** Every table of the device an OQC import returns. *)
Lemma OQC_import_spec (c : OQC.OQCCalibration) (d : Device) :
  oqc.OQCProvider_import_calibration c = Ok d ->
  num_qubits d = OQC.num_qubits c
  /\ coupling_map d = OQC.connectivity c
  /\ (forall q, single_qubit_gate_fidelity (calibration d) !! q =
        (fun p => <["rz" := OQC.fRB p]> (<["sx" := OQC.fRB p]> (<["x" := OQC.fRB p]> ∅)))
        <$> qubit_block (OQC.one_qubit (OQC.properties c)) (OQC.num_qubits c) q)
  /\ single_qubit_gate_duration (calibration d) = ∅
  /\ (forall q1 q2, two_qubit_gate_fidelity (calibration d) !! (q1, q2) =
        if decide ([q1; q2] ∈ OQC.connectivity c)
        then (fun tq => {["ecr" := OQC.fECR tq]})
             <$> OQC.two_qubit (OQC.properties c) !! (str q1 +:+ "-" +:+ str q2)
        else None)
  /\ two_qubit_gate_duration (calibration d) = ∅
  /\ (forall q, readout_fidelity (calibration d) !! q =
        OQC.fRO <$> qubit_block (OQC.one_qubit (OQC.properties c)) (OQC.num_qubits c) q)
  /\ readout_duration (calibration d) = ∅
  /\ (forall q, t1 (calibration d) !! q =
        (fun p => (OQC.T1 p * 1e-6)%float)
        <$> qubit_block (OQC.one_qubit (OQC.properties c)) (OQC.num_qubits c) q)
  /\ (forall q, t2 (calibration d) !! q =
        (fun p => (OQC.T2 p * 1e-6)%float)
        <$> qubit_block (OQC.one_qubit (OQC.properties c)) (OQC.num_qubits c) q).
Proof.
  intros Hrun. apply OQC_import_Ok in Hrun as (cal1 & cal & Hrun1 & Hrun2 & ->).
  simpl.
  set (qstep := oqc.OQCProvider_qubit_step (OQC.properties c)) in *.
  set (estep := oqc.OQCProvider_edge_step (OQC.properties c)) in *.
  assert (Hframe2 : forall {B} (f : DeviceCalibration -> B),
            (forall s a, f (mkCalibration (single_qubit_gate_fidelity s)
               (single_qubit_gate_duration s) a (two_qubit_gate_duration s)
               (readout_fidelity s) (readout_duration s) (t1 s) (t2 s)) = f s) ->
            f cal = f cal1).
  { intros B f Hf. apply (for_each_frame estep f (OQC.connectivity c)); [|done].
    intros s e s' _ Hstep.
    apply OQC_edge_step_Ok in Hstep as (q1 & q2 & tq & _ & _ & ->). apply Hf. }
  assert (Hframe1 : forall {B} (f : DeviceCalibration -> B),
            (forall s a b c d, f (mkCalibration a (single_qubit_gate_duration s)
               (two_qubit_gate_fidelity s) (two_qubit_gate_duration s)
               b (readout_duration s) c d) = f s) ->
            f cal1 = f DeviceCalibration_new).
  { intros B f Hf.
    apply (for_each_frame qstep f (range (OQC.num_qubits c))); [|done].
    intros s q s' _ Hstep.
    apply OQC_qubit_step_Ok in Hstep as (p & _ & ->). apply Hf. }
  assert (Hqs : forall {V} (tbl : DeviceCalibration -> gmap Z V) (f : OQC.QubitProperties -> V),
            tbl DeviceCalibration_new = ∅ ->
            (forall s a, tbl (mkCalibration (single_qubit_gate_fidelity s)
               (single_qubit_gate_duration s) a (two_qubit_gate_duration s)
               (readout_fidelity s) (readout_duration s) (t1 s) (t2 s)) = tbl s) ->
            (forall s q p, tbl (mkCalibration
               (<[q := <["rz" := OQC.fRB p]> (<["sx" := OQC.fRB p]>
                  (<["x" := OQC.fRB p]> ∅))]> (single_qubit_gate_fidelity s))
               (single_qubit_gate_duration s)
               (two_qubit_gate_fidelity s) (two_qubit_gate_duration s)
               (<[q := OQC.fRO p]> (readout_fidelity s))
               (readout_duration s)
               (<[q := (OQC.T1 p * 1e-6)%float]> (t1 s))
               (<[q := (OQC.T2 p * 1e-6)%float]> (t2 s))) = <[q := f p]> (tbl s)) ->
            forall q, tbl cal !! q =
              f <$> qubit_block (OQC.one_qubit (OQC.properties c)) (OQC.num_qubits c) q).
  { intros V tbl f Hnew He Hq q. rewrite (Hframe2 _ tbl He).
    destruct (for_each_table qstep tbl Some
                (fun q => f <$> OQC.one_qubit (OQC.properties c) !! str q)
                (range (OQC.num_qubits c))) with
      (s := DeviceCalibration_new) (s' := cal1) (k := q) as [Hhit Hmiss]; [|done|].
    - intros s x s' _ Hx. apply OQC_qubit_step_Ok in Hx as (p & Hp & ->).
      exists x, (f p). rewrite Hp. done.
    - unfold qubit_block. destruct (decide (q ∈ range (OQC.num_qubits c))).
      + apply Hhit. eauto.
      + rewrite Hmiss; [by rewrite Hnew, lookup_empty|]. congruence. }
  split; [done|]. split; [done|].
  split; [by apply (Hqs _ single_qubit_gate_fidelity)|].
  split.
  { rewrite (Hframe2 _ single_qubit_gate_duration), (Hframe1 _ single_qubit_gate_duration);
      done. }
  split.
  { intros q1 q2.
    destruct (for_each_table estep two_qubit_gate_fidelity pair_of
                (fun k => (fun tq => {["ecr" := OQC.fECR tq]})
                          <$> OQC.two_qubit (OQC.properties c)
                              !! (str k.1 +:+ "-" +:+ str k.2))
                (OQC.connectivity c)) with
      (s := cal1) (s' := cal) (k := (q1, q2)) as [Hhit Hmiss]; [|done|].
    - intros s x s' _ Hx. apply OQC_edge_step_Ok in Hx as (a & b & tq & -> & Htq & ->).
      exists (a, b), {["ecr" := OQC.fECR tq]}. simpl. rewrite Htq. done.
    - destruct (decide ([q1; q2] ∈ OQC.connectivity c)).
      + apply Hhit. exists [q1; q2]. done.
      + rewrite Hmiss.
        * rewrite (Hframe1 _ two_qubit_gate_fidelity); done.
        * intros x Hx Hxq. apply pair_of_Some in Hxq. congruence. }
  split.
  { rewrite (Hframe2 _ two_qubit_gate_duration), (Hframe1 _ two_qubit_gate_duration);
      done. }
  split; [by apply (Hqs _ readout_fidelity)|].
  split.
  { rewrite (Hframe2 _ readout_duration), (Hframe1 _ readout_duration); done. }
  split; [by apply (Hqs _ t1)|]. by apply (Hqs _ t2).
Qed.

(** The import of a well-formed OQC file returns. *)
Lemma OQC_import_total (c : OQC.OQCCalibration) :
  OQC_well_formed c = true -> exists d, oqc.OQCProvider_import_calibration c = Ok d.
Proof.
  unfold OQC_well_formed. intros Hwf. apply andb_prop in Hwf as [Hq He].
  rewrite forallb_forall in Hq, He.
  unfold oqc.OQCProvider_import_calibration.
  destruct (for_each_total (oqc.OQCProvider_qubit_step (OQC.properties c))
              (range (OQC.num_qubits c))) with (s := DeviceCalibration_new)
    as [cal1 Hcal1].
  { intros q Hq' s. apply list_elem_of_In in Hq'. specialize (Hq q Hq').
    apply bool_decide_eq_true in Hq as [p Hp].
    eexists. unfold oqc.OQCProvider_qubit_step, getitem. rewrite Hp. simpl.
    reflexivity. }
  rewrite Hcal1. simpl.
  destruct (for_each_total (oqc.OQCProvider_edge_step (OQC.properties c))
              (OQC.connectivity c)) with (s := cal1) as [cal Hcal].
  { intros e He' s. apply list_elem_of_In in He'. specialize (He e He').
    unfold OQC_edge_ok in He. destruct e as [|q1 [|q2 [|q3 e']]]; try discriminate.
    apply bool_decide_eq_true in He as [tq Htq].
    eexists. unfold oqc.OQCProvider_edge_step, getitem. simpl. rewrite Htq. simpl.
    reflexivity. }
  rewrite Hcal. simpl. eauto.
Qed.

Lemma OQC_well_formed_qubit (c : OQC.OQCCalibration) (q : Z) :
  OQC_well_formed c = true -> 0 <= q < OQC.num_qubits c ->
  exists p, qubit_block (OQC.one_qubit (OQC.properties c)) (OQC.num_qubits c) q = Some p.
Proof.
  unfold OQC_well_formed. intros Hwf Hq. apply andb_prop in Hwf as [Hqs _].
  rewrite forallb_forall in Hqs. apply range_spec in Hq.
  specialize (Hqs q (proj1 (list_elem_of_In _ _) Hq)).
  apply bool_decide_eq_true in Hqs as [p Hp].
  exists p. apply qubit_block_Some. by rewrite <- range_spec.
Qed.

Lemma OQC_well_formed_edge (c : OQC.OQCCalibration) (q1 q2 : Z) :
  OQC_well_formed c = true -> [q1; q2] ∈ OQC.connectivity c ->
  exists tq, OQC.two_qubit (OQC.properties c) !! (str q1 +:+ "-" +:+ str q2) = Some tq.
Proof.
  unfold OQC_well_formed. intros Hwf Hin. apply andb_prop in Hwf as [_ Hes].
  rewrite forallb_forall in Hes.
  specialize (Hes _ (proj1 (list_elem_of_In _ _) Hin)). simpl in Hes.
  by apply bool_decide_eq_true in Hes.
Qed.

(** ** The fidelity of [rz] in the IBM file imports *)

Lemma file_calibration_rz {QP : Type} (T1 T2 eRO tRO eID eSX eX : QP -> float)
    (e t : QP -> gmap string float) (g2 : string) (properties : gmap string QP)
    (n : Z) (conn : list (list Z)) (nm : string) (bg : list string) :
  file_well_formed e t properties n conn = true ->
  exists d,
    (cal ← file_calibration T1 T2 eRO tRO eID eSX eX e t g2 properties n conn;
     Ok (mkDevice nm n bg conn cal)) = Ok d
    /\ rz_fidelity_is_one n d.
Proof.
  intros Hwf.
  destruct (file_calibration_total T1 T2 eRO tRO eID eSX eX _ _ g2 _ _ _ Hwf)
    as [cal Hcal].
  rewrite Hcal. eexists. split; [reflexivity|].
  destruct (file_calibration_spec _ _ _ _ _ _ _ _ _ _ _ _ _ cal Hcal) as (Hsf & _).
  intros q Hq. simpl in Hq |- *.
  destruct (file_well_formed_qubit _ _ _ _ _ q Hwf Hq) as [p Hp].
  rewrite Hsf, Hp. simpl. eexists. split; [reflexivity|].
  rewrite lookup_insert_ne by done. apply lookup_insert_eq.
Qed.

(** C4.  For every well-formed calibration file, the IBM import and both
    open-access imports return a device whose
    [single_qubit_gate_fidelity[q]["rz"]] is exactly 1 for every qubit [q] in
    [range(num_qubits)] of the file, whatever the values in the file. *)
Theorem IBM_rz_fidelity_is_one (ci : IBMCalibration.t) (co : IBMOpenAccessCalibration.t) :
  IBM_well_formed ci = true ->
  IBMOpenAccess_well_formed co = true ->
  (exists d, ibm.IBMProvider_import_backend ci = Ok d
             /\ rz_fidelity_is_one (IBMCalibration.num_qubits ci) d)
  /\ (exists d, ibm.IBMOpenAccessProvider_import_backend co = Ok d
                /\ rz_fidelity_is_one (IBMOpenAccessCalibration.num_qubits co) d)
  /\ (exists d, ibm_open_access.IBMOpenAccessProvider_import_backend co = Ok d
                /\ rz_fidelity_is_one (IBMOpenAccessCalibration.num_qubits co) d).
Proof.
  intros Hi Ho. split; [|split].
  - rewrite IBMProvider_import_backend_eq. by apply file_calibration_rz.
  - rewrite IBMOpenAccessProvider_import_backend_eq. by apply file_calibration_rz.
  - rewrite open_access_py_import_backend_eq. apply file_calibration_rz.
    by apply file_well_formed_same_field in Ho.
Qed.

Lemma IBM_rz_fidelity_is_one_witness :
  IBM_well_formed (sample_IBM_file 50) = true
  /\ IBMOpenAccess_well_formed sample_open_access_file = true
  /\ (exists d, ibm.IBMProvider_import_backend (sample_IBM_file 50) = Ok d
                /\ rz_fidelity_is_one 2 d)
  /\ (exists d, ibm.IBMOpenAccessProvider_import_backend sample_open_access_file = Ok d
                /\ rz_fidelity_is_one 2 d)
  /\ (exists d,
        ibm_open_access.IBMOpenAccessProvider_import_backend sample_open_access_file = Ok d
        /\ rz_fidelity_is_one 2 d).
Proof.
  split; [reflexivity|]. split; [reflexivity|].
  apply (IBM_rz_fidelity_is_one (sample_IBM_file 50) sample_open_access_file);
    reflexivity.
Defined.

(** ** The OQC import: fidelities and empty duration tables *)

(** C5.  For a well-formed OQC calibration file, the import sets the
    fidelities of ["rz"], ["sx"] and ["x"] of every qubit to the [fRB] of the
    qubit's [one_qubit] block and the readout fidelity to its [fRO],
    unchanged. *)
Theorem OQC_fidelities_from_fRB_and_fRO
    (calibration_files : gmap string OQC.OQCCalibration) (device_name : string)
    (c : OQC.OQCCalibration) :
  calibration_files !! (device_name +:+ "_calibration.json") = Some c ->
  OQC_well_formed c = true ->
  exists d,
    oqc.OQCProvider_import_backend calibration_files device_name = Ok d
    /\ forall q, 0 <= q < OQC.num_qubits c ->
         exists p g,
           OQC.one_qubit (OQC.properties c) !! str q = Some p
           /\ single_qubit_gate_fidelity (calibration d) !! q = Some g
           /\ g !! "rz" = Some (OQC.fRB p)
           /\ g !! "sx" = Some (OQC.fRB p)
           /\ g !! "x" = Some (OQC.fRB p)
           /\ readout_fidelity (calibration d) !! q = Some (OQC.fRO p).
Proof.
  intros Hfile Hwf. unfold oqc.OQCProvider_import_backend. rewrite Hfile.
  destruct (OQC_import_total c Hwf) as [d Hd]. exists d. split; [done|].
  destruct (OQC_import_spec c d Hd) as (_ & _ & Hsf & _ & _ & _ & Hrf & _).
  intros q Hq. destruct (OQC_well_formed_qubit c q Hwf Hq) as [p Hp].
  rewrite Hsf, Hrf, Hp. simpl. apply qubit_block_Some in Hp as [_ Hp].
  exists p. eexists. split; [done|]. split; [reflexivity|].
  split; [apply lookup_insert_eq|].
  split; [rewrite lookup_insert_ne by done; apply lookup_insert_eq|].
  split; [|done].
  rewrite !lookup_insert_ne by done. apply lookup_insert_eq.
Qed.

Lemma OQC_fidelities_from_fRB_and_fRO_witness :
  sample_OQC_files !! ("oqc_lucy" +:+ "_calibration.json") = Some sample_OQC_file
  /\ OQC_well_formed sample_OQC_file = true
  /\ exists d,
       oqc.OQCProvider_import_backend sample_OQC_files "oqc_lucy" = Ok d
       /\ forall q, 0 <= q < 2 ->
            exists p g,
              OQC.one_qubit (OQC.properties sample_OQC_file) !! str q = Some p
              /\ single_qubit_gate_fidelity (calibration d) !! q = Some g
              /\ g !! "rz" = Some (OQC.fRB p)
              /\ g !! "sx" = Some (OQC.fRB p)
              /\ g !! "x" = Some (OQC.fRB p)
              /\ readout_fidelity (calibration d) !! q = Some (OQC.fRO p).
Proof.
  split; [reflexivity|]. split; [reflexivity|].
  apply (OQC_fidelities_from_fRB_and_fRO sample_OQC_files "oqc_lucy" sample_OQC_file);
    reflexivity.
Defined.

(** C9.  For a well-formed OQC calibration file, the device the import
    returns has empty [two_qubit_gate_duration], [readout_duration] and
    [single_qubit_gate_duration] tables, so a lookup of any key gives no value
    (and not the value zero), while the fidelity tables and [t1], [t2] have an
    entry for every qubit in range, respectively every edge. *)
Theorem OQC_duration_tables_are_empty
    (calibration_files : gmap string OQC.OQCCalibration) (device_name : string)
    (c : OQC.OQCCalibration) :
  calibration_files !! (device_name +:+ "_calibration.json") = Some c ->
  OQC_well_formed c = true ->
  exists d,
    oqc.OQCProvider_import_backend calibration_files device_name = Ok d
    /\ two_qubit_gate_duration (calibration d) = ∅
    /\ readout_duration (calibration d) = ∅
    /\ single_qubit_gate_duration (calibration d) = ∅
    /\ (forall q1 q2, two_qubit_gate_duration (calibration d) !! (q1, q2) = None)
    /\ (forall q, readout_duration (calibration d) !! q = None
                  /\ single_qubit_gate_duration (calibration d) !! q = None)
    /\ (forall q, 0 <= q < num_qubits d ->
          is_Some (single_qubit_gate_fidelity (calibration d) !! q)
          /\ is_Some (readout_fidelity (calibration d) !! q)
          /\ is_Some (t1 (calibration d) !! q)
          /\ is_Some (t2 (calibration d) !! q))
    /\ (forall q1 q2, [q1; q2] ∈ coupling_map d ->
          is_Some (two_qubit_gate_fidelity (calibration d) !! (q1, q2))).
Proof.
  intros Hfile Hwf. unfold oqc.OQCProvider_import_backend. rewrite Hfile.
  destruct (OQC_import_total c Hwf) as [d Hd]. exists d. split; [done|].
  destruct (OQC_import_spec c d Hd)
    as (Hn & Hcm & Hsf & Hsd & Htf & Htd & Hrf & Hrd & Ht1 & Ht2).
  rewrite Htd, Hrd, Hsd, Hn, Hcm.
  split; [done|]. split; [done|]. split; [done|].
  split; [intros; apply lookup_empty|].
  split; [intros; split; apply lookup_empty|].
  split.
  - intros q Hq. destruct (OQC_well_formed_qubit c q Hwf Hq) as [p Hp].
    rewrite Hsf, Hrf, Ht1, Ht2, Hp. simpl. eauto.
  - intros q1 q2 Hin. destruct (OQC_well_formed_edge c q1 q2 Hwf Hin) as [tq Htq].
    rewrite Htf, Htq. rewrite decide_True by done. simpl. eauto.
Qed.

Lemma OQC_duration_tables_are_empty_witness :
  sample_OQC_files !! ("oqc_lucy" +:+ "_calibration.json") = Some sample_OQC_file
  /\ OQC_well_formed sample_OQC_file = true
  /\ exists d,
       oqc.OQCProvider_import_backend sample_OQC_files "oqc_lucy" = Ok d
       /\ two_qubit_gate_duration (calibration d) = ∅
       /\ readout_duration (calibration d) = ∅
       /\ single_qubit_gate_duration (calibration d) = ∅.
Proof.
  split; [reflexivity|]. split; [reflexivity|].
  destruct (OQC_duration_tables_are_empty sample_OQC_files "oqc_lucy" sample_OQC_file)
    as (d & Hd & Htd & Hrd & Hsd & _); [reflexivity|reflexivity|].
  exists d. auto.
Defined.

(** ** The keys of the tables of a file import *)

Lemma qubit_block_is_Some {QP V : Type} (f : QP -> V) (properties : gmap string QP)
    (n q : Z) :
  is_Some (f <$> qubit_block properties n q) -> q ∈ range n.
Proof.
  rewrite fmap_is_Some. intros [p Hp].
  apply qubit_block_Some in Hp as [Hq _]. by apply range_spec.
Qed.

Lemma edge_value_is_Some {QP V : Type} (f : float -> V) (field : QP -> gmap string float)
    (properties : gmap string QP) (conn : list (list Z)) (q1 q2 : Z) :
  is_Some (f <$> edge_value field properties conn q1 q2) -> [q1; q2] ∈ conn.
Proof.
  rewrite fmap_is_Some. intros [v Hv]. by apply edge_value_Some in Hv as [Hin _].
Qed.

Lemma file_calibration_keys {QP : Type} (T1 T2 eRO tRO eID eSX eX : QP -> float)
    (e t : QP -> gmap string float) (g2 : string) (properties : gmap string QP)
    (n : Z) (conn : list (list Z)) (nm : string) (bg : list string) :
  file_well_formed e t properties n conn = true ->
  exists d,
    (cal ← file_calibration T1 T2 eRO tRO eID eSX eX e t g2 properties n conn;
     Ok (mkDevice nm n bg conn cal)) = Ok d
    /\ qubit_keys_in_range d /\ edge_keys_in_coupling_map d.
Proof.
  intros Hwf.
  destruct (file_calibration_total T1 T2 eRO tRO eID eSX eX _ _ g2 _ _ _ Hwf)
    as [cal Hcal].
  rewrite Hcal. eexists. split; [reflexivity|].
  destruct (file_calibration_spec _ _ _ _ _ _ _ _ _ _ _ _ _ cal Hcal)
    as (_ & _ & Htf & Htd & Hrf & Hrd & Ht1 & Ht2).
  split.
  - intros q. simpl. rewrite Ht1, Ht2, Hrf, Hrd.
    intros [Hs|[Hs|[Hs|Hs]]]; by apply qubit_block_is_Some in Hs.
  - intros q1 q2. simpl. rewrite Htf, Htd.
    intros [Hs|Hs]; by apply edge_value_is_Some in Hs.
Qed.

(** C6.  For a well-formed calibration file, each file-based import (IBM, the
    two open-access importers, OQC) returns a device in which every key of
    [t1], [t2], [readout_fidelity] and [readout_duration] is in
    [range(num_qubits)] and every key of [two_qubit_gate_fidelity] and
    [two_qubit_gate_duration] is a pair of the device's [coupling_map]. *)
Theorem file_imports_keys_within_device (ci : IBMCalibration.t)
    (co : IBMOpenAccessCalibration.t)
    (calibration_files : gmap string OQC.OQCCalibration) (device_name : string)
    (cq : OQC.OQCCalibration) :
  IBM_well_formed ci = true ->
  IBMOpenAccess_well_formed co = true ->
  calibration_files !! (device_name +:+ "_calibration.json") = Some cq ->
  OQC_well_formed cq = true ->
  (exists d, ibm.IBMProvider_import_backend ci = Ok d
             /\ qubit_keys_in_range d /\ edge_keys_in_coupling_map d)
  /\ (exists d, ibm.IBMOpenAccessProvider_import_backend co = Ok d
                /\ qubit_keys_in_range d /\ edge_keys_in_coupling_map d)
  /\ (exists d, ibm_open_access.IBMOpenAccessProvider_import_backend co = Ok d
                /\ qubit_keys_in_range d /\ edge_keys_in_coupling_map d)
  /\ (exists d, oqc.OQCProvider_import_backend calibration_files device_name = Ok d
                /\ qubit_keys_in_range d /\ edge_keys_in_coupling_map d).
Proof.
  intros Hi Ho Hfile Hq. split; [|split; [|split]].
  - rewrite IBMProvider_import_backend_eq. by apply file_calibration_keys.
  - rewrite IBMOpenAccessProvider_import_backend_eq. by apply file_calibration_keys.
  - rewrite open_access_py_import_backend_eq. apply file_calibration_keys.
    by apply file_well_formed_same_field in Ho.
  - unfold oqc.OQCProvider_import_backend. rewrite Hfile.
    destruct (OQC_import_total cq Hq) as [d Hd]. exists d. split; [done|].
    destruct (OQC_import_spec cq d Hd)
      as (Hn & Hcm & _ & _ & Htf & Htd & Hrf & Hrd & Ht1 & Ht2).
    split.
    + intros q. rewrite Ht1, Ht2, Hrf, Hrd, Hn, lookup_empty.
      intros [Hs|[Hs|[Hs|Hs]]]; try (by apply qubit_block_is_Some in Hs).
      by destruct Hs.
    + intros q1 q2. rewrite Htf, Htd, Hcm, lookup_empty.
      destruct (decide ([q1; q2] ∈ OQC.connectivity cq)); [done|].
      intros [Hs|Hs]; by destruct Hs.
Qed.

Lemma file_imports_keys_within_device_witness :
  IBM_well_formed (sample_IBM_file 50) = true
  /\ IBMOpenAccess_well_formed sample_open_access_file = true
  /\ sample_OQC_files !! ("oqc_lucy" +:+ "_calibration.json") = Some sample_OQC_file
  /\ OQC_well_formed sample_OQC_file = true
  /\ (exists d, ibm.IBMProvider_import_backend (sample_IBM_file 50) = Ok d
                /\ qubit_keys_in_range d /\ edge_keys_in_coupling_map d)
  /\ (exists d, oqc.OQCProvider_import_backend sample_OQC_files "oqc_lucy" = Ok d
                /\ qubit_keys_in_range d /\ edge_keys_in_coupling_map d).
Proof.
  split; [reflexivity|]. split; [reflexivity|]. split; [reflexivity|].
  split; [reflexivity|].
  destruct (file_imports_keys_within_device (sample_IBM_file 50) sample_open_access_file
              sample_OQC_files "oqc_lucy" sample_OQC_file)
    as (Hibm & _ & _ & Hoqc); try reflexivity.
  split; assumption.
Defined.

(** ** provider.py *)

Section provider_facts.
Context `{cls : Provider} `{DeviceMethods}.

Lemma get_devices_Forall2 (names : list string) (sanitize : bool) (devices : list Device) :
  get_devices names sanitize = Ok devices ->
  Forall2 (fun n d => get_device n sanitize = Ok d) names devices.
Proof.
  revert devices. induction names as [|n names IH]; intros devices Hrun; simpl in Hrun.
  - inversion Hrun. constructor.
  - apply bind_Ok in Hrun as (d & Hd & Hrun).
    apply bind_Ok in Hrun as (ds & Hds & Hrun).
    inversion Hrun; subst. constructor; [done|]. by apply IH.
Qed.

(** C1, as amended.  For a name that is not in
    [get_available_device_names()], [get_device] raises [ValueError] with the
    message [Device <name> not found.]; it is the only error of [get_device]
    itself.  For a name in the list, [get_device] is [import_backend(name)]
    followed, when [sanitize] is set, by [sanitize_device]: it returns the
    device that [import_backend] produced, sanitized when asked, and an
    exception of [import_backend], a [ValueError] included, is raised
    unchanged. *)
Theorem get_device_checks_the_name (device_name : string) (sanitize : bool) :
  (device_name ∉ get_available_device_names ->
   get_device device_name sanitize
   = Raise (ValueError ("Device " +:+ device_name +:+ " not found.")))
  /\ (device_name ∈ get_available_device_names ->
      get_device device_name sanitize
      = (device ← import_backend device_name;
         if sanitize then sanitize_device device else Ok device)
      /\ (forall device, import_backend device_name = Ok device ->
            get_device device_name false = Ok device
            /\ get_device device_name true = sanitize_device device)
      /\ (forall e, import_backend device_name = Raise e ->
            get_device device_name sanitize = Raise e)).
Proof.
  unfold get_device. split; intros Hname.
  - by rewrite decide_True.
  - rewrite !decide_False by (by intros Hn).
    split; [|split].
    + destruct (import_backend device_name); simpl; [|done].
      by destruct sanitize, (sanitize_device a).
    + intros device ->. simpl. split; [done|]. by destruct (sanitize_device device).
    + by intros e ->.
Qed.

(** C7.  When every available device can be imported,
    [get_available_basis_gates()] returns a list without duplicates whose
    members are exactly the [basis_gates] of the available devices, the
    devices being those [get_device] returns for the available names. *)
Theorem get_available_basis_gates_no_duplicates (devices : list Device) :
  get_available_devices false = Ok devices ->
  exists gates,
    get_available_basis_gates = Ok gates
    /\ NoDup gates
    /\ (forall g, g ∈ gates <-> exists d, d ∈ devices /\ basis_gates d = g)
    /\ Forall2 (fun n d => get_device n false = Ok d) get_available_device_names devices.
Proof.
  intros Hds. unfold get_available_basis_gates. rewrite Hds. simpl.
  eexists. split; [reflexivity|]. split; [apply NoDup_elements|]. split.
  - intros g. rewrite elem_of_elements, elem_of_list_to_set, list_elem_of_fmap.
    split; intros (d & Hd1 & Hd2); exists d; done.
  - by apply get_devices_Forall2.
Qed.

End provider_facts.

Lemma get_device_checks_the_name_witness :
  ("nonexistent_device" ∉ @get_available_device_names (OQCProvider sample_OQC_files))
  /\ ("oqc_lucy" ∈ @get_available_device_names (OQCProvider sample_OQC_files))
  /\ @get_device (OQCProvider sample_OQC_files) sample_methods "nonexistent_device" false
     = Raise (ValueError "Device nonexistent_device not found.")
  /\ exists d,
       oqc.OQCProvider_import_backend sample_OQC_files "oqc_lucy" = Ok d
       /\ @get_device (OQCProvider sample_OQC_files) sample_methods "oqc_lucy" false = Ok d
       /\ @get_device (OQCProvider sample_OQC_files) sample_methods "oqc_lucy" true
          = @sanitize_device sample_methods d.
Proof.
  assert (Hout : "nonexistent_device"
                 ∉ @get_available_device_names (OQCProvider sample_OQC_files)).
  { simpl. rewrite list_elem_of_singleton. discriminate. }
  assert (Hin : "oqc_lucy" ∈ @get_available_device_names (OQCProvider sample_OQC_files)).
  { simpl. by apply list_elem_of_singleton. }
  split; [exact Hout|]. split; [exact Hin|]. split.
  - exact (proj1 (@get_device_checks_the_name (OQCProvider sample_OQC_files)
                    sample_methods "nonexistent_device" false) Hout).
  - eexists. split; [vm_compute; reflexivity|].
    apply (proj2 (@get_device_checks_the_name (OQCProvider sample_OQC_files)
                    sample_methods "oqc_lucy" false) Hin).
    vm_compute; reflexivity.
Defined.

(** C1, counterexample.  ["oqc_lucy"] is in the list of the OQC provider, and
    on a calibration file whose connectivity has an entry of three qubits
    [get_device("oqc_lucy")] raises a [ValueError], the class of the error
    of an unknown device: the one that unpacking the entry raises in
    [import_backend]. *)
Lemma get_device_of_listed_name_raises_ValueError :
  "oqc_lucy" ∈ @get_available_device_names (OQCProvider sample_OQC_files_with_triple)
  /\ (exists msg,
        @get_device (OQCProvider sample_OQC_files_with_triple) sample_methods
          "oqc_lucy" false = Raise (ValueError msg))
  /\ (exists msg,
        @get_device (OQCProvider sample_OQC_files_with_triple) sample_methods
          "oqc_lucy" true = Raise (ValueError msg)).
Proof.
  split; [simpl; by apply list_elem_of_singleton|].
  split; eexists; vm_compute; reflexivity.
Qed.

Lemma get_available_basis_gates_no_duplicates_witness :
  exists d1 d2,
    @get_available_devices sample_provider sample_methods false = Ok [d1; d2]
    /\ basis_gates d1 = basis_gates d2
    /\ exists gates,
         @get_available_basis_gates sample_provider sample_methods = Ok gates
         /\ NoDup gates
         /\ gates = [basis_gates d1].
Proof.
  eexists _, _. split; [vm_compute; reflexivity|]. split; [reflexivity|].
  destruct (@get_available_basis_gates_no_duplicates sample_provider sample_methods _
              ltac:(vm_compute; reflexivity)) as (gates & Hg & Hnd & _).
  exists gates. split; [exact Hg|]. split; [exact Hnd|].
  vm_compute in Hg. by injection Hg as <-.
Defined.

(** ** The live imports: the skipped operations *)

Lemma no_gate_empty_tables {K : Type} `{Countable K} (g : string) (keys : list K) :
  no_gate g (ibm.empty_tables keys).
Proof.
  intros k d Hd. unfold ibm.empty_tables in Hd.
  apply elem_of_list_to_map_2 in Hd.
  apply list_elem_of_fmap in Hd as (k' & [= _ ->] & _). apply lookup_empty.
Qed.

Lemma no_gate_empty {K : Type} `{Countable K} (g : string) :
  no_gate g (∅ : gmap K (gmap string float)).
Proof. intros k d Hd. by rewrite lookup_empty in Hd. Qed.

(** Storing a dictionary without [g] keeps a table without [g]. *)
Lemma no_gate_insert {K : Type} `{Countable K} (g : string)
    (tbl : gmap K (gmap string float)) (k : K) (d : gmap string float) :
  no_gate g tbl -> d !! g = None -> no_gate g (<[k := d]> tbl).
Proof.
  intros Htbl Hd k' d' Hk'.
  destruct (decide (k = k')) as [->|Hne].
  - rewrite lookup_insert_eq in Hk'. by injection Hk' as <-.
  - rewrite lookup_insert_ne in Hk' by done. by apply (Htbl k').
Qed.

(** [tbl[k][gate] = v] for a gate other than [g]. *)
Lemma no_gate_set_item {K : Type} `{Countable K} (g gate : string)
    (tbl : gmap K (gmap string float)) (k : K) (d : gmap string float) (v : float) :
  gate <> g -> no_gate g tbl -> tbl !! k = Some d ->
  no_gate g (<[k := <[gate := v]> d]> tbl).
Proof.
  intros Hne Htbl Hk. apply no_gate_insert; [done|].
  rewrite lookup_insert_ne by done. by apply (Htbl k).
Qed.

Ltac reduce_tables H :=
  cbn [set_single_qubit_gate_fidelity set_single_qubit_gate_duration
       set_two_qubit_gate_fidelity set_two_qubit_gate_duration
       set_readout_fidelity set_readout_duration
       single_qubit_gate_fidelity single_qubit_gate_duration
       two_qubit_gate_fidelity two_qubit_gate_duration] in H.

Ltac next_getitem H d Hd :=
  reduce_tables H; apply bind_Ok in H as (d & Hd & H); apply getitem_Ok in Hd.

Ltac close_no_entry_for H :=
  inversion H; subst; clear H; unfold no_entry_for;
  cbn [set_single_qubit_gate_fidelity set_single_qubit_gate_duration
       set_two_qubit_gate_fidelity set_two_qubit_gate_duration
       set_readout_fidelity set_readout_duration
       single_qubit_gate_fidelity single_qubit_gate_duration
       two_qubit_gate_fidelity two_qubit_gate_duration];
  rewrite ?lookup_insert_eq in *; simplify_eq;
  repeat split;
  first [ done
        | apply no_gate_set_item;
          [ done
          | first [done | by apply no_gate_insert]
          | first [done | apply lookup_insert_eq] ] ].

Lemma import_backend_properties_gate_step_no_reset (bp : BackendProperties.t)
    (cal : DeviceCalibration) (gate : BackendProperties.Gate) (cal' : DeviceCalibration) :
  no_entry_for "reset" cal ->
  ibm.import_backend_properties_gate_step bp cal gate = Ok cal' ->
  no_entry_for "reset" cal'.
Proof.
  intros (Hsf & Hsd & Htf & Htd) Hstep.
  unfold ibm.import_backend_properties_gate_step in Hstep.
  destruct (decide (BackendProperties.gate gate = "reset")) as [Hreset|Hne].
  { inversion Hstep; subst. done. }
  destruct (BackendProperties.qubits gate) as [|q1 [|q2 [|q3 qs]]].
  - inversion Hstep; subst. done.
  - next_getitem Hstep d1 Hd1. next_getitem Hstep d2 Hd2.
    close_no_entry_for Hstep.
  - destruct (two_qubit_gate_fidelity cal !! (q1, q2)) as [d0|] eqn:Hd0;
      next_getitem Hstep d1 Hd1;
      destruct (two_qubit_gate_duration cal !! (q1, q2)) as [d3|] eqn:Hd3;
      next_getitem Hstep d2 Hd2;
      close_no_entry_for Hstep.
  - inversion Hstep; subst. done.
Qed.

Lemma import_target_instruction_step_no_skipped (g : string) (target : Target.t)
    (cal : DeviceCalibration) (instruction : string * list Z) (cal' : DeviceCalibration) :
  g ∈ ["reset"; "delay"] ->
  no_entry_for g cal ->
  ibm.import_target_instruction_step target cal instruction = Ok cal' ->
  no_entry_for g cal'.
Proof.
  intros Hg (Hsf & Hsd & Htf & Htd) Hstep.
  destruct instruction as [instruction_name qargs].
  unfold ibm.import_target_instruction_step in Hstep.
  destruct (decide (instruction_name ∈ ["reset"; "delay"])) as [Hskip|Hne].
  { inversion Hstep; subst. done. }
  assert (Hname : instruction_name <> g) by (by intros ->).
  destruct qargs as [|q1 qargs]; [done|].
  destruct (decide (instruction_name = "measure")).
  { inversion Hstep; subst. done. }
  destruct qargs as [|q2 [|q3 qargs]].
  - next_getitem Hstep d1 Hd1. next_getitem Hstep d2 Hd2.
    close_no_entry_for Hstep.
  - next_getitem Hstep d1 Hd1. next_getitem Hstep d2 Hd2.
    close_no_entry_for Hstep.
  - inversion Hstep; subst. done.
Qed.

(** The first loops leave the tables keyed by gate names as they are. *)
Lemma import_backend_properties_qubit_loop_frame (bp : BackendProperties.t) (n : Z)
    (cal cal' : DeviceCalibration) :
  for_each (ibm.import_backend_properties_qubit_step bp) (range n) cal = Ok cal' ->
  two_qubit_gate_fidelity cal' = two_qubit_gate_fidelity cal
  /\ two_qubit_gate_duration cal' = two_qubit_gate_duration cal.
Proof.
  intros Hrun. split.
  - apply (for_each_frame _ two_qubit_gate_fidelity _ ) with (s := cal) in Hrun; [done|].
    intros s x s' _ Hstep. by inversion Hstep.
  - apply (for_each_frame _ two_qubit_gate_duration _ ) with (s := cal) in Hrun; [done|].
    intros s x s' _ Hstep. by inversion Hstep.
Qed.

Lemma import_backend_properties_no_reset (bp : BackendProperties.t)
    (cal : DeviceCalibration) :
  ibm.import_backend_properties bp = Ok cal -> no_entry_for "reset" cal.
Proof.
  unfold ibm.import_backend_properties. intros Hrun.
  apply bind_Ok in Hrun as (cal1 & Hrun1 & Hrun2).
  apply import_backend_properties_qubit_loop_frame in Hrun1 as [Htf Htd].
  revert Hrun2. apply for_each_inv.
  - intros s x s' _. apply import_backend_properties_gate_step_no_reset.
  - unfold no_entry_for. simpl. rewrite Htf, Htd. simpl.
    repeat split; first [apply no_gate_empty_tables | apply no_gate_empty].
Qed.

Lemma import_target_no_skipped (g : string) (target : Target.t) (cal : DeviceCalibration) :
  g ∈ ["reset"; "delay"] ->
  ibm.import_target target = Ok cal -> no_entry_for g cal.
Proof.
  unfold ibm.import_target. intros Hg Hrun.
  apply bind_Ok in Hrun as (cal1 & Hrun1 & Hrun2).
  revert Hrun2. apply for_each_inv.
  - intros s x s' _. by apply import_target_instruction_step_no_skipped.
  - unfold no_entry_for. simpl. repeat split; apply no_gate_empty_tables.
Qed.

(** C8, as amended.  [import_target] records no fidelity or duration entry
    under the gate names ["reset"] and ["delay"]; [import_backend_properties]
    records none under ["reset"]. *)
Theorem live_imports_skip_operations (backend_properties : BackendProperties.t)
    (target : Target.t) (c1 c2 : DeviceCalibration) :
  ibm.import_backend_properties backend_properties = Ok c1 ->
  ibm.import_target target = Ok c2 ->
  no_entry_for "reset" c1 /\ no_entry_for "reset" c2 /\ no_entry_for "delay" c2.
Proof.
  intros H1 H2. split; [by apply (import_backend_properties_no_reset backend_properties)|].
  split; apply (import_target_no_skipped _ target); try done.
  - left.
  - right. left.
Qed.

Lemma live_imports_skip_operations_witness :
  exists c1 c2,
    ibm.import_backend_properties sample_backend_properties = Ok c1
    /\ ibm.import_target sample_target = Ok c2
    /\ no_entry_for "reset" c1 /\ no_entry_for "reset" c2 /\ no_entry_for "delay" c2.
Proof.
  eexists _, _.
  split; [vm_compute; reflexivity|]. split; [vm_compute; reflexivity|].
  apply (live_imports_skip_operations sample_backend_properties sample_target);
    vm_compute; reflexivity.
Defined.

(** C8, counterexample.  [sample_backend_properties] lists a gate named
    ["delay"] on qubit 0; [import_backend_properties] returns a calibration
    whose [single_qubit_gate_fidelity[0]] and [single_qubit_gate_duration[0]]
    have an entry under ["delay"]. *)
Lemma import_backend_properties_records_delay :
  exists c f t,
    BackendProperties.mkGate "delay" [0] ∈ BackendProperties.gates sample_backend_properties
    /\ ibm.import_backend_properties sample_backend_properties = Ok c
    /\ single_qubit_gate_fidelity c !! 0 ≫= (.!! "delay") = Some f
    /\ single_qubit_gate_duration c !! 0 ≫= (.!! "delay") = Some t.
Proof.
  eexists _, _, _.
  split; [simpl; right; left|].
  split; [vm_compute; reflexivity|].
  split; vm_compute; reflexivity.
Qed.

(** * Further properties of the code *)

(** ** More on the loops *)

Lemma for_each_app {A S : Type} (body : S -> A -> result S) (l1 l2 : list A) (s : S) :
  for_each body (l1 ++ l2)%list s = for_each body l1 s ≫= for_each body l2.
Proof.
  revert s. induction l1 as [|x l1 IH]; intros s; simpl; [done|].
  destruct (body s x) as [s1|e]; simpl; [apply IH|done].
Qed.

(** What every iteration of a loop that returned must have satisfied. *)
Lemma for_each_Ok_Forall {A S : Type} (body : S -> A -> result S) (P : S -> Prop)
    (Q : A -> Prop) (l : list A) :
  (forall s x s', x ∈ l -> P s -> body s x = Ok s' -> P s' /\ Q x) ->
  forall s s', P s -> for_each body l s = Ok s' -> Forall Q l.
Proof.
  induction l as [|x l IH]; intros Hstep s s' HP Hrun; simpl in Hrun; [constructor|].
  apply bind_Ok in Hrun as (s1 & Hx & Hrest).
  destruct (Hstep s x s1 (list_elem_of_here _ _) HP Hx) as [HP1 HQ].
  constructor; [done|].
  apply (IH (fun s0 y s0' Hy => Hstep s0 y s0' (list_elem_of_further _ _ _ Hy)) s1 s');
    done.
Qed.

(** A loop returns when every iteration returns from a state that satisfies
    an invariant the iterations keep. *)
Lemma for_each_total_inv {A S : Type} (body : S -> A -> result S) (P : S -> Prop)
    (l : list A) :
  (forall s x, x ∈ l -> P s -> exists s', body s x = Ok s' /\ P s') ->
  forall s, P s -> exists s', for_each body l s = Ok s' /\ P s'.
Proof.
  induction l as [|x l IH]; intros Hstep s HP; simpl; [eauto|].
  destruct (Hstep s x (list_elem_of_here _ _) HP) as (s1 & -> & HP1). simpl.
  apply IH; [|done]. intros s0 y Hy. apply Hstep. by right.
Qed.

(** The first iteration that raises ends the loop with its exception. *)
Lemma for_each_first_raise {A S : Type} (body : S -> A -> result S)
    (pre post : list A) (x : A) (e : exn) :
  (forall y, y ∈ pre -> forall s, exists s', body s y = Ok s') ->
  (forall s, body s x = Raise e) ->
  forall s, for_each body (pre ++ x :: post)%list s = Raise e.
Proof.
  intros Hpre Hx s. rewrite for_each_app.
  destruct (for_each_total body pre Hpre s) as [s1 ->]. simpl. by rewrite Hx.
Qed.

(** A loop whose iterations each store at most one entry of a table given
    as a function of the state: the keys stored hold their values, the other
    keys are as before. *)
Lemma for_each_entries {A S K V : Type} `{EqDecision K} (body : S -> A -> result S)
    (F : S -> K -> option V) (key : A -> option K) (val : K -> option V) (l : list A) :
  (forall s x s', x ∈ l -> body s x = Ok s' ->
     match key x with
     | Some k => exists v, val k = Some v
                   /\ forall k', F s' k' = if decide (k' = k) then Some v else F s k'
     | None => forall k', F s' k' = F s k'
     end) ->
  forall s s', for_each body l s = Ok s' ->
    forall k, F s' k = if decide (Some k ∈ key <$> l) then val k else F s k.
Proof.
  induction l as [|x l IH]; intros Hstep s s' Hrun k; simpl in Hrun.
  - inversion Hrun; subst. rewrite decide_False; [done|]. apply not_elem_of_nil.
  - apply bind_Ok in Hrun as (s1 & Hx & Hrest).
    pose proof (Hstep s x s1 (list_elem_of_here _ _) Hx) as Hsx.
    rewrite (IH (fun s0 y s0' Hy => Hstep s0 y s0' (list_elem_of_further _ _ _ Hy))
               s1 s' Hrest k).
    rewrite fmap_cons.
    destruct (decide (Some k ∈ key <$> l)) as [Hin|Hnin].
    + rewrite decide_True; [done|]. by right.
    + destruct (key x) as [k0|].
      * destruct Hsx as (v & Hv & HF). rewrite HF.
        destruct (decide (k = k0)) as [->|Hne].
        -- rewrite decide_True; [done|]. left.
        -- rewrite decide_False; [done|].
           intros [Heq|Hin]%elem_of_cons; [congruence|done].
      * rewrite Hsx. rewrite decide_False; [done|].
        intros [Heq|Hin]%elem_of_cons; [done|done].
Qed.

(** ** provider.py: the devices of a provider *)

Lemma foldl_max_spec (n : Z) (ns : list Z) :
  (forall x, x ∈ n :: ns -> x <= foldl Z.max n ns) /\ foldl Z.max n ns ∈ n :: ns.
Proof.
  revert n. induction ns as [|y ns IH]; intros n; simpl.
  - split; [|left]. intros x ->%list_elem_of_singleton. lia.
  - destruct (IH (Z.max n y)) as [Hle Hin]. split.
    + intros x Hx. assert (Hmax : Z.max n y <= foldl Z.max (Z.max n y) ns).
      { apply Hle. left. }
      apply elem_of_cons in Hx as [->|Hx]; [lia|].
      apply elem_of_cons in Hx as [->|Hx]; [lia|].
      apply Hle. by right.
    + apply elem_of_cons in Hin as [Heq|Hin].
      * rewrite Heq. destruct (Z.max_spec n y) as [[_ ->]|[_ ->]]; [right; left|left].
      * right. by right.
Qed.

Section provider_more.
Context `{cls : Provider} `{DeviceMethods}.

Lemma get_devices_of_Forall2 (names : list string) (sanitize : bool)
    (devices : list Device) :
  Forall2 (fun n d => get_device n sanitize = Ok d) names devices ->
  get_devices names sanitize = Ok devices.
Proof.
  induction 1 as [|n d names devices Hd _ IH]; simpl; [done|].
  by rewrite Hd, IH.
Qed.

(** X1.  [get_available_devices] returns a list exactly when [get_device]
    returns a device for every available name; the list then holds those
    devices, one per name and in the order of the names. *)
Theorem get_available_devices_one_per_name (sanitize : bool) (devices : list Device) :
  get_available_devices sanitize = Ok devices <->
  Forall2 (fun n d => get_device n sanitize = Ok d) get_available_device_names devices.
Proof.
  split; [apply get_devices_Forall2 | apply get_devices_of_Forall2].
Qed.

Lemma get_devices_Raise (names : list string) (sanitize : bool) (e : exn) :
  get_devices names sanitize = Raise e ->
  exists n, n ∈ names /\ get_device n sanitize = Raise e.
Proof.
  induction names as [|n names IH]; simpl; [done|].
  destruct (get_device n sanitize) as [d|e'] eqn:Hd; simpl.
  - destruct (get_devices names sanitize) as [ds|e'']; simpl; [done|].
    intros [= ->]. destruct IH as (n' & Hn' & He); [done|].
    exists n'. split; [by right|done].
  - intros [= ->]. exists n. split; [left|done].
Qed.

(** X2.  An exception of [get_available_devices] is never the one of the
    name check of [get_device]: it comes from [import_backend] on an
    available name, or from [sanitize_device] on the device imported for an
    available name when sanitizing was asked for. *)
Theorem get_available_devices_raises_from_import (sanitize : bool) (e : exn) :
  get_available_devices sanitize = Raise e ->
  exists n,
    n ∈ get_available_device_names
    /\ (import_backend n = Raise e
        \/ exists d, import_backend n = Ok d /\ sanitize = true
                     /\ sanitize_device d = Raise e).
Proof.
  intros Hrun. apply get_devices_Raise in Hrun as (n & Hn & He).
  exists n. split; [done|]. unfold get_device in He.
  rewrite decide_False in He by (by intros Hnot).
  destruct (import_backend n) as [d|e'] eqn:Hd; simpl in He.
  - right. exists d. split; [done|].
    destruct sanitize; [|done]. split; [done|].
    by destruct (sanitize_device d).
  - left. congruence.
Qed.

(** X3.  When the available devices import and there is at least one,
    [get_max_qubits] returns the largest [num_qubits] among them: no device
    has more qubits, and some device has exactly that many.  Without any
    device it raises [ValueError]. *)
Theorem get_max_qubits_is_the_maximum (devices : list Device) :
  get_available_devices false = Ok devices ->
  (devices = [] -> exists msg, get_max_qubits = Raise (ValueError msg))
  /\ (devices <> [] ->
      exists m, get_max_qubits = Ok m
        /\ (forall d, d ∈ devices -> num_qubits d <= m)
        /\ exists d, d ∈ devices /\ num_qubits d = m).
Proof.
  intros Hds. unfold get_max_qubits. rewrite Hds. simpl. split.
  - intros ->. simpl. eauto.
  - destruct devices as [|d0 ds]; [done|]. intros _. simpl.
    eexists. split; [reflexivity|].
    destruct (foldl_max_spec (num_qubits d0) (num_qubits <$> ds)) as [Hle Hin].
    split.
    + intros d Hd. apply Hle. rewrite <- fmap_cons. by apply list_elem_of_fmap_2.
    + rewrite <- fmap_cons in Hin. apply list_elem_of_fmap in Hin as (d & Hd1 & Hd2).
      eauto.
Qed.

End provider_more.

Lemma get_available_devices_raises_from_import_witness :
  exists e n,
    @get_available_devices failing_provider sample_methods true = Raise e
    /\ n ∈ @get_available_device_names failing_provider
    /\ (@import_backend failing_provider n = Raise e
        \/ exists d, @import_backend failing_provider n = Ok d /\ true = true
                     /\ @sanitize_device sample_methods d = Raise e).
Proof.
  eexists.
  destruct (@get_available_devices_raises_from_import failing_provider sample_methods
              true (KeyError "1") ltac:(vm_compute; reflexivity)) as (n & Hn & Hor).
  exists n. split; [vm_compute; reflexivity|]. split; [exact Hn|exact Hor].
Defined.

Lemma get_max_qubits_is_the_maximum_witness :
  exists devices m,
    @get_available_devices sample_provider sample_methods false = Ok devices
    /\ devices <> []
    /\ @get_max_qubits sample_provider sample_methods = Ok m
    /\ (forall d, d ∈ devices -> num_qubits d <= m)
    /\ (exists msg, @get_max_qubits empty_provider sample_methods
                    = Raise (ValueError msg)).
Proof.
  destruct (@get_available_devices sample_provider sample_methods false)
    as [devices|e] eqn:Hds; [|vm_compute in Hds; discriminate].
  assert (Hne : devices <> []).
  { intros ->. vm_compute in Hds. discriminate. }
  destruct (@get_max_qubits_is_the_maximum sample_provider sample_methods devices Hds)
    as [_ Hmax].
  destruct (Hmax Hne) as (m & Hm & Hle & _).
  exists devices, m. split; [reflexivity|]. split; [exact Hne|].
  split; [exact Hm|]. split; [exact Hle|].
  apply (proj1 (@get_max_qubits_is_the_maximum empty_provider sample_methods []
                  eq_refl) eq_refl).
Defined.

(** ** The file imports: which files are accepted *)

Lemma for_each_ext {A S : Type} (body1 body2 : S -> A -> result S) (l : list A) :
  (forall s x, x ∈ l -> body1 s x = body2 s x) ->
  forall s, for_each body1 l s = for_each body2 l s.
Proof.
  induction l as [|x l IH]; intros Hext s; simpl; [done|].
  rewrite (Hext s x (list_elem_of_here _ _)).
  destruct (body2 s x) as [s1|e]; simpl; [|done].
  apply IH. intros s0 y Hy. apply Hext. by right.
Qed.

Lemma forallb_of_Forall {A : Type} (f : A -> bool) (l : list A) :
  Forall (fun x => f x = true) l -> forallb f l = true.
Proof.
  induction 1 as [|x l Hx _ IH]; simpl; [done|]. by rewrite Hx, IH.
Qed.

(** An import in the common shape that returned was given a well-formed
    file. *)
Lemma file_calibration_Ok_well_formed {QP : Type} (T1 T2 eRO tRO eID eSX eX : QP -> float)
    (e t : QP -> gmap string float) (g2 : string) (properties : gmap string QP)
    (n : Z) (conn : list (list Z)) (cal : DeviceCalibration) :
  file_calibration T1 T2 eRO tRO eID eSX eX e t g2 properties n conn = Ok cal ->
  file_well_formed e t properties n conn = true.
Proof.
  intros Hrun. apply file_calibration_Ok in Hrun as (cal1 & Hrun1 & Hrun2).
  unfold file_well_formed. apply andb_true_intro. split; apply forallb_of_Forall.
  - refine (for_each_Ok_Forall _ (fun _ => True) _ _ _ _ _ I Hrun1).
    intros s q s' _ _ Hstep. split; [done|].
    apply file_qubit_step_Ok in Hstep as (p & Hp & _).
    unfold file_qubit_ok. apply bool_decide_eq_true. eauto.
  - refine (for_each_Ok_Forall _ (fun _ => True) _ _ _ _ _ I Hrun2).
    intros s x s' _ _ Hstep. split; [done|].
    apply file_edge_step_Ok in Hstep as (q1 & q2 & p & er & du & -> & Hp & Her & Hdu & _).
    unfold file_edge_ok. rewrite Hp. apply andb_true_intro.
    split; apply bool_decide_eq_true; eauto.
Qed.

Lemma file_import_returns_iff {QP : Type} (T1 T2 eRO tRO eID eSX eX : QP -> float)
    (e t : QP -> gmap string float) (g2 : string) (properties : gmap string QP)
    (n : Z) (conn : list (list Z)) (nm : string) (bg : list string) :
  (exists d,
     (cal ← file_calibration T1 T2 eRO tRO eID eSX eX e t g2 properties n conn;
      Ok (mkDevice nm n bg conn cal)) = Ok d)
  <-> file_well_formed e t properties n conn = true.
Proof.
  split.
  - intros (d & Hd). apply bind_Ok in Hd as (cal & Hcal & _).
    by apply file_calibration_Ok_well_formed in Hcal.
  - intros Hwf.
    destruct (file_calibration_total T1 T2 eRO tRO eID eSX eX _ _ g2 _ _ _ Hwf)
      as [cal Hcal].
    rewrite Hcal. simpl. eauto.
Qed.

(** X4.  The IBM import and the open-access import of [ibm.py] return a
    device exactly for the well-formed files (every qubit in range has a
    property block, every connectivity entry is a pair whose control qubit
    has the edge in both two-qubit fields); on any other file they raise.
    The open-access import of [ibm_open_access.py] returns exactly for the
    files that are well formed with [eECR] in the place of [tECR]. *)
Theorem IBM_file_imports_return_iff_well_formed (ci : IBMCalibration.t)
    (co : IBMOpenAccessCalibration.t) :
  ((exists d, ibm.IBMProvider_import_backend ci = Ok d) <-> IBM_well_formed ci = true)
  /\ ((exists d, ibm.IBMOpenAccessProvider_import_backend co = Ok d)
      <-> IBMOpenAccess_well_formed co = true)
  /\ ((exists d, ibm_open_access.IBMOpenAccessProvider_import_backend co = Ok d)
      <-> file_well_formed QubitPropertiesOpenAccess.eECR QubitPropertiesOpenAccess.eECR
            (IBMOpenAccessCalibration.properties co)
            (IBMOpenAccessCalibration.num_qubits co)
            (IBMOpenAccessCalibration.connectivity co) = true).
Proof.
  split; [|split].
  - rewrite IBMProvider_import_backend_eq. apply file_import_returns_iff.
  - rewrite IBMOpenAccessProvider_import_backend_eq. apply file_import_returns_iff.
  - rewrite open_access_py_import_backend_eq. apply file_import_returns_iff.
Qed.

(** X5.  The open-access import of [ibm_open_access.py] never reads [tECR]:
    emptying every [tECR] dictionary of a file changes neither the device it
    returns nor the exception it raises. *)
Theorem open_access_py_import_ignores_tECR (c : IBMOpenAccessCalibration.t) :
  ibm_open_access.IBMOpenAccessProvider_import_backend (file_without_tECR c)
  = ibm_open_access.IBMOpenAccessProvider_import_backend c.
Proof.
  unfold ibm_open_access.IBMOpenAccessProvider_import_backend, file_without_tECR.
  simpl.
  rewrite (for_each_ext
             (ibm_open_access.IBMOpenAccessProvider_qubit_step
                (without_tECR <$> IBMOpenAccessCalibration.properties c))
             (ibm_open_access.IBMOpenAccessProvider_qubit_step
                (IBMOpenAccessCalibration.properties c))).
  2:{ intros s q _. unfold ibm_open_access.IBMOpenAccessProvider_qubit_step, getitem.
      rewrite lookup_fmap.
      by destruct (IBMOpenAccessCalibration.properties c !! str q). }
  destruct (for_each _ (range _) _) as [cal1|e]; simpl; [|done].
  rewrite (for_each_ext
             (ibm_open_access.IBMOpenAccessProvider_edge_step
                (without_tECR <$> IBMOpenAccessCalibration.properties c))
             (ibm_open_access.IBMOpenAccessProvider_edge_step
                (IBMOpenAccessCalibration.properties c))); [done|].
  intros s x _. unfold ibm_open_access.IBMOpenAccessProvider_edge_step, getitem.
  destruct (unpack2 x) as [[q1 q2]|e]; simpl; [|done].
  rewrite lookup_fmap.
  by destruct (IBMOpenAccessCalibration.properties c !! str q1).
Qed.

(** ** The file imports: the exception of a malformed file *)

Lemma range_split (n q : Z) :
  0 <= q < n -> range n = (range q ++ q :: seqZ (q + 1) (n - q - 1))%list.
Proof.
  intros Hq. unfold range.
  replace n with (q + (n - q)) at 1 by lia.
  rewrite seqZ_app by lia. f_equal.
  rewrite seqZ_cons by lia. repeat f_equal; lia.
Qed.

(** The first qubit in range without a property block ends an import in the
    common shape with the [KeyError] of its key. *)
Lemma file_calibration_missing_block {QP : Type} (T1 T2 eRO tRO eID eSX eX : QP -> float)
    (e t : QP -> gmap string float) (g2 : string) (properties : gmap string QP)
    (n : Z) (conn : list (list Z)) (q : Z) :
  0 <= q < n ->
  (forall q', 0 <= q' < q -> is_Some (properties !! str q')) ->
  properties !! str q = None ->
  file_calibration T1 T2 eRO tRO eID eSX eX e t g2 properties n conn
  = Raise (KeyError (str q)).
Proof.
  intros Hq Hbefore Hnone. unfold file_calibration.
  rewrite (range_split n q Hq).
  rewrite (for_each_first_raise _ (range q) _ q (KeyError (str q))); [done| |].
  - intros y Hy%range_spec s. destruct (Hbefore y Hy) as [p Hp].
    eexists. unfold file_qubit_step, getitem. rewrite Hp. simpl. reflexivity.
  - intros s. unfold file_qubit_step, getitem. by rewrite Hnone.
Qed.

(** X6.  When a qubit in [range(num_qubits)] has no property block in an IBM
    file, the import raises [KeyError] with the key [str(q)] of the first
    such qubit [q]. *)
Theorem IBM_import_missing_block_raises_KeyError (c : IBMCalibration.t) (q : Z) :
  0 <= q < IBMCalibration.num_qubits c ->
  (forall q', 0 <= q' < q -> is_Some (IBMCalibration.properties c !! str q')) ->
  IBMCalibration.properties c !! str q = None ->
  ibm.IBMProvider_import_backend c = Raise (KeyError (str q)).
Proof.
  intros Hq Hbefore Hnone. rewrite IBMProvider_import_backend_eq.
  by rewrite (file_calibration_missing_block _ _ _ _ _ _ _ _ _ _ _ _ _ q Hq Hbefore Hnone).
Qed.

Lemma IBM_import_missing_block_raises_KeyError_witness :
  ibm.IBMProvider_import_backend sample_IBM_file_missing_block = Raise (KeyError "1").
Proof.
  apply (IBM_import_missing_block_raises_KeyError sample_IBM_file_missing_block 1).
  - simpl. lia.
  - intros q' Hq'. assert (q' = 0) as -> by lia. vm_compute. eauto.
  - reflexivity.
Defined.

(** The first connectivity entry the second loop cannot process ends an
    import in the common shape with the exception of that entry. *)
Lemma file_calibration_bad_entry {QP : Type} (T1 T2 eRO tRO eID eSX eX : QP -> float)
    (e t : QP -> gmap string float) (g2 : string) (properties : gmap string QP)
    (n : Z) (pre post : list (list Z)) (x : list Z) (err : exn) :
  forallb (file_qubit_ok properties) (range n) = true ->
  forallb (file_edge_ok e t properties) pre = true ->
  (forall s, file_edge_step e t g2 properties s x = Raise err) ->
  file_calibration T1 T2 eRO tRO eID eSX eX e t g2 properties n (pre ++ x :: post)%list
  = Raise err.
Proof.
  intros Hqs Hpre Hx.
  assert (Hwf : file_well_formed e t properties n pre = true).
  { unfold file_well_formed. by rewrite Hqs, Hpre. }
  destruct (file_calibration_total T1 T2 eRO tRO eID eSX eX _ _ g2 _ _ _ Hwf)
    as [cal Hcal].
  apply file_calibration_Ok in Hcal as (cal1 & Hrun1 & Hrun2).
  unfold file_calibration. rewrite Hrun1. simpl.
  rewrite for_each_app, Hrun2. simpl. by rewrite Hx.
Qed.

(** X7.  In an IBM file whose qubits all have their block, the first
    connectivity entry that cannot be processed decides the exception of the
    import: [ValueError] for an entry that is not a pair, [KeyError] with
    [str(q1)] for a pair whose control qubit has no block, and [KeyError] with
    the edge key ["{q1}_{q2}"] for a pair missing from [eCX], or from [tCX]
    when [eCX] has it. *)
Theorem IBM_import_bad_connectivity_entry (c : IBMCalibration.t)
    (pre post : list (list Z)) (x : list Z) :
  IBMCalibration.connectivity c = (pre ++ x :: post)%list ->
  forallb (file_qubit_ok (IBMCalibration.properties c))
    (range (IBMCalibration.num_qubits c)) = true ->
  forallb (file_edge_ok QubitPropertiesIBM.eCX QubitPropertiesIBM.tCX
             (IBMCalibration.properties c)) pre = true ->
  (pair_of x = None ->
   exists msg, ibm.IBMProvider_import_backend c = Raise (ValueError msg))
  /\ (forall q1 q2, x = [q1; q2] ->
      match IBMCalibration.properties c !! str q1 with
      | None => ibm.IBMProvider_import_backend c = Raise (KeyError (str q1))
      | Some p =>
          QubitPropertiesIBM.eCX p !! edge_key q1 q2 = None
          \/ QubitPropertiesIBM.tCX p !! edge_key q1 q2 = None ->
          ibm.IBMProvider_import_backend c = Raise (KeyError (edge_key q1 q2))
      end).
Proof.
  intros Hconn Hqs Hpre. rewrite IBMProvider_import_backend_eq, Hconn. split.
  - intros Hx.
    assert (exists msg, unpack2 x = Raise (ValueError msg)) as [msg Hmsg].
    { destruct x as [|a [|b [|b' x']]]; simpl in *; eauto. discriminate. }
    exists msg.
    rewrite (file_calibration_bad_entry _ _ _ _ _ _ _ _ _ _ _ _ pre post x
               (ValueError msg) Hqs Hpre); [done|].
    intros s. unfold file_edge_step. by rewrite Hmsg.
  - intros q1 q2 ->.
    destruct (IBMCalibration.properties c !! str q1) as [p|] eqn:Hp.
    + intros Hmissing.
      rewrite (file_calibration_bad_entry _ _ _ _ _ _ _ _ _ _ _ _ pre post [q1; q2]
                 (KeyError (edge_key q1 q2)) Hqs Hpre); [done|].
      intros s. unfold file_edge_step, getitem. simpl. rewrite Hp. simpl.
      fold (edge_key q1 q2).
      destruct (QubitPropertiesIBM.eCX p !! edge_key q1 q2) as [er|]; simpl; [|done].
      destruct Hmissing as [?|Hdu]; [done|]. by rewrite Hdu.
    + rewrite (file_calibration_bad_entry _ _ _ _ _ _ _ _ _ _ _ _ pre post [q1; q2]
                 (KeyError (str q1)) Hqs Hpre); [done|].
      intros s. unfold file_edge_step, getitem. simpl. by rewrite Hp.
Qed.

Lemma IBM_import_bad_connectivity_entry_witness :
  (exists msg, ibm.IBMProvider_import_backend (sample_IBM_file_with_entry [1])
               = Raise (ValueError msg))
  /\ ibm.IBMProvider_import_backend (sample_IBM_file_with_entry [5; 0])
     = Raise (KeyError "5")
  /\ ibm.IBMProvider_import_backend (sample_IBM_file_with_entry [1; 0])
     = Raise (KeyError "1_0").
Proof.
  split; [|split].
  - apply (IBM_import_bad_connectivity_entry (sample_IBM_file_with_entry [1])
             [[0; 1]] [] [1]); reflexivity.
  - apply (proj2 (IBM_import_bad_connectivity_entry (sample_IBM_file_with_entry [5; 0])
                    [[0; 1]] [] [5; 0] eq_refl eq_refl eq_refl) 5 0 eq_refl).
  - pose proof (proj2 (IBM_import_bad_connectivity_entry
                         (sample_IBM_file_with_entry [1; 0])
                         [[0; 1]] [] [1; 0] eq_refl eq_refl eq_refl) 1 0 eq_refl) as H.
    change (IBMCalibration.properties (sample_IBM_file_with_entry [1; 0]) !! str 1)
      with (Some (sample_IBM_qubit 50)) in H.
    apply H. left. reflexivity.
Defined.

(** ** The file imports: the remaining attributes and fidelities *)

Lemma file_calibration_single_qubit_part {QP : Type}
    (T1 T2 eRO tRO eID eSX eX : QP -> float)
    (e t : QP -> gmap string float) (g2 : string) (properties : gmap string QP)
    (n : Z) (conn : list (list Z)) (nm : string) (bg : list string) :
  file_well_formed e t properties n conn = true ->
  exists d,
    (cal ← file_calibration T1 T2 eRO tRO eID eSX eX e t g2 properties n conn;
     Ok (mkDevice nm n bg conn cal)) = Ok d
    /\ name d = nm /\ num_qubits d = n /\ basis_gates d = bg /\ coupling_map d = conn
    /\ IBM_single_qubit_part eRO eID eSX eX properties d.
Proof.
  intros Hwf.
  destruct (file_calibration_total T1 T2 eRO tRO eID eSX eX _ _ g2 _ _ _ Hwf)
    as [cal Hcal].
  rewrite Hcal. eexists. split; [reflexivity|]. simpl.
  split; [done|]. split; [done|]. split; [done|]. split; [done|].
  destruct (file_calibration_spec _ _ _ _ _ _ _ _ _ _ _ _ _ cal Hcal)
    as (Hsf & Hsd & _ & _ & Hrf & _).
  split; [done|]. simpl. intros q Hq.
  destruct (file_well_formed_qubit _ _ _ _ _ q Hwf Hq) as [p Hp].
  rewrite Hsf, Hrf, Hp. simpl. apply qubit_block_Some in Hp as [_ Hp].
  exists p. eexists. split; [done|]. split; [reflexivity|].
  split; [rewrite !dom_insert_L, dom_empty_L; set_solver|].
  split; [apply lookup_insert_eq|].
  split; [rewrite !lookup_insert_ne by done; apply lookup_insert_eq|].
  split; [|done].
  rewrite !lookup_insert_ne by done. apply lookup_insert_eq.
Qed.

(** X8.  For a well-formed file, the IBM import and both open-access imports
    return a device that has the [name], [num_qubits], [basis_gates] and
    connectivity of the file, no single-qubit duration at all, and for every
    qubit the readout fidelity [1 - eRO] and a fidelity dictionary with
    exactly the gates ["id"], ["rz"], ["sx"], ["x"], where ["id"], ["sx"] and
    ["x"] hold [1 - eID], [1 - eSX] and [1 - eX]. *)
Theorem IBM_file_imports_single_qubit_part (ci : IBMCalibration.t)
    (co : IBMOpenAccessCalibration.t) :
  IBM_well_formed ci = true ->
  IBMOpenAccess_well_formed co = true ->
  (exists d,
     ibm.IBMProvider_import_backend ci = Ok d
     /\ name d = IBMCalibration.name ci
     /\ num_qubits d = IBMCalibration.num_qubits ci
     /\ basis_gates d = IBMCalibration.basis_gates ci
     /\ coupling_map d = IBMCalibration.connectivity ci
     /\ IBM_single_qubit_part QubitPropertiesIBM.eRO QubitPropertiesIBM.eID
          QubitPropertiesIBM.eSX QubitPropertiesIBM.eX (IBMCalibration.properties ci) d)
  /\ (exists d,
        ibm.IBMOpenAccessProvider_import_backend co = Ok d
        /\ name d = IBMOpenAccessCalibration.name co
        /\ num_qubits d = IBMOpenAccessCalibration.num_qubits co
        /\ basis_gates d = IBMOpenAccessCalibration.basis_gates co
        /\ coupling_map d = IBMOpenAccessCalibration.connectivity co
        /\ IBM_single_qubit_part QubitPropertiesOpenAccess.eRO
             QubitPropertiesOpenAccess.eID QubitPropertiesOpenAccess.eSX
             QubitPropertiesOpenAccess.eX (IBMOpenAccessCalibration.properties co) d)
  /\ (exists d,
        ibm_open_access.IBMOpenAccessProvider_import_backend co = Ok d
        /\ name d = IBMOpenAccessCalibration.name co
        /\ num_qubits d = IBMOpenAccessCalibration.num_qubits co
        /\ basis_gates d = IBMOpenAccessCalibration.basis_gates co
        /\ coupling_map d = IBMOpenAccessCalibration.connectivity co
        /\ IBM_single_qubit_part QubitPropertiesOpenAccess.eRO
             QubitPropertiesOpenAccess.eID QubitPropertiesOpenAccess.eSX
             QubitPropertiesOpenAccess.eX (IBMOpenAccessCalibration.properties co) d).
Proof.
  intros Hi Ho. split; [|split].
  - rewrite IBMProvider_import_backend_eq.
    by apply file_calibration_single_qubit_part.
  - rewrite IBMOpenAccessProvider_import_backend_eq.
    by apply file_calibration_single_qubit_part.
  - rewrite open_access_py_import_backend_eq.
    apply file_calibration_single_qubit_part.
    by apply file_well_formed_same_field in Ho.
Qed.

Lemma IBM_file_imports_single_qubit_part_witness :
  exists d,
    ibm.IBMProvider_import_backend (sample_IBM_file 50) = Ok d
    /\ name d = "ibm_sample"
    /\ IBM_single_qubit_part QubitPropertiesIBM.eRO QubitPropertiesIBM.eID
         QubitPropertiesIBM.eSX QubitPropertiesIBM.eX
         (IBMCalibration.properties (sample_IBM_file 50)) d.
Proof.
  destruct (IBM_file_imports_single_qubit_part (sample_IBM_file 50)
              sample_open_access_file eq_refl eq_refl)
    as ((d & Hd & Hname & _ & _ & _ & Hpart) & _).
  exists d. split; [exact Hd|]. split; [exact Hname|exact Hpart].
Defined.

(** ** The file imports: the connectivity list as a set *)

Lemma edge_value_same_elements {QP : Type} (field : QP -> gmap string float)
    (properties : gmap string QP) (conn conn' : list (list Z)) (q1 q2 : Z) :
  (forall x, x ∈ conn <-> x ∈ conn') ->
  edge_value field properties conn q1 q2 = edge_value field properties conn' q1 q2.
Proof.
  intros Hsame. unfold edge_value.
  destruct (decide ([q1; q2] ∈ conn)) as [Hin|Hnin],
    (decide ([q1; q2] ∈ conn')) as [Hin'|Hnin']; try done.
  - by apply Hsame in Hin.
  - by apply Hsame in Hin'.
Qed.

Lemma file_calibration_same_elements {QP : Type}
    (T1 T2 eRO tRO eID eSX eX : QP -> float)
    (e t : QP -> gmap string float) (g2 : string) (properties : gmap string QP)
    (n : Z) (conn conn' : list (list Z)) (cal cal' : DeviceCalibration) :
  (forall x, x ∈ conn <-> x ∈ conn') ->
  file_calibration T1 T2 eRO tRO eID eSX eX e t g2 properties n conn = Ok cal ->
  file_calibration T1 T2 eRO tRO eID eSX eX e t g2 properties n conn' = Ok cal' ->
  cal = cal'.
Proof.
  intros Hsame Hcal Hcal'.
  destruct (file_calibration_spec _ _ _ _ _ _ _ _ _ _ _ _ _ cal Hcal)
    as (Hsf & Hsd & Htf & Htd & Hrf & Hrd & Ht1 & Ht2).
  destruct (file_calibration_spec _ _ _ _ _ _ _ _ _ _ _ _ _ cal' Hcal')
    as (Hsf' & Hsd' & Htf' & Htd' & Hrf' & Hrd' & Ht1' & Ht2').
  destruct cal, cal'. simpl in *. f_equal; try congruence; apply map_eq.
  - intros q. by rewrite Hsf, Hsf'.
  - intros [q1 q2]. rewrite Htf, Htf'. f_equal. by apply edge_value_same_elements.
  - intros [q1 q2]. rewrite Htd, Htd'. f_equal. by apply edge_value_same_elements.
  - intros q. by rewrite Hrf, Hrf'.
  - intros q. by rewrite Hrd, Hrd'.
  - intros q. by rewrite Ht1, Ht1'.
  - intros q. by rewrite Ht2, Ht2'.
Qed.

Lemma file_well_formed_same_elements {QP : Type} (e t : QP -> gmap string float)
    (properties : gmap string QP) (n : Z) (conn conn' : list (list Z)) :
  (forall x, x ∈ conn <-> x ∈ conn') ->
  file_well_formed e t properties n conn = true ->
  file_well_formed e t properties n conn' = true.
Proof.
  unfold file_well_formed. intros Hsame Hwf. apply andb_prop in Hwf as [-> He].
  simpl. rewrite forallb_forall in He. apply forallb_forall.
  intros x Hx. apply He. apply list_elem_of_In, Hsame, list_elem_of_In, Hx.
Qed.

(** X9.  The calibration an IBM import builds depends on the connectivity
    list only through the set of its entries: a well-formed file and the
    same file with its entries repeated or reordered give devices with the
    same calibration. *)
Theorem IBM_import_connectivity_as_a_set (c : IBMCalibration.t) (conn' : list (list Z)) :
  IBM_well_formed c = true ->
  (forall x, x ∈ IBMCalibration.connectivity c <-> x ∈ conn') ->
  exists d d',
    ibm.IBMProvider_import_backend c = Ok d
    /\ ibm.IBMProvider_import_backend (IBM_file_with_connectivity c conn') = Ok d'
    /\ calibration d = calibration d'
    /\ coupling_map d' = conn'.
Proof.
  intros Hwf Hsame. unfold IBM_well_formed in Hwf.
  pose proof (file_well_formed_same_elements _ _ _ _ _ _ Hsame Hwf) as Hwf'.
  destruct (file_calibration_total QubitPropertiesIBM.T1 QubitPropertiesIBM.T2
              QubitPropertiesIBM.eRO QubitPropertiesIBM.tRO QubitPropertiesIBM.eID
              QubitPropertiesIBM.eSX QubitPropertiesIBM.eX _ _ "cx" _ _ _ Hwf)
    as [cal Hcal].
  destruct (file_calibration_total QubitPropertiesIBM.T1 QubitPropertiesIBM.T2
              QubitPropertiesIBM.eRO QubitPropertiesIBM.tRO QubitPropertiesIBM.eID
              QubitPropertiesIBM.eSX QubitPropertiesIBM.eX _ _ "cx" _ _ _ Hwf')
    as [cal' Hcal'].
  eexists _, _. split.
  { rewrite IBMProvider_import_backend_eq, Hcal. reflexivity. }
  split.
  { rewrite IBMProvider_import_backend_eq. simpl. rewrite Hcal'. reflexivity. }
  simpl. split; [|done].
  by apply (file_calibration_same_elements _ _ _ _ _ _ _ _ _ _ _ _ _ _ _ _ Hsame Hcal Hcal').
Qed.

Lemma IBM_import_connectivity_as_a_set_witness :
  exists d d',
    ibm.IBMProvider_import_backend (sample_IBM_file 50) = Ok d
    /\ ibm.IBMProvider_import_backend
         (IBM_file_with_connectivity (sample_IBM_file 50) [[0; 1]; [0; 1]]) = Ok d'
    /\ calibration d = calibration d'
    /\ coupling_map d' = [[0; 1]; [0; 1]].
Proof.
  apply (IBM_import_connectivity_as_a_set (sample_IBM_file 50) [[0; 1]; [0; 1]]).
  - reflexivity.
  - intros x. simpl. rewrite !elem_of_cons. tauto.
Defined.

(** ** The OQC import: values, accepted files, exceptions *)

(** X10.  For a well-formed OQC file, the import returns a device with the
    [name], [num_qubits], [basis_gates] and connectivity of the file, with
    [t1[q] = T1 * 1e-6] and [t2[q] = T2 * 1e-6] and a fidelity dictionary of
    exactly the gates ["rz"], ["sx"], ["x"] for every qubit, and with
    [two_qubit_gate_fidelity[(q1, q2)] = {"ecr": fECR}] for every edge, [fECR]
    being read under the key ["{q1}-{q2}"] of [two_qubit]. *)
Theorem OQC_import_times_and_ecr
    (calibration_files : gmap string OQC.OQCCalibration) (device_name : string)
    (c : OQC.OQCCalibration) :
  calibration_files !! (device_name +:+ "_calibration.json") = Some c ->
  OQC_well_formed c = true ->
  exists d,
    oqc.OQCProvider_import_backend calibration_files device_name = Ok d
    /\ name d = OQC.name c /\ num_qubits d = OQC.num_qubits c
    /\ basis_gates d = OQC.basis_gates c /\ coupling_map d = OQC.connectivity c
    /\ (forall q, 0 <= q < OQC.num_qubits c ->
          exists p g,
            OQC.one_qubit (OQC.properties c) !! str q = Some p
            /\ t1 (calibration d) !! q = Some (OQC.T1 p * 1e-6)%float
            /\ t2 (calibration d) !! q = Some (OQC.T2 p * 1e-6)%float
            /\ single_qubit_gate_fidelity (calibration d) !! q = Some g
            /\ dom g = list_to_set ["rz"; "sx"; "x"])
    /\ (forall q1 q2, [q1; q2] ∈ OQC.connectivity c ->
          exists tq,
            OQC.two_qubit (OQC.properties c) !! (str q1 +:+ "-" +:+ str q2) = Some tq
            /\ two_qubit_gate_fidelity (calibration d) !! (q1, q2)
               = Some {["ecr" := OQC.fECR tq]}).
Proof.
  intros Hfile Hwf. unfold oqc.OQCProvider_import_backend. rewrite Hfile.
  destruct (OQC_import_total c Hwf) as [d Hd]. exists d. split; [done|].
  destruct (OQC_import_spec c d Hd)
    as (Hn & Hcm & Hsf & _ & Htf & _ & _ & _ & Ht1 & Ht2).
  apply OQC_import_Ok in Hd as (cal1 & cal & _ & _ & Hdev).
  split; [by rewrite Hdev|]. split; [done|]. split; [by rewrite Hdev|].
  split; [done|]. split.
  - intros q Hq. destruct (OQC_well_formed_qubit c q Hwf Hq) as [p Hp].
    rewrite Hsf, Ht1, Ht2, Hp. simpl. apply qubit_block_Some in Hp as [_ Hp].
    exists p. eexists. split; [done|]. split; [done|]. split; [done|].
    split; [reflexivity|]. rewrite !dom_insert_L, dom_empty_L. set_solver.
  - intros q1 q2 Hin. destruct (OQC_well_formed_edge c q1 q2 Hwf Hin) as [tq Htq].
    exists tq. split; [done|]. by rewrite Htf, decide_True, Htq.
Qed.

Lemma OQC_import_times_and_ecr_witness :
  exists d,
    oqc.OQCProvider_import_backend sample_OQC_files "oqc_lucy" = Ok d
    /\ name d = "oqc_lucy"
    /\ two_qubit_gate_fidelity (calibration d) !! (0, 1) = Some {["ecr" := 0.95%float]}.
Proof.
  destruct (OQC_import_times_and_ecr sample_OQC_files "oqc_lucy" sample_OQC_file
              eq_refl eq_refl) as (d & Hd & Hname & _ & _ & _ & _ & He).
  exists d. split; [exact Hd|]. split; [exact Hname|].
  destruct (He 0 1) as (tq & Htq & Htf); [simpl; left|].
  rewrite Htf. vm_compute in Htq. by injection Htq as <-.
Defined.

Lemma OQC_import_Ok_well_formed (c : OQC.OQCCalibration) (d : Device) :
  oqc.OQCProvider_import_calibration c = Ok d -> OQC_well_formed c = true.
Proof.
  intros Hrun. apply OQC_import_Ok in Hrun as (cal1 & cal & Hrun1 & Hrun2 & _).
  unfold OQC_well_formed. apply andb_true_intro. split; apply forallb_of_Forall.
  - refine (for_each_Ok_Forall _ (fun _ => True) _ _ _ _ _ I Hrun1).
    intros s q s' _ _ Hstep. split; [done|].
    apply OQC_qubit_step_Ok in Hstep as (p & Hp & _).
    apply bool_decide_eq_true. eauto.
  - refine (for_each_Ok_Forall _ (fun _ => True) _ _ _ _ _ I Hrun2).
    intros s x s' _ _ Hstep. split; [done|].
    apply OQC_edge_step_Ok in Hstep as (q1 & q2 & tq & -> & Htq & _).
    unfold OQC_edge_ok. apply bool_decide_eq_true. eauto.
Qed.

(** X11.  Given the decoded file of the device, the OQC import returns a
    device exactly when the file is well formed: every qubit in range has
    its [one_qubit] block and every connectivity entry is a pair with an
    entry ["{q1}-{q2}"] in [two_qubit]. *)
Theorem OQC_import_returns_iff_well_formed
    (calibration_files : gmap string OQC.OQCCalibration) (device_name : string)
    (c : OQC.OQCCalibration) :
  calibration_files !! (device_name +:+ "_calibration.json") = Some c ->
  (exists d, oqc.OQCProvider_import_backend calibration_files device_name = Ok d)
  <-> OQC_well_formed c = true.
Proof.
  intros Hfile. unfold oqc.OQCProvider_import_backend. rewrite Hfile. split.
  - intros [d Hd]. by apply OQC_import_Ok_well_formed in Hd.
  - apply OQC_import_total.
Qed.

Lemma OQC_import_returns_iff_well_formed_witness :
  (exists d, oqc.OQCProvider_import_backend sample_OQC_files "oqc_lucy" = Ok d)
  <-> OQC_well_formed sample_OQC_file = true.
Proof.
  apply (OQC_import_returns_iff_well_formed sample_OQC_files "oqc_lucy" sample_OQC_file).
  reflexivity.
Defined.

(** X12.  In an OQC file, the first qubit in range without a [one_qubit]
    block makes the import raise [KeyError] with the key [str(q)]; when all
    blocks are there, the first connectivity pair without an entry in
    [two_qubit] makes it raise [KeyError] with the key ["{q1}-{q2}"]. *)
Theorem OQC_import_missing_key_raises_KeyError (c : OQC.OQCCalibration) :
  (forall q,
     0 <= q < OQC.num_qubits c ->
     (forall q', 0 <= q' < q -> is_Some (OQC.one_qubit (OQC.properties c) !! str q')) ->
     OQC.one_qubit (OQC.properties c) !! str q = None ->
     oqc.OQCProvider_import_calibration c = Raise (KeyError (str q)))
  /\ (forall pre post q1 q2,
        OQC.connectivity c = (pre ++ [q1; q2] :: post)%list ->
        forallb (fun q => bool_decide (is_Some (OQC.one_qubit (OQC.properties c) !! str q)))
          (range (OQC.num_qubits c)) = true ->
        forallb (OQC_edge_ok (OQC.properties c)) pre = true ->
        OQC.two_qubit (OQC.properties c) !! (str q1 +:+ "-" +:+ str q2) = None ->
        oqc.OQCProvider_import_calibration c
        = Raise (KeyError (str q1 +:+ "-" +:+ str q2))).
Proof.
  split.
  - intros q Hq Hbefore Hnone. unfold oqc.OQCProvider_import_calibration.
    rewrite (range_split _ q Hq).
    rewrite (for_each_first_raise _ (range q) _ q (KeyError (str q))); [done| |].
    + intros y Hy%range_spec s. destruct (Hbefore y Hy) as [p Hp].
      eexists. unfold oqc.OQCProvider_qubit_step, getitem. rewrite Hp. simpl.
      reflexivity.
    + intros s. unfold oqc.OQCProvider_qubit_step, getitem. by rewrite Hnone.
  - intros pre post q1 q2 Hconn Hqs Hpre Hnone.
    unfold oqc.OQCProvider_import_calibration.
    destruct (for_each_total (oqc.OQCProvider_qubit_step (OQC.properties c))
                (range (OQC.num_qubits c))) with (s := DeviceCalibration_new)
      as [cal1 Hcal1].
    { rewrite forallb_forall in Hqs. intros q Hq' s. apply list_elem_of_In in Hq'.
      specialize (Hqs q Hq'). apply bool_decide_eq_true in Hqs as [p Hp].
      eexists. unfold oqc.OQCProvider_qubit_step, getitem. rewrite Hp. simpl.
      reflexivity. }
    rewrite Hcal1, Hconn. simpl.
    rewrite (for_each_first_raise _ pre post [q1; q2]
               (KeyError (str q1 +:+ "-" +:+ str q2))); [done| |].
    + rewrite forallb_forall in Hpre. intros x Hx s. apply list_elem_of_In in Hx.
      specialize (Hpre x Hx). unfold OQC_edge_ok in Hpre.
      destruct x as [|a [|b [|b' x']]]; try discriminate.
      apply bool_decide_eq_true in Hpre as [tq Htq].
      eexists. unfold oqc.OQCProvider_edge_step, getitem. simpl. rewrite Htq. simpl.
      reflexivity.
    + intros s. unfold oqc.OQCProvider_edge_step, getitem. simpl. by rewrite Hnone.
Qed.

(** ** The live imports: what a step does *)

Lemma entry_set_default {K : Type} `{Countable K} (tbl : gmap K (gmap string float))
    (k : K) (g : string) (v : float) (k' : K) (g' : string) :
  entry (<[k := <[g := v]> (default ∅ (tbl !! k))]> tbl) k' g'
  = if decide ((k', g') = (k, g)) then Some v else entry tbl k' g'.
Proof.
  unfold entry. destruct (decide (k' = k)) as [->|Hk].
  - rewrite lookup_insert_eq. simpl. destruct (decide (g' = g)) as [->|Hg].
    + by rewrite lookup_insert_eq, decide_True.
    + rewrite lookup_insert_ne by done. rewrite decide_False by congruence.
      destruct (tbl !! k); simpl; [done|apply lookup_empty].
  - rewrite lookup_insert_ne by done. by rewrite decide_False by congruence.
Qed.

Lemma entry_empty_tables {K : Type} `{Countable K} (keys : list K) (k : K) (g : string) :
  entry (ibm.empty_tables keys) k g = None.
Proof.
  unfold entry. destruct (ibm.empty_tables keys !! k) as [d|] eqn:Hd; simpl; [|done].
  by apply (no_gate_empty_tables g keys k d).
Qed.

Lemma empty_tables_is_Some {K : Type} `{Countable K} (keys : list K) (k : K) :
  is_Some (ibm.empty_tables keys !! k) <-> k ∈ keys.
Proof.
  unfold ibm.empty_tables. split.
  - intros [d Hd]. apply elem_of_list_to_map_2 in Hd.
    by apply list_elem_of_fmap in Hd as (k' & [= -> _] & Hk').
  - intros Hk. rewrite <- elem_of_dom, dom_list_to_map_L, elem_of_list_to_set.
    rewrite <- list_fmap_compose. apply list_elem_of_fmap. by exists k.
Qed.

(** What one iteration over [backend_properties.gates] that returned has
    done. *)
Lemma import_backend_properties_gate_step_Ok (bp : BackendProperties.t)
    (cal : DeviceCalibration) (gate : BackendProperties.Gate) (cal' : DeviceCalibration) :
  ibm.import_backend_properties_gate_step bp cal gate = Ok cal' ->
  let g := BackendProperties.gate gate in
  let qs := BackendProperties.qubits gate in
  (g = "reset" /\ cal' = cal)
  \/ (g <> "reset"
      /\ exists q, qs = [q]
           /\ is_Some (single_qubit_gate_fidelity cal !! q)
           /\ is_Some (single_qubit_gate_duration cal !! q)
           /\ cal' = mkCalibration
                (<[q := <[g := (1 - BackendProperties.gate_error bp g qs)%float]>
                          (default ∅ (single_qubit_gate_fidelity cal !! q))]>
                   (single_qubit_gate_fidelity cal))
                (<[q := <[g := BackendProperties.gate_length bp g qs]>
                          (default ∅ (single_qubit_gate_duration cal !! q))]>
                   (single_qubit_gate_duration cal))
                (two_qubit_gate_fidelity cal) (two_qubit_gate_duration cal)
                (readout_fidelity cal) (readout_duration cal) (t1 cal) (t2 cal))
  \/ (g <> "reset"
      /\ exists q1 q2, qs = [q1; q2]
           /\ cal' = mkCalibration
                (single_qubit_gate_fidelity cal) (single_qubit_gate_duration cal)
                (<[(q1, q2) := <[g := (1 - BackendProperties.gate_error bp g qs)%float]>
                                 (default ∅ (two_qubit_gate_fidelity cal !! (q1, q2)))]>
                   (two_qubit_gate_fidelity cal))
                (<[(q1, q2) := <[g := BackendProperties.gate_length bp g qs]>
                                 (default ∅ (two_qubit_gate_duration cal !! (q1, q2)))]>
                   (two_qubit_gate_duration cal))
                (readout_fidelity cal) (readout_duration cal) (t1 cal) (t2 cal))
  \/ (g <> "reset" /\ length qs <> 1%nat /\ length qs <> 2%nat /\ cal' = cal).
Proof.
  intros Hstep g qs. subst g qs.
  unfold ibm.import_backend_properties_gate_step in Hstep.
  destruct (decide (BackendProperties.gate gate = "reset")) as [Hreset|Hne].
  { left. split; [done|]. by inversion Hstep. }
  right. destruct (BackendProperties.qubits gate) as [|q1 [|q2 [|q3 qs]]].
  - right. right. inversion Hstep. done.
  - left. split; [done|]. exists q1. split; [done|].
    next_getitem Hstep d1 Hd1. next_getitem Hstep d2 Hd2.
    rewrite Hd1, Hd2. split; [eauto|]. split; [eauto|]. by inversion Hstep.
  - right. left. split; [done|]. exists q1, q2. split; [done|].
    destruct (two_qubit_gate_fidelity cal !! (q1, q2)) as [d0|] eqn:Hd0;
      next_getitem Hstep d1 Hd1;
      destruct (two_qubit_gate_duration cal !! (q1, q2)) as [d3|] eqn:Hd3;
      next_getitem Hstep d2 Hd2;
      inversion Hstep; subst; clear Hstep; simpl;
      rewrite ?lookup_insert_eq in *; simplify_eq;
      by rewrite ?insert_insert_eq.
  - right. right. inversion Hstep. simpl. done.
Qed.

(** The iterations that return: ["reset"], any gate that has not one qubit,
    and a single-qubit gate whose qubit has its dictionaries. *)
Lemma import_backend_properties_gate_step_total (bp : BackendProperties.t)
    (cal : DeviceCalibration) (gate : BackendProperties.Gate) :
  (BackendProperties.gate gate = "reset"
   \/ (forall q, BackendProperties.qubits gate = [q] ->
         is_Some (single_qubit_gate_fidelity cal !! q)
         /\ is_Some (single_qubit_gate_duration cal !! q))) ->
  exists cal', ibm.import_backend_properties_gate_step bp cal gate = Ok cal'.
Proof.
  intros Hok. unfold ibm.import_backend_properties_gate_step.
  destruct (decide (BackendProperties.gate gate = "reset")) as [Hreset|Hne]; [eauto|].
  destruct Hok as [?|Hok]; [done|].
  destruct (BackendProperties.qubits gate) as [|q1 [|q2 [|q3 qs]]]; [eauto| | |eauto].
  - destruct (Hok q1 eq_refl) as [[d1 Hd1] [d2 Hd2]].
    eexists. unfold getitem. rewrite Hd1. simpl. rewrite Hd2. simpl. reflexivity.
  - destruct (two_qubit_gate_fidelity cal !! (q1, q2)) as [d0|] eqn:Hd0;
      destruct (two_qubit_gate_duration cal !! (q1, q2)) as [d3|] eqn:Hd3;
      eexists; unfold getitem; simpl;
      repeat (first [rewrite Hd0 | rewrite Hd3 | rewrite lookup_insert_eq]; simpl);
      reflexivity.
Qed.

(** ** [import_backend_properties] *)

Lemma gate_single_key_elem (gates : list BackendProperties.Gate) (q : Z) (g : string) :
  Some (q, g) ∈ gate_single_key <$> gates
  <-> g <> "reset" /\ BackendProperties.mkGate g [q] ∈ gates.
Proof.
  rewrite list_elem_of_fmap. split.
  - intros ([g' qs] & Hkey & Hin). unfold gate_single_key in Hkey. simpl in Hkey.
    destruct (decide (g' = "reset")); [done|].
    destruct qs as [|q' [|q'' qs]]; try done. by simplify_eq.
  - intros [Hg Hin]. eexists. split; [|exact Hin].
    unfold gate_single_key. simpl. by rewrite decide_False.
Qed.

Lemma gate_pair_key_elem (gates : list BackendProperties.Gate) (q1 q2 : Z) (g : string) :
  Some (q1, q2, g) ∈ gate_pair_key <$> gates
  <-> g <> "reset" /\ BackendProperties.mkGate g [q1; q2] ∈ gates.
Proof.
  rewrite list_elem_of_fmap. split.
  - intros ([g' qs] & Hkey & Hin). unfold gate_pair_key in Hkey. simpl in Hkey.
    destruct (decide (g' = "reset")); [done|].
    destruct qs as [|q' [|q'' [|q''' qs]]]; try done. by simplify_eq.
  - intros [Hg Hin]. eexists. split; [|exact Hin].
    unfold gate_pair_key. simpl. by rewrite decide_False.
Qed.

Lemma import_backend_properties_Ok (bp : BackendProperties.t) (cal : DeviceCalibration) :
  ibm.import_backend_properties bp = Ok cal ->
  exists cal1,
    for_each (ibm.import_backend_properties_qubit_step bp)
      (range (BackendProperties.len_qubits bp)) DeviceCalibration_new = Ok cal1
    /\ for_each (ibm.import_backend_properties_gate_step bp) (BackendProperties.gates bp)
         (mkCalibration (ibm.empty_tables (range (BackendProperties.len_qubits bp)))
            (ibm.empty_tables (range (BackendProperties.len_qubits bp)))
            (two_qubit_gate_fidelity cal1) (two_qubit_gate_duration cal1)
            (readout_fidelity cal1) (readout_duration cal1) (t1 cal1) (t2 cal1))
       = Ok cal
    /\ two_qubit_gate_fidelity cal1 = ∅ /\ two_qubit_gate_duration cal1 = ∅.
Proof.
  unfold ibm.import_backend_properties. intros Hrun.
  apply bind_Ok in Hrun as (cal1 & Hrun1 & Hrun2).
  exists cal1. split; [done|]. split; [done|].
  by apply import_backend_properties_qubit_loop_frame in Hrun1 as [-> ->].
Qed.

(** X13.  [import_backend_properties] records, for exactly the qubits in
    [range(len(backend_properties.qubits))], the values the accessors give,
    without any unit conversion: [t1(q)], [t2(q)], [1 - readout_error(q)] and
    [readout_length(q)]. *)
Theorem import_backend_properties_qubit_tables (bp : BackendProperties.t)
    (cal : DeviceCalibration) (q : Z) :
  ibm.import_backend_properties bp = Ok cal ->
  (0 <= q < BackendProperties.len_qubits bp ->
   t1 cal !! q = Some (BackendProperties.t1 bp q)
   /\ t2 cal !! q = Some (BackendProperties.t2 bp q)
   /\ readout_fidelity cal !! q = Some (1 - BackendProperties.readout_error bp q)%float
   /\ readout_duration cal !! q = Some (BackendProperties.readout_length bp q))
  /\ (~ 0 <= q < BackendProperties.len_qubits bp ->
      t1 cal !! q = None /\ t2 cal !! q = None
      /\ readout_fidelity cal !! q = None /\ readout_duration cal !! q = None).
Proof.
  intros Hrun. apply import_backend_properties_Ok in Hrun as (cal1 & Hrun1 & Hrun2 & _).
  assert (Hframe : forall {B} (f : DeviceCalibration -> B),
            (forall s a b c d, f (mkCalibration a b c d (readout_fidelity s)
               (readout_duration s) (t1 s) (t2 s)) = f s) ->
            f cal = f cal1).
  { intros B f Hf.
    rewrite (for_each_frame _ f _ (fun s x s' _ Hstep =>
      ltac:(apply import_backend_properties_gate_step_Ok in Hstep
              as [[_ ->]|[(_ & ? & _ & _ & _ & ->)|[(_ & ? & ? & _ & ->)|(_ & _ & _ & ->)]]];
            first [reflexivity | apply Hf])) _ _ Hrun2).
    apply Hf. }
  assert (Htbl : forall {V} (tbl : DeviceCalibration -> gmap Z V) (f : Z -> V),
            tbl DeviceCalibration_new = ∅ ->
            (forall s a b c d, tbl (mkCalibration a b c d (readout_fidelity s)
               (readout_duration s) (t1 s) (t2 s)) = tbl s) ->
            (forall s x s', ibm.import_backend_properties_qubit_step bp s x = Ok s' ->
               tbl s' = <[x := f x]> (tbl s)) ->
            (0 <= q < BackendProperties.len_qubits bp -> tbl cal !! q = Some (f q))
            /\ (~ 0 <= q < BackendProperties.len_qubits bp -> tbl cal !! q = None)).
  { intros V tbl f Hnew Hf Hstep. rewrite (Hframe _ tbl Hf).
    destruct (for_each_table (ibm.import_backend_properties_qubit_step bp) tbl Some
                (fun x => Some (f x)) (range (BackendProperties.len_qubits bp))) with
      (s := DeviceCalibration_new) (s' := cal1) (k := q) as [Hhit Hmiss]; [|done|].
    - intros s x s' _ Hx. exists x, (f x). eauto.
    - split.
      + intros Hq%range_spec. apply Hhit. eauto.
      + intros Hq. rewrite Hmiss; [by rewrite Hnew, lookup_empty|].
        intros x Hx%range_spec [= ->]. done. }
  destruct (Htbl _ t1 (BackendProperties.t1 bp)) as [H1 H1']; [done|done| |].
  { intros s x s' Hstep. by inversion Hstep. }
  destruct (Htbl _ t2 (BackendProperties.t2 bp)) as [H2 H2']; [done|done| |].
  { intros s x s' Hstep. by inversion Hstep. }
  destruct (Htbl _ readout_fidelity
              (fun x => (1 - BackendProperties.readout_error bp x)%float))
    as [H3 H3']; [done|done| |].
  { intros s x s' Hstep. by inversion Hstep. }
  destruct (Htbl _ readout_duration (BackendProperties.readout_length bp))
    as [H4 H4']; [done|done| |].
  { intros s x s' Hstep. by inversion Hstep. }
  split; intros Hq; auto.
Qed.

(** The invariant of the gate loop: the single-qubit tables have a
    dictionary for exactly the qubits in range. *)
Lemma import_backend_properties_gate_step_single_keys (bp : BackendProperties.t) (n : Z)
    (s : DeviceCalibration) (x : BackendProperties.Gate) (s' : DeviceCalibration) :
  (forall q, (is_Some (single_qubit_gate_fidelity s !! q) <-> q ∈ range n)
             /\ (is_Some (single_qubit_gate_duration s !! q) <-> q ∈ range n)) ->
  ibm.import_backend_properties_gate_step bp s x = Ok s' ->
  forall q, (is_Some (single_qubit_gate_fidelity s' !! q) <-> q ∈ range n)
            /\ (is_Some (single_qubit_gate_duration s' !! q) <-> q ∈ range n).
Proof.
  intros Hs Hstep q.
  apply import_backend_properties_gate_step_Ok in Hstep
    as [[_ ->]|[(_ & q0 & _ & Hf & Hd & ->)|[(_ & ? & ? & _ & ->)|(_ & _ & _ & ->)]]];
    try apply Hs.
  simpl. destruct (decide (q = q0)) as [->|Hne].
  - rewrite !lookup_insert_eq. destruct (Hs q0) as [Hsf Hsd].
    split; (split; [intros _|eauto]); [by apply Hsf|by apply Hsd].
  - rewrite !lookup_insert_ne by done. apply Hs.
Qed.

(** X14.  [import_backend_properties] returns exactly when every
    single-qubit gate of [backend_properties.gates] other than ["reset"] acts
    on a qubit in [range(len(backend_properties.qubits))]; two-qubit gates
    are accepted on any pair, and gates on no or on more than two qubits are
    passed over. *)
Theorem import_backend_properties_returns_iff (bp : BackendProperties.t) :
  (exists cal, ibm.import_backend_properties bp = Ok cal)
  <-> forallb (backend_properties_gate_ok (BackendProperties.len_qubits bp))
        (BackendProperties.gates bp) = true.
Proof.
  set (n := BackendProperties.len_qubits bp).
  assert (Hempty : forall q,
            (is_Some (ibm.empty_tables (range n) !! q) <-> q ∈ range n)
            /\ (is_Some (ibm.empty_tables (range n) !! q) <-> q ∈ range n)).
  { intros q. split; apply empty_tables_is_Some. }
  split.
  - intros [cal Hrun].
    apply import_backend_properties_Ok in Hrun as (cal1 & _ & Hrun2 & _).
    apply forallb_of_Forall.
    refine (for_each_Ok_Forall _
              (fun s => forall q,
                 (is_Some (single_qubit_gate_fidelity s !! q) <-> q ∈ range n)
                 /\ (is_Some (single_qubit_gate_duration s !! q) <-> q ∈ range n))
              _ _ _ _ _ Hempty Hrun2).
    intros s x s' _ Hs Hstep. split.
    + by apply (import_backend_properties_gate_step_single_keys bp n s x s').
    + unfold backend_properties_gate_ok.
      apply import_backend_properties_gate_step_Ok in Hstep
        as [[-> _]|[(Hne & q0 & Hqs & Hf & _)|[(_ & ? & ? & Hqs & _)|(_ & H1 & H2 & _)]]].
      * by rewrite bool_decide_eq_true_2.
      * rewrite Hqs. apply orb_true_intro. right.
        apply bool_decide_eq_true. by apply (proj1 (Hs q0)).
      * rewrite Hqs. apply orb_true_r.
      * destruct (BackendProperties.qubits x) as [|? [|? ?]]; try apply orb_true_r.
        done.
  - intros Hok. rewrite forallb_forall in Hok.
    unfold ibm.import_backend_properties. fold n.
    destruct (for_each_total (ibm.import_backend_properties_qubit_step bp) (range n))
      with (s := DeviceCalibration_new) as [cal1 Hcal1].
    { intros q _ s. eexists. reflexivity. }
    rewrite Hcal1. simpl.
    destruct (for_each_total_inv (ibm.import_backend_properties_gate_step bp)
                (fun s => forall q,
                   (is_Some (single_qubit_gate_fidelity s !! q) <-> q ∈ range n)
                   /\ (is_Some (single_qubit_gate_duration s !! q) <-> q ∈ range n))
                (BackendProperties.gates bp)) with
      (s := set_single_qubit_gate_duration (ibm.empty_tables (range n))
              (set_single_qubit_gate_fidelity (ibm.empty_tables (range n)) cal1))
      as (cal & Hcal & _); [|exact Hempty|eauto].
    intros s x Hx Hs. apply list_elem_of_In in Hx. specialize (Hok x Hx).
    unfold backend_properties_gate_ok in Hok.
    destruct (import_backend_properties_gate_step_total bp s x) as [s' Hs'].
    { apply orb_prop in Hok as [Hreset|Hq]; [left; by apply bool_decide_eq_true in Hreset|].
      right. intros q Hqs. rewrite Hqs in Hq. apply bool_decide_eq_true in Hq.
      split; [by apply (proj1 (Hs q))|by apply (proj2 (Hs q))]. }
    exists s'. split; [done|].
    by apply (import_backend_properties_gate_step_single_keys bp n s x s').
Qed.

(** X15.  The gate tables [import_backend_properties] returns hold, under a
    qubit (or qubit pair) and a gate name, exactly the gates of
    [backend_properties.gates] on that qubit (or pair) other than ["reset"]:
    the fidelity entry is [1 - gate_error(name, qubits)] and the duration
    entry [gate_length(name, qubits)], as the accessors give them. *)
Theorem import_backend_properties_gate_tables (bp : BackendProperties.t)
    (cal : DeviceCalibration) :
  ibm.import_backend_properties bp = Ok cal ->
  (forall q g v,
     entry (single_qubit_gate_fidelity cal) q g = Some v <->
     g <> "reset" /\ BackendProperties.mkGate g [q] ∈ BackendProperties.gates bp
     /\ v = (1 - BackendProperties.gate_error bp g [q])%float)
  /\ (forall q g v,
        entry (single_qubit_gate_duration cal) q g = Some v <->
        g <> "reset" /\ BackendProperties.mkGate g [q] ∈ BackendProperties.gates bp
        /\ v = BackendProperties.gate_length bp g [q])
  /\ (forall q1 q2 g v,
        entry (two_qubit_gate_fidelity cal) (q1, q2) g = Some v <->
        g <> "reset" /\ BackendProperties.mkGate g [q1; q2] ∈ BackendProperties.gates bp
        /\ v = (1 - BackendProperties.gate_error bp g [q1; q2])%float)
  /\ (forall q1 q2 g v,
        entry (two_qubit_gate_duration cal) (q1, q2) g = Some v <->
        g <> "reset" /\ BackendProperties.mkGate g [q1; q2] ∈ BackendProperties.gates bp
        /\ v = BackendProperties.gate_length bp g [q1; q2]).
Proof.
  intros Hrun.
  apply import_backend_properties_Ok in Hrun as (cal1 & _ & Hrun2 & Htf1 & Htd1).
  rewrite Htf1, Htd1 in Hrun2.
  assert (Hsingle : forall (tbl : DeviceCalibration -> gmap Z (gmap string float))
                      (f : string -> list Z -> float),
            (forall k g, entry (tbl (mkCalibration
                 (ibm.empty_tables (range (BackendProperties.len_qubits bp)))
                 (ibm.empty_tables (range (BackendProperties.len_qubits bp)))
                 ∅ ∅ (readout_fidelity cal1) (readout_duration cal1) (t1 cal1) (t2 cal1)))
               k g = None) ->
            (forall s x s', ibm.import_backend_properties_gate_step bp s x = Ok s' ->
               match gate_single_key x with
               | Some k => forall k', entry (tbl s') k'.1 k'.2
                             = if decide (k' = k) then Some (f k.2 [k.1])
                               else entry (tbl s) k'.1 k'.2
               | None => forall k', entry (tbl s') k'.1 k'.2 = entry (tbl s) k'.1 k'.2
               end) ->
            forall q g v,
              entry (tbl cal) q g = Some v <->
              g <> "reset" /\ BackendProperties.mkGate g [q] ∈ BackendProperties.gates bp
              /\ v = f g [q]).
  { intros tbl f Hinit Hstep q g v.
    pose proof (for_each_entries (ibm.import_backend_properties_gate_step bp)
               (fun s k => entry (tbl s) k.1 k.2) gate_single_key
               (fun k => Some (f k.2 [k.1])) (BackendProperties.gates bp)
               (fun s x s' _ Hx => ltac:(
                  specialize (Hstep s x s' Hx);
                  destruct (gate_single_key x); [eexists; split; [reflexivity|exact Hstep]
                                                |exact Hstep]))
               _ _ Hrun2 (q, g)) as HE.
    simpl in HE. rewrite HE, Hinit. clear HE.
    destruct (decide (Some (q, g) ∈ gate_single_key <$> BackendProperties.gates bp))
      as [Hin|Hnin].
    - apply gate_single_key_elem in Hin as [Hg Hin].
      split; [intros [= <-]; done|]. by intros (_ & _ & ->).
    - split; [done|]. intros (Hg & Hin & _). exfalso. apply Hnin.
      by apply gate_single_key_elem. }
  assert (Hpair : forall (tbl : DeviceCalibration -> gmap (Z * Z) (gmap string float))
                    (f : string -> list Z -> float),
            (forall k g, entry (tbl (mkCalibration
                 (ibm.empty_tables (range (BackendProperties.len_qubits bp)))
                 (ibm.empty_tables (range (BackendProperties.len_qubits bp)))
                 ∅ ∅ (readout_fidelity cal1) (readout_duration cal1) (t1 cal1) (t2 cal1)))
               k g = None) ->
            (forall s x s', ibm.import_backend_properties_gate_step bp s x = Ok s' ->
               match gate_pair_key x with
               | Some k => forall k', entry (tbl s') (k'.1.1, k'.1.2) k'.2
                             = if decide (k' = k) then Some (f k.2 [k.1.1; k.1.2])
                               else entry (tbl s) (k'.1.1, k'.1.2) k'.2
               | None => forall k', entry (tbl s') (k'.1.1, k'.1.2) k'.2
                                    = entry (tbl s) (k'.1.1, k'.1.2) k'.2
               end) ->
            forall q1 q2 g v,
              entry (tbl cal) (q1, q2) g = Some v <->
              g <> "reset"
              /\ BackendProperties.mkGate g [q1; q2] ∈ BackendProperties.gates bp
              /\ v = f g [q1; q2]).
  { intros tbl f Hinit Hstep q1 q2 g v.
    pose proof (for_each_entries (ibm.import_backend_properties_gate_step bp)
               (fun s k => entry (tbl s) (k.1.1, k.1.2) k.2) gate_pair_key
               (fun k => Some (f k.2 [k.1.1; k.1.2])) (BackendProperties.gates bp)
               (fun s x s' _ Hx => ltac:(
                  specialize (Hstep s x s' Hx);
                  destruct (gate_pair_key x); [eexists; split; [reflexivity|exact Hstep]
                                              |exact Hstep]))
               _ _ Hrun2 (q1, q2, g)) as HE.
    simpl in HE. rewrite HE, Hinit. clear HE.
    destruct (decide (Some (q1, q2, g) ∈ gate_pair_key <$> BackendProperties.gates bp))
      as [Hin|Hnin].
    - apply gate_pair_key_elem in Hin as [Hg Hin].
      split; [intros [= <-]; done|]. by intros (_ & _ & ->).
    - split; [done|]. intros (Hg & Hin & _). exfalso. apply Hnin.
      by apply gate_pair_key_elem. }
  assert (Hkeys : forall s x s',
            ibm.import_backend_properties_gate_step bp s x = Ok s' ->
            (BackendProperties.gate x = "reset" /\ gate_single_key x = None
             /\ gate_pair_key x = None /\ s' = s)
            \/ (exists q, BackendProperties.qubits x = [q]
                  /\ gate_single_key x = Some (q, BackendProperties.gate x)
                  /\ gate_pair_key x = None
                  /\ single_qubit_gate_fidelity s'
                     = <[q := <[BackendProperties.gate x :=
                                  (1 - BackendProperties.gate_error bp
                                         (BackendProperties.gate x) [q])%float]>
                               (default ∅ (single_qubit_gate_fidelity s !! q))]>
                         (single_qubit_gate_fidelity s)
                  /\ single_qubit_gate_duration s'
                     = <[q := <[BackendProperties.gate x :=
                                  BackendProperties.gate_length bp
                                    (BackendProperties.gate x) [q]]>
                               (default ∅ (single_qubit_gate_duration s !! q))]>
                         (single_qubit_gate_duration s)
                  /\ two_qubit_gate_fidelity s' = two_qubit_gate_fidelity s
                  /\ two_qubit_gate_duration s' = two_qubit_gate_duration s)
            \/ (exists q1 q2, BackendProperties.qubits x = [q1; q2]
                  /\ gate_single_key x = None
                  /\ gate_pair_key x = Some (q1, q2, BackendProperties.gate x)
                  /\ single_qubit_gate_fidelity s' = single_qubit_gate_fidelity s
                  /\ single_qubit_gate_duration s' = single_qubit_gate_duration s
                  /\ two_qubit_gate_fidelity s'
                     = <[(q1, q2) := <[BackendProperties.gate x :=
                                  (1 - BackendProperties.gate_error bp
                                         (BackendProperties.gate x) [q1; q2])%float]>
                               (default ∅ (two_qubit_gate_fidelity s !! (q1, q2)))]>
                         (two_qubit_gate_fidelity s)
                  /\ two_qubit_gate_duration s'
                     = <[(q1, q2) := <[BackendProperties.gate x :=
                                  BackendProperties.gate_length bp
                                    (BackendProperties.gate x) [q1; q2]]>
                               (default ∅ (two_qubit_gate_duration s !! (q1, q2)))]>
                         (two_qubit_gate_duration s))
            \/ (gate_single_key x = None /\ gate_pair_key x = None /\ s' = s)).
  { intros s x s' Hstep. unfold gate_single_key, gate_pair_key.
    apply import_backend_properties_gate_step_Ok in Hstep
      as [[Hr ->]|[(Hne & q0 & Hqs & _ & _ & ->)
                  |[(Hne & q1 & q2 & Hqs & ->)|(Hne & H1 & H2 & ->)]]].
    - left. by rewrite !decide_True.
    - right. left. exists q0. rewrite !decide_False, Hqs by done. done.
    - right. right. left. exists q1, q2. rewrite !decide_False, Hqs by done. done.
    - right. right. right. rewrite !decide_False by done.
      by destruct (BackendProperties.qubits x) as [|? [|? [|? ?]]]. }
  split; [|split; [|split]].
  - apply (Hsingle single_qubit_gate_fidelity
             (fun g qs => (1 - BackendProperties.gate_error bp g qs)%float)).
    { intros. apply entry_empty_tables. }
    intros s x s' Hstep.
    destruct (Hkeys s x s' Hstep)
      as [(_ & -> & _ & ->)|[(q & _ & -> & _ & -> & _)
                            |[(q1 & q2 & _ & -> & _ & -> & _)|(-> & _ & ->)]]]; try done.
    intros [q' g']. simpl. rewrite entry_set_default. done.
  - apply (Hsingle single_qubit_gate_duration (BackendProperties.gate_length bp)).
    { intros. apply entry_empty_tables. }
    intros s x s' Hstep.
    destruct (Hkeys s x s' Hstep)
      as [(_ & -> & _ & ->)|[(q & _ & -> & _ & _ & -> & _)
                            |[(q1 & q2 & _ & -> & _ & _ & -> & _)|(-> & _ & ->)]]];
      try done.
    intros [q' g']. simpl. rewrite entry_set_default. done.
  - apply (Hpair two_qubit_gate_fidelity
             (fun g qs => (1 - BackendProperties.gate_error bp g qs)%float)).
    { intros. unfold entry. simpl. by rewrite lookup_empty. }
    intros s x s' Hstep.
    destruct (Hkeys s x s' Hstep)
      as [(_ & _ & -> & ->)|[(q & _ & _ & -> & _ & _ & -> & _)
                            |[(q1 & q2 & _ & _ & -> & _ & _ & -> & _)|(_ & -> & ->)]]];
      try done.
    intros [[q1' q2'] g']. simpl. rewrite entry_set_default. by destruct (decide _).
  - apply (Hpair two_qubit_gate_duration (BackendProperties.gate_length bp)).
    { intros. unfold entry. simpl. by rewrite lookup_empty. }
    intros s x s' Hstep.
    destruct (Hkeys s x s' Hstep)
      as [(_ & _ & -> & ->)|[(q & _ & _ & -> & _ & _ & _ & ->)
                            |[(q1 & q2 & _ & _ & -> & _ & _ & _ & ->)|(_ & -> & ->)]]];
      try done.
    intros [[q1' q2'] g']. simpl. rewrite entry_set_default. by destruct (decide _).
Qed.

(** X16.  In the calibration [import_backend_properties] returns, the
    single-qubit gate tables have a dictionary (possibly empty) for exactly
    the qubits in range, and the two-qubit gate tables have one for exactly
    the qubit pairs of the two-qubit gates other than ["reset"]. *)
Theorem import_backend_properties_table_keys (bp : BackendProperties.t)
    (cal : DeviceCalibration) :
  ibm.import_backend_properties bp = Ok cal ->
  (forall q,
     (is_Some (single_qubit_gate_fidelity cal !! q)
      <-> 0 <= q < BackendProperties.len_qubits bp)
     /\ (is_Some (single_qubit_gate_duration cal !! q)
         <-> 0 <= q < BackendProperties.len_qubits bp))
  /\ (forall q1 q2,
        (is_Some (two_qubit_gate_fidelity cal !! (q1, q2))
         <-> exists g, g <> "reset"
               /\ BackendProperties.mkGate g [q1; q2] ∈ BackendProperties.gates bp)
        /\ (is_Some (two_qubit_gate_duration cal !! (q1, q2))
            <-> exists g, g <> "reset"
                  /\ BackendProperties.mkGate g [q1; q2] ∈ BackendProperties.gates bp)).
Proof.
  intros Hrun.
  apply import_backend_properties_Ok in Hrun as (cal1 & _ & Hrun2 & Htf1 & Htd1).
  rewrite Htf1, Htd1 in Hrun2. split.
  - intros q. rewrite <- !range_spec.
    refine (for_each_inv _
              (fun s => forall q,
                 (is_Some (single_qubit_gate_fidelity s !! q)
                  <-> q ∈ range (BackendProperties.len_qubits bp))
                 /\ (is_Some (single_qubit_gate_duration s !! q)
                     <-> q ∈ range (BackendProperties.len_qubits bp)))
              _ _ _ _ _ Hrun2 q).
    + intros s x s' _ Hs Hstep.
      by apply (import_backend_properties_gate_step_single_keys bp _ s x s').
    + intros q'. split; apply empty_tables_is_Some.
  - assert (Hpair : forall (tbl : DeviceCalibration -> gmap (Z * Z) (gmap string float)),
              tbl (mkCalibration
                     (ibm.empty_tables (range (BackendProperties.len_qubits bp)))
                     (ibm.empty_tables (range (BackendProperties.len_qubits bp)))
                     ∅ ∅ (readout_fidelity cal1) (readout_duration cal1) (t1 cal1)
                     (t2 cal1)) = ∅ ->
              (forall s x s', ibm.import_backend_properties_gate_step bp s x = Ok s' ->
                 match gate_pair_key x with
                 | Some k => exists d, tbl s' = <[k.1 := d]> (tbl s)
                 | None => tbl s' = tbl s
                 end) ->
              forall q1 q2,
                is_Some (tbl cal !! (q1, q2))
                <-> exists g, g <> "reset"
                      /\ BackendProperties.mkGate g [q1; q2] ∈ BackendProperties.gates bp).
    { intros tbl Hinit Hstep q1 q2.
      pose proof (for_each_entries (ibm.import_backend_properties_gate_step bp)
                    (fun s k => (fun _ => tt) <$> tbl s !! k)
                    (fun x => fst <$> gate_pair_key x) (fun _ => Some tt)
                    (BackendProperties.gates bp)) as HE.
      rewrite <- (fmap_is_Some (fun _ => tt)).
      rewrite HE with (s := mkCalibration
                     (ibm.empty_tables (range (BackendProperties.len_qubits bp)))
                     (ibm.empty_tables (range (BackendProperties.len_qubits bp)))
                     ∅ ∅ (readout_fidelity cal1) (readout_duration cal1) (t1 cal1)
                     (t2 cal1)); [|clear HE|exact Hrun2].
      2:{ intros s x s' _ Hx. specialize (Hstep s x s' Hx).
          destruct (gate_pair_key x) as [k|]; simpl in *.
          - destruct Hstep as [d ->]. exists tt. split; [done|].
            intros k'. destruct (decide (k' = k.1)) as [->|Hne].
            + by rewrite lookup_insert_eq.
            + by rewrite lookup_insert_ne.
          - by rewrite Hstep. }
      clear HE. rewrite Hinit, lookup_empty. simpl.
      destruct (decide (Some (q1, q2)
                        ∈ (fun x => fst <$> gate_pair_key x) <$> BackendProperties.gates bp))
        as [Hin|Hnin].
      - split; [intros _|eauto].
        apply list_elem_of_fmap in Hin as (x & Hkey & Hx).
        destruct (gate_pair_key x) as [[k g]|] eqn:Hk; [|done].
        simpl in Hkey. injection Hkey as <-.
        exists g. apply gate_pair_key_elem. apply list_elem_of_fmap. eauto.
      - split; [by intros [? ?]|]. intros (g & Hg). exfalso. apply Hnin.
        apply gate_pair_key_elem in Hg. apply list_elem_of_fmap in Hg as (x & Hkey & Hx).
        apply list_elem_of_fmap. exists x. by rewrite <- Hkey. }
    intros q1 q2. split.
    + apply (Hpair two_qubit_gate_fidelity); [done|].
      intros s x s' Hstep. unfold gate_pair_key.
      apply import_backend_properties_gate_step_Ok in Hstep
        as [[Hr ->]|[(Hne & q0 & Hqs & _ & _ & ->)
                    |[(Hne & a & b & Hqs & ->)|(Hne & H1 & H2 & ->)]]].
      * by rewrite decide_True.
      * by rewrite decide_False, Hqs.
      * rewrite decide_False, Hqs by done. simpl. eauto.
      * rewrite decide_False by done.
        by destruct (BackendProperties.qubits x) as [|? [|? [|? ?]]].
    + apply (Hpair two_qubit_gate_duration); [done|].
      intros s x s' Hstep. unfold gate_pair_key.
      apply import_backend_properties_gate_step_Ok in Hstep
        as [[Hr ->]|[(Hne & q0 & Hqs & _ & _ & ->)
                    |[(Hne & a & b & Hqs & ->)|(Hne & H1 & H2 & ->)]]].
      * by rewrite decide_True.
      * by rewrite decide_False, Hqs.
      * rewrite decide_False, Hqs by done. simpl. eauto.
      * rewrite decide_False by done.
        by destruct (BackendProperties.qubits x) as [|? [|? [|? ?]]].
Qed.

Lemma import_backend_properties_qubit_tables_witness :
  exists cal,
    ibm.import_backend_properties sample_backend_properties = Ok cal
    /\ t1 cal !! 1 = Some 1e-4%float
    /\ readout_fidelity cal !! 1 = Some (1 - 0.02)%float
    /\ t1 cal !! 2 = None.
Proof.
  destruct (ibm.import_backend_properties sample_backend_properties) as [cal|e] eqn:Hcal;
    [|vm_compute in Hcal; discriminate].
  exists cal. split; [reflexivity|].
  destruct (import_backend_properties_qubit_tables sample_backend_properties cal 1 Hcal)
    as [Hin _].
  destruct (import_backend_properties_qubit_tables sample_backend_properties cal 2 Hcal)
    as [_ Hout].
  destruct Hin as (H1 & _ & H3 & _); [cbn; lia|].
  destruct Hout as (H1' & _); [cbn; lia|].
  split; [exact H1|]. split; [exact H3|exact H1'].
Defined.

Lemma import_backend_properties_gate_tables_witness :
  exists cal,
    ibm.import_backend_properties sample_backend_properties = Ok cal
    /\ entry (single_qubit_gate_fidelity cal) 0 "sx" = Some (1 - 0.01)%float
    /\ entry (two_qubit_gate_duration cal) (0, 1) "cx" = Some 3e-7%float.
Proof.
  destruct (ibm.import_backend_properties sample_backend_properties) as [cal|e] eqn:Hcal;
    [|vm_compute in Hcal; discriminate].
  exists cal. split; [reflexivity|].
  destruct (import_backend_properties_gate_tables sample_backend_properties cal Hcal)
    as (Hsf & _ & _ & Htd).
  split.
  - apply Hsf. split; [discriminate|]. split; [|reflexivity].
    cbn. rewrite !elem_of_cons. tauto.
  - apply Htd. split; [discriminate|]. split; [|reflexivity].
    cbn. rewrite !elem_of_cons. tauto.
Defined.

Lemma import_backend_properties_table_keys_witness :
  exists cal,
    ibm.import_backend_properties sample_backend_properties = Ok cal
    /\ is_Some (single_qubit_gate_fidelity cal !! 1)
    /\ is_Some (two_qubit_gate_fidelity cal !! (0, 1)).
Proof.
  destruct (ibm.import_backend_properties sample_backend_properties) as [cal|e] eqn:Hcal;
    [|vm_compute in Hcal; discriminate].
  exists cal. split; [reflexivity|].
  destruct (import_backend_properties_table_keys sample_backend_properties cal Hcal)
    as (Hs & Ht).
  split.
  - apply (proj1 (Hs 1)). cbn. lia.
  - apply (proj1 (Ht 0 1)). exists "cx". split; [discriminate|].
    cbn. rewrite !elem_of_cons. tauto.
Defined.

(** ** [import_target] *)

(** What one iteration over [target.instructions] that returned has done. *)
Lemma import_target_instruction_step_Ok (target : Target.t) (cal : DeviceCalibration)
    (g : string) (qs : list Z) (cal' : DeviceCalibration) :
  ibm.import_target_instruction_step target cal (g, qs) = Ok cal' ->
  let error := Target.error (Target.getitem target g qs) in
  let duration := Target.duration (Target.getitem target g qs) in
  (g ∈ ["reset"; "delay"] /\ cal' = cal)
  \/ ((g ∉ ["reset"; "delay"]) /\ g = "measure"
      /\ exists q rest, qs = q :: rest
           /\ cal' = mkCalibration
                (single_qubit_gate_fidelity cal) (single_qubit_gate_duration cal)
                (two_qubit_gate_fidelity cal) (two_qubit_gate_duration cal)
                (<[q := (1 - error)%float]> (readout_fidelity cal))
                (<[q := duration]> (readout_duration cal)) (t1 cal) (t2 cal))
  \/ ((g ∉ ["reset"; "delay"]) /\ g <> "measure"
      /\ exists q, qs = [q]
           /\ is_Some (single_qubit_gate_fidelity cal !! q)
           /\ is_Some (single_qubit_gate_duration cal !! q)
           /\ cal' = mkCalibration
                (<[q := <[g := (1 - error)%float]>
                          (default ∅ (single_qubit_gate_fidelity cal !! q))]>
                   (single_qubit_gate_fidelity cal))
                (<[q := <[g := duration]>
                          (default ∅ (single_qubit_gate_duration cal !! q))]>
                   (single_qubit_gate_duration cal))
                (two_qubit_gate_fidelity cal) (two_qubit_gate_duration cal)
                (readout_fidelity cal) (readout_duration cal) (t1 cal) (t2 cal))
  \/ ((g ∉ ["reset"; "delay"]) /\ g <> "measure"
      /\ exists q1 q2, qs = [q1; q2]
           /\ is_Some (two_qubit_gate_fidelity cal !! (q1, q2))
           /\ is_Some (two_qubit_gate_duration cal !! (q1, q2))
           /\ cal' = mkCalibration
                (single_qubit_gate_fidelity cal) (single_qubit_gate_duration cal)
                (<[(q1, q2) := <[g := (1 - error)%float]>
                                 (default ∅ (two_qubit_gate_fidelity cal !! (q1, q2)))]>
                   (two_qubit_gate_fidelity cal))
                (<[(q1, q2) := <[g := duration]>
                                 (default ∅ (two_qubit_gate_duration cal !! (q1, q2)))]>
                   (two_qubit_gate_duration cal))
                (readout_fidelity cal) (readout_duration cal) (t1 cal) (t2 cal))
  \/ ((g ∉ ["reset"; "delay"]) /\ g <> "measure" /\ (3 <= length qs)%nat /\ cal' = cal).
Proof.
  intros Hstep. cbv zeta. unfold ibm.import_target_instruction_step in Hstep.
  destruct (decide (g ∈ ["reset"; "delay"])) as [Hskip|Hne].
  { left. split; [done|]. by inversion Hstep. }
  right. destruct qs as [|q1 qs]; [done|].
  destruct (decide (g = "measure")) as [Hm|Hnm].
  { left. split; [done|]. split; [done|]. exists q1, qs. split; [done|].
    by inversion Hstep. }
  right. destruct qs as [|q2 [|q3 qs]].
  - left. split; [done|]. split; [done|]. exists q1. split; [done|].
    next_getitem Hstep d1 Hd1. next_getitem Hstep d2 Hd2.
    rewrite Hd1, Hd2. split; [eauto|]. split; [eauto|]. by inversion Hstep.
  - right. left. split; [done|]. split; [done|]. exists q1, q2. split; [done|].
    next_getitem Hstep d1 Hd1. next_getitem Hstep d2 Hd2.
    rewrite Hd1, Hd2. split; [eauto|]. split; [eauto|]. by inversion Hstep.
  - right. right. split; [done|]. split; [done|]. split; [simpl; lia|].
    by inversion Hstep.
Qed.

(** The iterations that return. *)
Lemma import_target_instruction_step_total (target : Target.t) (cal : DeviceCalibration)
    (g : string) (qs : list Z) :
  (g ∈ ["reset"; "delay"]
   \/ (qs <> []
       /\ (g = "measure"
           \/ ((forall q, qs = [q] ->
                  is_Some (single_qubit_gate_fidelity cal !! q)
                  /\ is_Some (single_qubit_gate_duration cal !! q))
               /\ (forall q1 q2, qs = [q1; q2] ->
                     is_Some (two_qubit_gate_fidelity cal !! (q1, q2))
                     /\ is_Some (two_qubit_gate_duration cal !! (q1, q2))))))) ->
  exists cal', ibm.import_target_instruction_step target cal (g, qs) = Ok cal'.
Proof.
  intros Hok. unfold ibm.import_target_instruction_step.
  destruct (decide (g ∈ ["reset"; "delay"])) as [Hskip|Hne]; [eauto|].
  destruct Hok as [?|[Hqs Hok]]; [done|].
  destruct qs as [|q1 qs]; [done|].
  destruct (decide (g = "measure")) as [Hm|Hnm]; [eauto|].
  destruct Hok as [?|[H1 H2]]; [done|].
  destruct qs as [|q2 [|q3 qs]]; [| |eauto].
  - destruct (H1 q1 eq_refl) as [[d1 Hd1] [d2 Hd2]].
    eexists. unfold getitem. rewrite Hd1. simpl. rewrite Hd2. simpl. reflexivity.
  - destruct (H2 q1 q2 eq_refl) as [[d1 Hd1] [d2 Hd2]].
    eexists. unfold getitem. rewrite Hd1. simpl. rewrite Hd2. simpl. reflexivity.
Qed.

(** The first loop of [import_target] returns, whatever the target. *)
Lemma import_target_qubit_loop_total (target : Target.t) (cal : DeviceCalibration) :
  exists cal',
    for_each (ibm.import_target_qubit_step target)
      (range (Z.of_nat (length (Target.qubit_properties target)))) cal = Ok cal'.
Proof.
  apply for_each_total. intros q Hq%range_spec s.
  unfold ibm.import_target_qubit_step.
  destruct (Target.qubit_properties target !! Z.to_nat q) as [qp|] eqn:Hqp; [eauto|].
  apply lookup_ge_None in Hqp. lia.
Qed.

Lemma import_target_Ok (target : Target.t) (cal : DeviceCalibration) :
  ibm.import_target target = Ok cal ->
  let n := Z.of_nat (length (Target.qubit_properties target)) in
  exists cal1,
    for_each (ibm.import_target_qubit_step target) (range n) DeviceCalibration_new
    = Ok cal1
    /\ for_each (ibm.import_target_instruction_step target) (Target.instructions target)
         (mkCalibration (ibm.empty_tables (range n)) (ibm.empty_tables (range n))
            (ibm.empty_tables (Target.coupling_map_edges target))
            (ibm.empty_tables (Target.coupling_map_edges target))
            ∅ ∅ (t1 cal1) (t2 cal1)) = Ok cal.
Proof.
  unfold ibm.import_target. intros Hrun. cbv zeta.
  apply bind_Ok in Hrun as (cal1 & Hrun1 & Hrun2).
  exists cal1. split; [done|].
  assert (Hrf : readout_fidelity cal1 = ∅ /\ readout_duration cal1 = ∅).
  { split.
    - apply (for_each_frame _ readout_fidelity _) with (s := DeviceCalibration_new)
        in Hrun1; [done|].
      intros s x s' _ Hstep. unfold ibm.import_target_qubit_step in Hstep.
      destruct (Target.qubit_properties target !! Z.to_nat x); by inversion Hstep.
    - apply (for_each_frame _ readout_duration _) with (s := DeviceCalibration_new)
        in Hrun1; [done|].
      intros s x s' _ Hstep. unfold ibm.import_target_qubit_step in Hstep.
      destruct (Target.qubit_properties target !! Z.to_nat x); by inversion Hstep. }
  destruct Hrf as [Hrf Hrd].
  cbv [set_single_qubit_gate_fidelity set_single_qubit_gate_duration
       set_two_qubit_gate_fidelity set_two_qubit_gate_duration] in Hrun2.
  cbn [single_qubit_gate_fidelity single_qubit_gate_duration two_qubit_gate_fidelity
       two_qubit_gate_duration readout_fidelity readout_duration t1 t2] in Hrun2.
  by rewrite Hrf, Hrd in Hrun2.
Qed.

(** The invariant of the instruction loop: the keys of the four gate
    tables. *)
Lemma import_target_instruction_step_keys (target : Target.t) (n : Z)
    (edges : list (Z * Z)) (s : DeviceCalibration) (x : string * list Z)
    (s' : DeviceCalibration) :
  (forall q, (is_Some (single_qubit_gate_fidelity s !! q) <-> q ∈ range n)
             /\ (is_Some (single_qubit_gate_duration s !! q) <-> q ∈ range n)) ->
  (forall e, (is_Some (two_qubit_gate_fidelity s !! e) <-> e ∈ edges)
             /\ (is_Some (two_qubit_gate_duration s !! e) <-> e ∈ edges)) ->
  ibm.import_target_instruction_step target s x = Ok s' ->
  (forall q, (is_Some (single_qubit_gate_fidelity s' !! q) <-> q ∈ range n)
             /\ (is_Some (single_qubit_gate_duration s' !! q) <-> q ∈ range n))
  /\ (forall e, (is_Some (two_qubit_gate_fidelity s' !! e) <-> e ∈ edges)
                /\ (is_Some (two_qubit_gate_duration s' !! e) <-> e ∈ edges)).
Proof.
  intros Hs He Hstep. destruct x as [g qs].
  apply import_target_instruction_step_Ok in Hstep
    as [[_ ->]|[(_ & _ & q & rest & _ & ->)
       |[(_ & _ & q0 & _ & Hf & Hd & ->)
        |[(_ & _ & a & b & _ & Hf & Hd & ->)|(_ & _ & _ & ->)]]]]; try done.
  - split; [|done]. intros q. simpl. destruct (decide (q = q0)) as [->|Hne].
    + rewrite !lookup_insert_eq. destruct (Hs q0) as [Hsf Hsd].
      split; (split; [intros _|eauto]); [by apply Hsf|by apply Hsd].
    + rewrite !lookup_insert_ne by done. apply Hs.
  - split; [done|]. intros e. simpl. destruct (decide (e = (a, b))) as [->|Hne].
    + rewrite !lookup_insert_eq. destruct (He (a, b)) as [Hef Hed].
      split; (split; [intros _|eauto]); [by apply Hef|by apply Hed].
    + rewrite !lookup_insert_ne by done. apply He.
Qed.

Lemma instruction_single_key_elem (instructions : list (string * list Z)) (q : Z)
    (g : string) :
  Some (q, g) ∈ instruction_single_key <$> instructions
  <-> (g ∉ ["reset"; "delay"; "measure"]) /\ (g, [q]) ∈ instructions.
Proof.
  rewrite list_elem_of_fmap. split.
  - intros ([g' qs] & Hkey & Hin). unfold instruction_single_key in Hkey. simpl in Hkey.
    destruct (decide (g' ∈ ["reset"; "delay"])) as [|Hskip]; [done|].
    destruct (decide (g' = "measure")) as [|Hm]; [done|].
    destruct qs as [|q' [|q'' qs]]; try done. simplify_eq. split; [|done].
    set_solver.
  - intros [Hg Hin]. eexists. split; [|exact Hin].
    unfold instruction_single_key. simpl.
    rewrite decide_False by set_solver.
    by rewrite decide_False by set_solver.
Qed.

Lemma instruction_pair_key_elem (instructions : list (string * list Z)) (q1 q2 : Z)
    (g : string) :
  Some (q1, q2, g) ∈ instruction_pair_key <$> instructions
  <-> (g ∉ ["reset"; "delay"; "measure"]) /\ (g, [q1; q2]) ∈ instructions.
Proof.
  rewrite list_elem_of_fmap. split.
  - intros ([g' qs] & Hkey & Hin). unfold instruction_pair_key in Hkey. simpl in Hkey.
    destruct (decide (g' ∈ ["reset"; "delay"])) as [|Hskip]; [done|].
    destruct (decide (g' = "measure")) as [|Hm]; [done|].
    destruct qs as [|q' [|q'' [|q''' qs]]]; try done. simplify_eq. split; [|done].
    set_solver.
  - intros [Hg Hin]. eexists. split; [|exact Hin].
    unfold instruction_pair_key. simpl.
    rewrite decide_False by set_solver.
    by rewrite decide_False by set_solver.
Qed.

(** [t1] and [t2] after [import_target], key by key. *)
Lemma import_target_t1_t2_lookup (target : Target.t) (cal : DeviceCalibration) (q : Z) :
  ibm.import_target target = Ok cal ->
  t1 cal !! q
  = (if decide (q ∈ range (Z.of_nat (length (Target.qubit_properties target))))
     then Target.t1 <$> Target.qubit_properties target !! Z.to_nat q else None)
  /\ t2 cal !! q
     = (if decide (q ∈ range (Z.of_nat (length (Target.qubit_properties target))))
        then Target.t2 <$> Target.qubit_properties target !! Z.to_nat q else None).
Proof.
  intros Hrun. apply import_target_Ok in Hrun as (cal1 & Hrun1 & Hrun2).
  set (n := Z.of_nat (length (Target.qubit_properties target))) in *.
  assert (Hframe : forall {B} (f : DeviceCalibration -> B),
            (forall s a b c d e f', f (mkCalibration a b c d e f' (t1 s) (t2 s)) = f s) ->
            f cal = f cal1).
  { intros B f Hf.
    rewrite (for_each_frame (ibm.import_target_instruction_step target) f
               (Target.instructions target)) with (s' := cal)
      (s := mkCalibration (ibm.empty_tables (range n)) (ibm.empty_tables (range n))
              (ibm.empty_tables (Target.coupling_map_edges target))
              (ibm.empty_tables (Target.coupling_map_edges target))
              ∅ ∅ (t1 cal1) (t2 cal1)); [apply Hf| |exact Hrun2].
    intros s [g qs] s' _ Hstep.
    apply import_target_instruction_step_Ok in Hstep
      as [[_ ->]|[(_ & _ & ? & ? & _ & ->)
         |[(_ & _ & ? & _ & _ & _ & ->)
          |[(_ & _ & ? & ? & _ & _ & _ & ->)|(_ & _ & _ & ->)]]]];
      first [reflexivity | apply Hf]. }
  assert (Htbl : forall (tbl : DeviceCalibration -> gmap Z float)
                   (f : Target.QubitProperties -> float),
            tbl DeviceCalibration_new = ∅ ->
            (forall s a b c d e f', tbl (mkCalibration a b c d e f' (t1 s) (t2 s)) = tbl s) ->
            (forall s x s' qp, ibm.import_target_qubit_step target s x = Ok s' ->
               Target.qubit_properties target !! Z.to_nat x = Some qp ->
               tbl s' = <[x := f qp]> (tbl s)) ->
            tbl cal !! q =
              if decide (q ∈ range n)
              then f <$> Target.qubit_properties target !! Z.to_nat q else None).
  { intros tbl f Hnew Hf Hstep. rewrite (Hframe _ tbl Hf).
    destruct (for_each_table (ibm.import_target_qubit_step target) tbl Some
                (fun x => f <$> Target.qubit_properties target !! Z.to_nat x)
                (range n)) with
      (s := DeviceCalibration_new) (s' := cal1) (k := q) as [Hhit Hmiss]; [|done|].
    - intros s x s' _ Hx. pose proof Hx as Hx'.
      unfold ibm.import_target_qubit_step in Hx'.
      destruct (Target.qubit_properties target !! Z.to_nat x) as [qp|] eqn:Hqp; [|done].
      exists x, (f qp). split; [done|]. split; [by rewrite Hqp|].
      by apply (Hstep s x s' qp).
    - destruct (decide (q ∈ range n)) as [Hq|Hq].
      + apply Hhit. eauto.
      + rewrite Hmiss; [by rewrite Hnew, lookup_empty|]. congruence. }
  assert (Hstep1 : forall s x s' qp, ibm.import_target_qubit_step target s x = Ok s' ->
            Target.qubit_properties target !! Z.to_nat x = Some qp ->
            t1 s' = <[x := Target.t1 qp]> (t1 s) /\ t2 s' = <[x := Target.t2 qp]> (t2 s)).
  { intros s x s' qp Hstep Hqp. unfold ibm.import_target_qubit_step in Hstep.
    rewrite Hqp in Hstep. by inversion Hstep. }
  split.
  - apply (Htbl t1 Target.t1 eq_refl (fun _ _ _ _ _ _ _ => eq_refl)
             (fun s x s' qp Hs Hq => proj1 (Hstep1 s x s' qp Hs Hq))).
  - apply (Htbl t2 Target.t2 eq_refl (fun _ _ _ _ _ _ _ => eq_refl)
             (fun s x s' qp Hs Hq => proj2 (Hstep1 s x s' qp Hs Hq))).
Qed.

(** X17.  [import_target] takes [t1] and [t2] of every qubit from
    [target.qubit_properties], unchanged, and records none for an index
    outside that list. *)
Theorem import_target_t1_t2 (target : Target.t) (cal : DeviceCalibration) :
  ibm.import_target target = Ok cal ->
  (forall i qp, Target.qubit_properties target !! i = Some qp ->
     t1 cal !! Z.of_nat i = Some (Target.t1 qp)
     /\ t2 cal !! Z.of_nat i = Some (Target.t2 qp))
  /\ (forall q, ~ 0 <= q < Z.of_nat (length (Target.qubit_properties target)) ->
        t1 cal !! q = None /\ t2 cal !! q = None).
Proof.
  intros Hrun. split.
  - intros i qp Hi.
    destruct (import_target_t1_t2_lookup target cal (Z.of_nat i) Hrun) as [-> ->].
    assert (Hin : Z.of_nat i
                  ∈ range (Z.of_nat (length (Target.qubit_properties target)))).
    { apply range_spec. apply lookup_lt_Some in Hi. lia. }
    rewrite !decide_True by done. rewrite Nat2Z.id, Hi. done.
  - intros q Hq.
    destruct (import_target_t1_t2_lookup target cal q Hrun) as [-> ->].
    rewrite !decide_False; [done| |]; by rewrite range_spec.
Qed.

(** X18.  [import_target] returns exactly when every instruction of
    [target.instructions] other than ["reset"] and ["delay"] has a first
    qubit and, unless it is ["measure"], acts on a qubit of
    [range(len(target.qubit_properties))] when it has one qubit and on an
    edge of the target's coupling map when it has two; an instruction on
    three or more qubits is passed over. *)
Theorem import_target_returns_iff (target : Target.t) :
  (exists cal, ibm.import_target target = Ok cal)
  <-> forallb (target_instruction_ok
                 (Z.of_nat (length (Target.qubit_properties target)))
                 (Target.coupling_map_edges target))
        (Target.instructions target) = true.
Proof.
  set (n := Z.of_nat (length (Target.qubit_properties target))).
  set (edges := Target.coupling_map_edges target).
  set (P := fun s : DeviceCalibration =>
         (forall q, (is_Some (single_qubit_gate_fidelity s !! q) <-> q ∈ range n)
                    /\ (is_Some (single_qubit_gate_duration s !! q) <-> q ∈ range n))
         /\ (forall e, (is_Some (two_qubit_gate_fidelity s !! e) <-> e ∈ edges)
                       /\ (is_Some (two_qubit_gate_duration s !! e) <-> e ∈ edges))).
  assert (Hinit : forall a b c d,
            P (mkCalibration (ibm.empty_tables (range n)) (ibm.empty_tables (range n))
                 (ibm.empty_tables edges) (ibm.empty_tables edges) a b c d)).
  { intros a b c d. split; intros k; split; apply empty_tables_is_Some. }
  split.
  - intros [cal Hrun]. apply import_target_Ok in Hrun as (cal1 & _ & Hrun2).
    fold n edges in Hrun2. apply forallb_of_Forall.
    refine (for_each_Ok_Forall _ P _ _ _ _ _ (Hinit _ _ _ _) Hrun2).
    intros s [g qs] s' _ [Hs He] Hstep. split.
    + by apply (import_target_instruction_step_keys target n edges s (g, qs) s').
    + unfold target_instruction_ok. simpl.
      apply import_target_instruction_step_Ok in Hstep
        as [[Hskip _]|[(_ & -> & q & rest & -> & _)
           |[(_ & _ & q0 & -> & Hf & _)
            |[(_ & _ & a & b & -> & Hf & _)|(_ & _ & Hlen & _)]]]].
      * by rewrite bool_decide_eq_true_2.
      * apply orb_true_intro. right. by destruct rest as [|? [|? ?]].
      * apply orb_true_intro. right. apply orb_true_intro. right.
        apply bool_decide_eq_true. by apply (proj1 (Hs q0)).
      * apply orb_true_intro. right. apply orb_true_intro. right.
        apply bool_decide_eq_true. by apply (proj1 (He (a, b))).
      * apply orb_true_intro. right.
        destruct qs as [|? [|? [|? ?]]]; simpl in Hlen; first [lia | done].
  - intros Hok. rewrite forallb_forall in Hok.
    unfold ibm.import_target. fold n edges.
    destruct (import_target_qubit_loop_total target DeviceCalibration_new)
      as [cal1 Hcal1].
    fold n in Hcal1. rewrite Hcal1. simpl.
    destruct (for_each_total_inv (ibm.import_target_instruction_step target) P
                (Target.instructions target)) with
      (s := set_two_qubit_gate_duration (ibm.empty_tables edges)
              (set_two_qubit_gate_fidelity (ibm.empty_tables edges)
                 (set_single_qubit_gate_duration (ibm.empty_tables (range n))
                    (set_single_qubit_gate_fidelity (ibm.empty_tables (range n)) cal1))))
      as (cal & Hcal & _); [|apply Hinit|eauto].
    intros s [g qs] Hx [Hs He]. apply list_elem_of_In in Hx. specialize (Hok _ Hx).
    unfold target_instruction_ok in Hok. simpl in Hok.
    destruct (import_target_instruction_step_total target s g qs) as [s' Hs'].
    { apply orb_prop in Hok as [Hskip|Hok];
        [left; by apply bool_decide_eq_true in Hskip|].
      right. destruct qs as [|q1 [|q2 [|q3 qs]]]; [done| | |].
      - split; [done|].
        apply orb_prop in Hok as [Hm|Hq]; [left; by apply bool_decide_eq_true in Hm|].
        right. apply bool_decide_eq_true in Hq. split.
        + intros q [= <-]. split; [by apply (proj1 (Hs q1))|by apply (proj2 (Hs q1))].
        + intros ? ? [=].
      - split; [done|].
        apply orb_prop in Hok as [Hm|Hq]; [left; by apply bool_decide_eq_true in Hm|].
        right. apply bool_decide_eq_true in Hq. split.
        + intros ? [=].
        + intros a b [= <- <-].
          split; [by apply (proj1 (He (q1, q2)))|by apply (proj2 (He (q1, q2)))].
      - split; [done|].
        destruct (decide (g = "measure")); [by left|]. right. split.
        + intros ? [=].
        + intros ? ? [=]. }
    exists s'. split; [done|].
    by apply (import_target_instruction_step_keys target n edges s (g, qs) s').
Qed.

(** X19.  The gate tables [import_target] returns hold, under a qubit (or
    qubit pair) and an instruction name, exactly the single-qubit (or
    two-qubit) instructions of [target.instructions] other than ["reset"],
    ["delay"] and ["measure"]: the fidelity entry is [1 - error] and the
    duration entry [duration] of [target[name][qargs]]. *)
Theorem import_target_gate_tables (target : Target.t) (cal : DeviceCalibration) :
  ibm.import_target target = Ok cal ->
  (forall q g v,
     entry (single_qubit_gate_fidelity cal) q g = Some v <->
     (g ∉ ["reset"; "delay"; "measure"]) /\ (g, [q]) ∈ Target.instructions target
     /\ v = (1 - Target.error (Target.getitem target g [q]))%float)
  /\ (forall q g v,
        entry (single_qubit_gate_duration cal) q g = Some v <->
        (g ∉ ["reset"; "delay"; "measure"]) /\ (g, [q]) ∈ Target.instructions target
        /\ v = Target.duration (Target.getitem target g [q]))
  /\ (forall q1 q2 g v,
        entry (two_qubit_gate_fidelity cal) (q1, q2) g = Some v <->
        (g ∉ ["reset"; "delay"; "measure"])
        /\ (g, [q1; q2]) ∈ Target.instructions target
        /\ v = (1 - Target.error (Target.getitem target g [q1; q2]))%float)
  /\ (forall q1 q2 g v,
        entry (two_qubit_gate_duration cal) (q1, q2) g = Some v <->
        (g ∉ ["reset"; "delay"; "measure"])
        /\ (g, [q1; q2]) ∈ Target.instructions target
        /\ v = Target.duration (Target.getitem target g [q1; q2])).
Proof.
  intros Hrun. apply import_target_Ok in Hrun as (cal1 & _ & Hrun2).
  set (n := Z.of_nat (length (Target.qubit_properties target))) in *.
  set (cal0 := mkCalibration (ibm.empty_tables (range n)) (ibm.empty_tables (range n))
                 (ibm.empty_tables (Target.coupling_map_edges target))
                 (ibm.empty_tables (Target.coupling_map_edges target))
                 ∅ ∅ (t1 cal1) (t2 cal1)) in *.
  assert (Hsingle : forall (tbl : DeviceCalibration -> gmap Z (gmap string float))
                      (f : string -> list Z -> float),
            (forall k g, entry (tbl cal0) k g = None) ->
            (forall s x s', ibm.import_target_instruction_step target s x = Ok s' ->
               match instruction_single_key x with
               | Some k => forall k', entry (tbl s') k'.1 k'.2
                             = if decide (k' = k) then Some (f k.2 [k.1])
                               else entry (tbl s) k'.1 k'.2
               | None => forall k', entry (tbl s') k'.1 k'.2 = entry (tbl s) k'.1 k'.2
               end) ->
            forall q g v,
              entry (tbl cal) q g = Some v <->
              (g ∉ ["reset"; "delay"; "measure"])
              /\ (g, [q]) ∈ Target.instructions target /\ v = f g [q]).
  { intros tbl f Hinit Hstep q g v.
    pose proof (for_each_entries (ibm.import_target_instruction_step target)
                  (fun s k => entry (tbl s) k.1 k.2) instruction_single_key
                  (fun k => Some (f k.2 [k.1])) (Target.instructions target)) as HE.
    specialize (HE (fun s x s' _ Hx => ltac:(
                  specialize (Hstep s x s' Hx);
                  destruct (instruction_single_key x);
                  [eexists; split; [reflexivity|exact Hstep]|exact Hstep]))
                  _ _ Hrun2 (q, g)).
    simpl in HE. rewrite HE, Hinit. clear HE.
    destruct (decide (Some (q, g) ∈ instruction_single_key <$> Target.instructions target))
      as [Hin|Hnin].
    - apply instruction_single_key_elem in Hin as [Hg Hin].
      split; [intros [= <-]; done|]. by intros (_ & _ & ->).
    - split; [done|]. intros (Hg & Hin & _). exfalso. apply Hnin.
      by apply instruction_single_key_elem. }
  assert (Hpair : forall (tbl : DeviceCalibration -> gmap (Z * Z) (gmap string float))
                    (f : string -> list Z -> float),
            (forall k g, entry (tbl cal0) k g = None) ->
            (forall s x s', ibm.import_target_instruction_step target s x = Ok s' ->
               match instruction_pair_key x with
               | Some k => forall k', entry (tbl s') (k'.1.1, k'.1.2) k'.2
                             = if decide (k' = k) then Some (f k.2 [k.1.1; k.1.2])
                               else entry (tbl s) (k'.1.1, k'.1.2) k'.2
               | None => forall k', entry (tbl s') (k'.1.1, k'.1.2) k'.2
                                    = entry (tbl s) (k'.1.1, k'.1.2) k'.2
               end) ->
            forall q1 q2 g v,
              entry (tbl cal) (q1, q2) g = Some v <->
              (g ∉ ["reset"; "delay"; "measure"])
              /\ (g, [q1; q2]) ∈ Target.instructions target /\ v = f g [q1; q2]).
  { intros tbl f Hinit Hstep q1 q2 g v.
    pose proof (for_each_entries (ibm.import_target_instruction_step target)
                  (fun s k => entry (tbl s) (k.1.1, k.1.2) k.2) instruction_pair_key
                  (fun k => Some (f k.2 [k.1.1; k.1.2])) (Target.instructions target))
      as HE.
    specialize (HE (fun s x s' _ Hx => ltac:(
                  specialize (Hstep s x s' Hx);
                  destruct (instruction_pair_key x);
                  [eexists; split; [reflexivity|exact Hstep]|exact Hstep]))
                  _ _ Hrun2 (q1, q2, g)).
    simpl in HE. rewrite HE, Hinit. clear HE.
    destruct (decide (Some (q1, q2, g)
                      ∈ instruction_pair_key <$> Target.instructions target))
      as [Hin|Hnin].
    - apply instruction_pair_key_elem in Hin as [Hg Hin].
      split; [intros [= <-]; done|]. by intros (_ & _ & ->).
    - split; [done|]. intros (Hg & Hin & _). exfalso. apply Hnin.
      by apply instruction_pair_key_elem. }
  assert (Hkeys : forall s g qs s',
            ibm.import_target_instruction_step target s (g, qs) = Ok s' ->
            (instruction_single_key (g, qs) = None
             /\ instruction_pair_key (g, qs) = None
             /\ single_qubit_gate_fidelity s' = single_qubit_gate_fidelity s
             /\ single_qubit_gate_duration s' = single_qubit_gate_duration s
             /\ two_qubit_gate_fidelity s' = two_qubit_gate_fidelity s
             /\ two_qubit_gate_duration s' = two_qubit_gate_duration s)
            \/ (exists q, qs = [q]
                  /\ instruction_single_key (g, qs) = Some (q, g)
                  /\ instruction_pair_key (g, qs) = None
                  /\ single_qubit_gate_fidelity s'
                     = <[q := <[g := (1 - Target.error (Target.getitem target g [q]))%float]>
                               (default ∅ (single_qubit_gate_fidelity s !! q))]>
                         (single_qubit_gate_fidelity s)
                  /\ single_qubit_gate_duration s'
                     = <[q := <[g := Target.duration (Target.getitem target g [q])]>
                               (default ∅ (single_qubit_gate_duration s !! q))]>
                         (single_qubit_gate_duration s)
                  /\ two_qubit_gate_fidelity s' = two_qubit_gate_fidelity s
                  /\ two_qubit_gate_duration s' = two_qubit_gate_duration s)
            \/ (exists q1 q2, qs = [q1; q2]
                  /\ instruction_single_key (g, qs) = None
                  /\ instruction_pair_key (g, qs) = Some (q1, q2, g)
                  /\ single_qubit_gate_fidelity s' = single_qubit_gate_fidelity s
                  /\ single_qubit_gate_duration s' = single_qubit_gate_duration s
                  /\ two_qubit_gate_fidelity s'
                     = <[(q1, q2) :=
                           <[g := (1 - Target.error
                                         (Target.getitem target g [q1; q2]))%float]>
                             (default ∅ (two_qubit_gate_fidelity s !! (q1, q2)))]>
                         (two_qubit_gate_fidelity s)
                  /\ two_qubit_gate_duration s'
                     = <[(q1, q2) :=
                           <[g := Target.duration (Target.getitem target g [q1; q2])]>
                             (default ∅ (two_qubit_gate_duration s !! (q1, q2)))]>
                         (two_qubit_gate_duration s))).
  { intros s g qs s' Hstep. unfold instruction_single_key, instruction_pair_key. simpl.
    apply import_target_instruction_step_Ok in Hstep
      as [[Hskip ->]|[(Hne & -> & q & rest & -> & ->)
         |[(Hne & Hnm & q0 & -> & _ & _ & ->)
          |[(Hne & Hnm & a & b & -> & _ & _ & ->)|(Hne & Hnm & Hlen & ->)]]]].
    - left. by rewrite !decide_True.
    - left. destruct (decide ("measure" ∈ ["reset"; "delay"])); [done|].
      by rewrite !decide_True.
    - right. left. exists q0. by rewrite !decide_False.
    - right. right. exists a, b. by rewrite !decide_False.
    - left. rewrite !decide_False by done.
      destruct qs as [|? [|? [|? ?]]]; simpl in Hlen; try lia. done. }
  assert (Hinit1 : forall k g, entry (ibm.empty_tables (range n)) k g = None).
  { intros. apply entry_empty_tables. }
  assert (Hinit2 : forall k g,
            entry (ibm.empty_tables (Target.coupling_map_edges target)) k g = None).
  { intros. apply entry_empty_tables. }
  split; [|split; [|split]].
  - apply (Hsingle single_qubit_gate_fidelity
             (fun g qs => (1 - Target.error (Target.getitem target g qs))%float));
      [exact Hinit1|].
    intros s [g qs] s' Hstep.
    destruct (Hkeys s g qs s' Hstep)
      as [(-> & _ & -> & _)|[(q & _ & -> & _ & -> & _)|(q1 & q2 & _ & -> & _ & -> & _)]];
      try done.
    intros [q' g']. simpl. rewrite entry_set_default. done.
  - apply (Hsingle single_qubit_gate_duration
             (fun g qs => Target.duration (Target.getitem target g qs)));
      [exact Hinit1|].
    intros s [g qs] s' Hstep.
    destruct (Hkeys s g qs s' Hstep)
      as [(-> & _ & _ & -> & _)|[(q & _ & -> & _ & _ & -> & _)
                                |(q1 & q2 & _ & -> & _ & _ & -> & _)]];
      try done.
    intros [q' g']. simpl. rewrite entry_set_default. done.
  - apply (Hpair two_qubit_gate_fidelity
             (fun g qs => (1 - Target.error (Target.getitem target g qs))%float));
      [exact Hinit2|].
    intros s [g qs] s' Hstep.
    destruct (Hkeys s g qs s' Hstep)
      as [(_ & -> & _ & _ & -> & _)|[(q & _ & _ & -> & _ & _ & -> & _)
                                    |(q1 & q2 & _ & _ & -> & _ & _ & -> & _)]];
      try done.
    intros [[q1' q2'] g']. simpl. rewrite entry_set_default. by destruct (decide _).
  - apply (Hpair two_qubit_gate_duration
             (fun g qs => Target.duration (Target.getitem target g qs)));
      [exact Hinit2|].
    intros s [g qs] s' Hstep.
    destruct (Hkeys s g qs s' Hstep)
      as [(_ & -> & _ & _ & _ & ->)|[(q & _ & _ & -> & _ & _ & _ & ->)
                                    |(q1 & q2 & _ & _ & -> & _ & _ & _ & ->)]];
      try done.
    intros [[q1' q2'] g']. simpl. rewrite entry_set_default. by destruct (decide _).
Qed.

Lemma instruction_measure_key_elem (instructions : list (string * list Z)) (q : Z) :
  Some q ∈ instruction_measure_key <$> instructions
  <-> exists rest, ("measure", q :: rest) ∈ instructions.
Proof.
  rewrite list_elem_of_fmap. split.
  - intros ([g qs] & Hkey & Hin). unfold instruction_measure_key in Hkey. simpl in Hkey.
    destruct (decide (g = "measure")) as [->|]; [|done].
    destruct qs as [|q' rest]; [done|]. simpl in Hkey. injection Hkey as <-. eauto.
  - intros [rest Hin]. eexists. split; [|exact Hin].
    unfold instruction_measure_key. by rewrite decide_True.
Qed.

(** The readout tables after the instruction loop of [import_target]: a
    lookup depends only on the ["measure"] instructions. *)
Lemma import_target_readout_loop (target : Target.t) (cal0 cal : DeviceCalibration) :
  for_each (ibm.import_target_instruction_step target) (Target.instructions target) cal0
  = Ok cal ->
  forall q,
    ((fun _ => tt) <$> readout_fidelity cal !! q
     = if decide (Some q ∈ instruction_measure_key <$> Target.instructions target)
       then Some tt else (fun _ => tt) <$> readout_fidelity cal0 !! q)
    /\ ((fun _ => tt) <$> readout_duration cal !! q
        = if decide (Some q ∈ instruction_measure_key <$> Target.instructions target)
          then Some tt else (fun _ => tt) <$> readout_duration cal0 !! q).
Proof.
  intros Hrun q.
  assert (Hstep : forall s x s',
            ibm.import_target_instruction_step target s x = Ok s' ->
            match instruction_measure_key x with
            | Some k => exists v w, readout_fidelity s' = <[k := v]> (readout_fidelity s)
                          /\ readout_duration s' = <[k := w]> (readout_duration s)
            | None => readout_fidelity s' = readout_fidelity s
                      /\ readout_duration s' = readout_duration s
            end).
  { intros s [g qs] s' Hs. unfold instruction_measure_key. simpl.
    apply import_target_instruction_step_Ok in Hs
      as [[Hskip ->]|[(_ & -> & q0 & rest & -> & ->)
         |[(_ & Hnm & ? & _ & _ & _ & ->)
          |[(_ & Hnm & ? & ? & _ & _ & _ & ->)|(_ & Hnm & _ & ->)]]]].
    - destruct (decide (g = "measure")) as [->|]; [|done].
      exfalso. revert Hskip. rewrite !elem_of_cons, elem_of_nil.
      intros [?|[?|[]]]; discriminate.
    - rewrite decide_True by done. simpl. eauto.
    - by rewrite decide_False.
    - by rewrite decide_False.
    - by rewrite decide_False. }
  split.
  - apply (for_each_entries (ibm.import_target_instruction_step target)
             (fun s k => (fun _ => tt) <$> readout_fidelity s !! k)
             instruction_measure_key (fun _ => Some tt) (Target.instructions target));
      [|exact Hrun].
    intros s x s' _ Hx. specialize (Hstep s x s' Hx).
    destruct (instruction_measure_key x) as [k|].
    + destruct Hstep as (v & w & -> & _). exists tt. split; [done|].
      intros k'. destruct (decide (k' = k)) as [->|Hne].
      * by rewrite lookup_insert_eq.
      * by rewrite lookup_insert_ne.
    + intros k'. by destruct Hstep as [-> _].
  - apply (for_each_entries (ibm.import_target_instruction_step target)
             (fun s k => (fun _ => tt) <$> readout_duration s !! k)
             instruction_measure_key (fun _ => Some tt) (Target.instructions target));
      [|exact Hrun].
    intros s x s' _ Hx. specialize (Hstep s x s' Hx).
    destruct (instruction_measure_key x) as [k|].
    + destruct Hstep as (v & w & _ & ->). exists tt. split; [done|].
      intros k'. destruct (decide (k' = k)) as [->|Hne].
      * by rewrite lookup_insert_eq.
      * by rewrite lookup_insert_ne.
    + intros k'. by destruct Hstep as [_ ->].
Qed.

(** The keys of the readout tables [import_target] returns. *)
Lemma import_target_readout_keys (target : Target.t) (cal : DeviceCalibration) (q : Z) :
  ibm.import_target target = Ok cal ->
  (is_Some (readout_fidelity cal !! q)
   <-> exists rest, ("measure", q :: rest) ∈ Target.instructions target)
  /\ (is_Some (readout_duration cal !! q)
      <-> exists rest, ("measure", q :: rest) ∈ Target.instructions target).
Proof.
  intros Hrun. apply import_target_Ok in Hrun as (cal1 & _ & Hrun2).
  destruct (import_target_readout_loop target _ cal Hrun2 q) as [Hf Hd].
  simpl in Hf, Hd. rewrite lookup_empty in Hf, Hd. simpl in Hf, Hd.
  rewrite <- instruction_measure_key_elem.
  rewrite <- (fmap_is_Some (fun _ => tt) (readout_fidelity cal !! q)), Hf.
  rewrite <- (fmap_is_Some (fun _ => tt) (readout_duration cal !! q)), Hd.
  destruct (decide (Some q ∈ instruction_measure_key <$> Target.instructions target)).
  - split; (split; [done|eauto]).
  - split; (split; [by intros [? ?]|done]).
Qed.

(** The keys of the gate tables [import_target] returns. *)
Lemma import_target_gate_table_keys (target : Target.t) (cal : DeviceCalibration) :
  ibm.import_target target = Ok cal ->
  (forall q,
     (is_Some (single_qubit_gate_fidelity cal !! q)
      <-> q ∈ range (Z.of_nat (length (Target.qubit_properties target))))
     /\ (is_Some (single_qubit_gate_duration cal !! q)
         <-> q ∈ range (Z.of_nat (length (Target.qubit_properties target)))))
  /\ (forall e,
        (is_Some (two_qubit_gate_fidelity cal !! e)
         <-> e ∈ Target.coupling_map_edges target)
        /\ (is_Some (two_qubit_gate_duration cal !! e)
            <-> e ∈ Target.coupling_map_edges target)).
Proof.
  intros Hrun. apply import_target_Ok in Hrun as (cal1 & _ & Hrun2).
  refine (for_each_inv _
            (fun s =>
               (forall q,
                  (is_Some (single_qubit_gate_fidelity s !! q)
                   <-> q ∈ range (Z.of_nat (length (Target.qubit_properties target))))
                  /\ (is_Some (single_qubit_gate_duration s !! q)
                      <-> q ∈ range (Z.of_nat (length (Target.qubit_properties target)))))
               /\ (forall e,
                     (is_Some (two_qubit_gate_fidelity s !! e)
                      <-> e ∈ Target.coupling_map_edges target)
                     /\ (is_Some (two_qubit_gate_duration s !! e)
                         <-> e ∈ Target.coupling_map_edges target)))
            _ _ _ _ _ Hrun2).
  - intros s x s' _ [Hs He] Hstep.
    by apply (import_target_instruction_step_keys target _ _ s x s').
  - split; intros k; split; apply empty_tables_is_Some.
Qed.

(** X20.  [import_target] fills the readout tables from the ["measure"]
    instructions only: a qubit has a readout fidelity and a readout duration
    exactly when some ["measure"] instruction has it as first qubit, and when
    that instruction is the single-qubit ["measure"] on [q] alone, the values
    are [1 - error] and [duration] of [target["measure"][(q,)]]. *)
Theorem import_target_readout_from_measure (target : Target.t) (cal : DeviceCalibration)
    (q : Z) :
  ibm.import_target target = Ok cal ->
  (is_Some (readout_fidelity cal !! q)
   <-> exists rest, ("measure", q :: rest) ∈ Target.instructions target)
  /\ (is_Some (readout_duration cal !! q)
      <-> exists rest, ("measure", q :: rest) ∈ Target.instructions target)
  /\ (("measure", [q]) ∈ Target.instructions target ->
      (forall rest, ("measure", q :: rest) ∈ Target.instructions target -> rest = []) ->
      readout_fidelity cal !! q
      = Some (1 - Target.error (Target.getitem target "measure" [q]))%float
      /\ readout_duration cal !! q
         = Some (Target.duration (Target.getitem target "measure" [q]))).
Proof.
  intros Hrun.
  destruct (import_target_readout_keys target cal q Hrun) as [Hkf Hkd].
  split; [exact Hkf|]. split; [exact Hkd|].
  intros Hin Honly.
  apply import_target_Ok in Hrun as (cal1 & _ & Hrun2).
  set (key := fun x : string * list Z =>
                if decide (x.1 = "measure" /\ head x.2 = Some q) then Some tt else None).
  assert (Hkey : Some tt ∈ key <$> Target.instructions target).
  { apply list_elem_of_fmap. exists ("measure", [q]). split; [|done].
    unfold key. simpl. by rewrite decide_True. }
  assert (Hstep : forall s x s', x ∈ Target.instructions target ->
            ibm.import_target_instruction_step target s x = Ok s' ->
            match key x with
            | Some _ =>
                readout_fidelity s' !! q
                = Some (1 - Target.error (Target.getitem target "measure" [q]))%float
                /\ readout_duration s' !! q
                   = Some (Target.duration (Target.getitem target "measure" [q]))
            | None => readout_fidelity s' !! q = readout_fidelity s !! q
                      /\ readout_duration s' !! q = readout_duration s !! q
            end).
  { intros s [g qs] s' Hx Hs. unfold key. simpl.
    apply import_target_instruction_step_Ok in Hs
      as [[Hskip ->]|[(_ & -> & q0 & rest & -> & ->)
         |[(_ & Hnm & ? & _ & _ & _ & ->)
          |[(_ & Hnm & ? & ? & _ & _ & _ & ->)|(_ & Hnm & _ & ->)]]]].
    - destruct (decide (g = "measure" /\ head qs = Some q)) as [[-> _]|]; [|done].
      exfalso. revert Hskip. rewrite !elem_of_cons, elem_of_nil.
      intros [?|[?|[]]]; discriminate.
    - simpl. destruct (decide ("measure" = "measure" /\ Some q0 = Some q))
        as [[_ [= ->]]|Hne].
      + rewrite (Honly rest Hx). simpl. by rewrite !lookup_insert_eq.
      + simpl. rewrite !lookup_insert_ne; [done| |]; intros ->; by apply Hne.
    - rewrite decide_False; [done|]. by intros [? _].
    - rewrite decide_False; [done|]. by intros [? _].
    - rewrite decide_False; [done|]. by intros [? _]. }
  split.
  - pose proof (for_each_entries (ibm.import_target_instruction_step target)
                  (fun s (_ : unit) => readout_fidelity s !! q) key
                  (fun _ => Some (1 - Target.error
                                        (Target.getitem target "measure" [q]))%float)
                  (Target.instructions target)) as HE.
    rewrite (HE (fun s x s' Hx Hs => ltac:(
               specialize (Hstep s x s' Hx Hs); destruct (key x) as [[]|];
               [ destruct Hstep as [Hv _]; eexists; split; [reflexivity|];
                 intros []; by rewrite decide_True
               | intros _; by destruct Hstep as [-> _] ])) _ _ Hrun2 tt).
    by rewrite decide_True.
  - pose proof (for_each_entries (ibm.import_target_instruction_step target)
                  (fun s (_ : unit) => readout_duration s !! q) key
                  (fun _ => Some (Target.duration (Target.getitem target "measure" [q])))
                  (Target.instructions target)) as HE.
    rewrite (HE (fun s x s' Hx Hs => ltac:(
               specialize (Hstep s x s' Hx Hs); destruct (key x) as [[]|];
               [ destruct Hstep as [_ Hv]; eexists; split; [reflexivity|];
                 intros []; by rewrite decide_True
               | intros _; by destruct Hstep as [_ ->] ])) _ _ Hrun2 tt).
    by rewrite decide_True.
Qed.

(** X21.  In the calibration [import_target] returns, the single-qubit gate
    tables have a dictionary (possibly empty) for exactly the qubits in
    [range(len(target.qubit_properties))], and the two-qubit gate tables have
    one for exactly the edges of the target's coupling map. *)
Theorem import_target_table_keys (target : Target.t) (cal : DeviceCalibration) :
  ibm.import_target target = Ok cal ->
  (forall q,
     (is_Some (single_qubit_gate_fidelity cal !! q)
      <-> 0 <= q < Z.of_nat (length (Target.qubit_properties target)))
     /\ (is_Some (single_qubit_gate_duration cal !! q)
         <-> 0 <= q < Z.of_nat (length (Target.qubit_properties target))))
  /\ (forall q1 q2,
        (is_Some (two_qubit_gate_fidelity cal !! (q1, q2))
         <-> (q1, q2) ∈ Target.coupling_map_edges target)
        /\ (is_Some (two_qubit_gate_duration cal !! (q1, q2))
            <-> (q1, q2) ∈ Target.coupling_map_edges target)).
Proof.
  intros Hrun. destruct (import_target_gate_table_keys target cal Hrun) as [Hs He].
  split.
  - intros q. rewrite <- !range_spec. apply Hs.
  - intros q1 q2. apply He.
Qed.

(** ** The private copies of [ibm_open_access.py] *)

Lemma private_import_target_instruction_step_eq (target : Target.t)
    (calibration : DeviceCalibration) (instruction : string * list Z) :
  ibm_open_access.IBMOpenAccessProvider__import_target_instruction_step target
    calibration instruction
  = ibm.import_target_instruction_step target calibration instruction.
Proof.
  destruct instruction as [instruction_name qargs].
  unfold ibm_open_access.IBMOpenAccessProvider__import_target_instruction_step,
    ibm.import_target_instruction_step.
  destruct (decide (instruction_name ∈ ["reset"; "delay"])) as [Hin|Hout].
  - apply elem_of_cons in Hin as [->|Hin]; [done|].
    apply elem_of_cons in Hin as [->|Hin]; [done|]. by apply elem_of_nil in Hin.
  - rewrite !bool_decide_eq_false_2; [done| |]; intros ->; apply Hout.
    + apply elem_of_cons. right. apply elem_of_cons. by left.
    + apply elem_of_cons. by left.
Qed.

(** X22.  The private [__import_backend_properties] and [__import_target] of
    [ibm_open_access.py] compute what [import_backend_properties] and
    [import_target] of [ibm.py] compute, on every input: the same calibration
    or the same exception.  The skip written with [or] and the one written
    with [in ["reset", "delay"]] pass over the same instructions. *)
Theorem open_access_private_live_imports_agree
    (backend_properties : BackendProperties.t) (target : Target.t) :
  ibm_open_access.IBMOpenAccessProvider__import_backend_properties backend_properties
  = ibm.import_backend_properties backend_properties
  /\ ibm_open_access.IBMOpenAccessProvider__import_target target
     = ibm.import_target target.
Proof.
  split; [reflexivity|].
  unfold ibm_open_access.IBMOpenAccessProvider__import_target, ibm.import_target.
  change (ibm_open_access.IBMOpenAccessProvider__import_target_qubit_step target)
    with (ibm.import_target_qubit_step target).
  destruct (for_each (ibm.import_target_qubit_step target) _ _) as [cal|e]; [|done].
  simpl. apply for_each_ext. intros s x _.
  apply private_import_target_instruction_step_eq.
Qed.

(** ** [import_qiskit_backend] *)

Lemma import_qiskit_backend_Ok (backend : BackendV2.t) (d : Device) :
  ibm.IBMProvider_import_qiskit_backend backend = Ok d ->
  ibm.import_target (BackendV2.target backend) = Ok (calibration d)
  /\ name d = BackendV2.name backend
  /\ num_qubits d = BackendV2.num_qubits backend
  /\ basis_gates d = BackendV2.operation_names backend
  /\ coupling_map d
     = (fun e : Z * Z => [e.1; e.2]) <$> BackendV2.coupling_map_edges backend.
Proof.
  unfold ibm.IBMProvider_import_qiskit_backend. intros Hrun.
  apply bind_Ok in Hrun as (cal & Hcal & Hd). by inversion Hd.
Qed.

(** X23.  A device that [import_qiskit_backend] returns satisfies the
    invariant of the data model on the keys of its tables when the backend
    agrees with its target: the target lists the properties of
    [backend.num_qubits] qubits, the edges of the target's coupling map are
    edges of [backend.coupling_map], and every ["measure"] instruction is on a
    qubit in [range(backend.num_qubits)]. *)
Theorem import_qiskit_backend_keys_within_device (backend : BackendV2.t) (d : Device) :
  ibm.IBMProvider_import_qiskit_backend backend = Ok d ->
  Z.of_nat (length (Target.qubit_properties (BackendV2.target backend)))
  = BackendV2.num_qubits backend ->
  (forall e, e ∈ Target.coupling_map_edges (BackendV2.target backend) ->
     e ∈ BackendV2.coupling_map_edges backend) ->
  (forall q rest, ("measure", q :: rest) ∈ Target.instructions (BackendV2.target backend) ->
     0 <= q < BackendV2.num_qubits backend) ->
  qubit_keys_in_range d /\ edge_keys_in_coupling_map d.
Proof.
  intros Hrun Hn Hedges Hmeasure.
  apply import_qiskit_backend_Ok in Hrun as (Hcal & _ & Hnum & _ & Hmap).
  split.
  - intros q Hq. rewrite Hnum.
    destruct (import_target_t1_t2_lookup _ _ q Hcal) as [Ht1 Ht2].
    destruct (import_target_readout_keys _ _ q Hcal) as [Hrf Hrd].
    rewrite Hn in Ht1, Ht2.
    destruct (decide (q ∈ range (BackendV2.num_qubits backend))) as [|Hout]; [done|].
    destruct Hq as [Hq|[Hq|[Hq|Hq]]].
    + rewrite Ht1 in Hq. by destruct Hq.
    + rewrite Ht2 in Hq. by destruct Hq.
    + apply Hrf in Hq as [rest Hq]. apply range_spec. by apply (Hmeasure q rest).
    + apply Hrd in Hq as [rest Hq]. apply range_spec. by apply (Hmeasure q rest).
  - intros q1 q2 Hq. rewrite Hmap.
    destruct (import_target_gate_table_keys _ _ Hcal) as [_ He].
    assert (Hin : (q1, q2) ∈ Target.coupling_map_edges (BackendV2.target backend)).
    { destruct (He (q1, q2)) as [Hf Hd]. destruct Hq as [Hq|Hq]; [by apply Hf|by apply Hd]. }
    apply list_elem_of_fmap. exists (q1, q2). split; [done|]. by apply Hedges.
Qed.

(** ** The live imports at the sample inputs *)

Lemma import_target_t1_t2_witness :
  exists cal,
    ibm.import_target sample_target = Ok cal
    /\ t1 cal !! 1 = Some 1e-4%float
    /\ t2 cal !! 1 = Some 7e-5%float
    /\ t1 cal !! 2 = None.
Proof.
  destruct (ibm.import_target sample_target) as [cal|e] eqn:Hcal;
    [|vm_compute in Hcal; discriminate].
  exists cal. split; [reflexivity|].
  destruct (import_target_t1_t2 sample_target cal Hcal) as [Hin Hout].
  destruct (Hin 1%nat (Target.mkQubit 1e-4%float 7e-5%float) eq_refl) as [H1 H2].
  destruct (Hout 2) as [H1' _]; [cbn; lia|].
  split; [exact H1|]. split; [exact H2|exact H1'].
Defined.

Lemma import_target_gate_tables_witness :
  exists cal,
    ibm.import_target sample_target = Ok cal
    /\ entry (single_qubit_gate_fidelity cal) 0 "sx" = Some (1 - 0.01)%float
    /\ entry (two_qubit_gate_duration cal) (0, 1) "cx" = Some 3e-7%float.
Proof.
  destruct (ibm.import_target sample_target) as [cal|e] eqn:Hcal;
    [|vm_compute in Hcal; discriminate].
  exists cal. split; [reflexivity|].
  destruct (import_target_gate_tables sample_target cal Hcal) as (Hsf & _ & _ & Htd).
  split.
  - apply Hsf. split; [|split; [|reflexivity]].
    + rewrite !elem_of_cons, elem_of_nil. intros [?|[?|[?|[]]]]; discriminate.
    + cbn. rewrite !elem_of_cons. tauto.
  - apply Htd. split; [|split; [|reflexivity]].
    + rewrite !elem_of_cons, elem_of_nil. intros [?|[?|[?|[]]]]; discriminate.
    + cbn. rewrite !elem_of_cons. tauto.
Defined.

Lemma import_target_readout_from_measure_witness :
  exists cal,
    ibm.import_target sample_target = Ok cal
    /\ readout_fidelity cal !! 0 = Some (1 - 0.01)%float
    /\ readout_duration cal !! 0 = Some 3e-7%float
    /\ ~ is_Some (readout_fidelity cal !! 1).
Proof.
  destruct (ibm.import_target sample_target) as [cal|e] eqn:Hcal;
    [|vm_compute in Hcal; discriminate].
  exists cal. split; [reflexivity|].
  destruct (import_target_readout_from_measure sample_target cal 0 Hcal)
    as (_ & _ & Hval).
  destruct (import_target_readout_from_measure sample_target cal 1 Hcal)
    as (Hkey & _ & _).
  destruct Hval as [Hf Hd].
  - cbn. rewrite !elem_of_cons. tauto.
  - intros rest Hin. cbn in Hin. rewrite !elem_of_cons, elem_of_nil in Hin.
    destruct Hin as [Hin|[Hin|[Hin|[Hin|[Hin|[]]]]]]; by inversion Hin.
  - split; [exact Hf|]. split; [exact Hd|].
    intros Hsome. apply Hkey in Hsome as [rest Hin].
    cbn in Hin. rewrite !elem_of_cons, elem_of_nil in Hin.
    destruct Hin as [Hin|[Hin|[Hin|[Hin|[Hin|[]]]]]]; by inversion Hin.
Defined.

Lemma import_target_table_keys_witness :
  exists cal,
    ibm.import_target sample_target = Ok cal
    /\ is_Some (single_qubit_gate_fidelity cal !! 1)
    /\ ~ is_Some (single_qubit_gate_duration cal !! 2)
    /\ is_Some (two_qubit_gate_fidelity cal !! (0, 1))
    /\ ~ is_Some (two_qubit_gate_duration cal !! (1, 0)).
Proof.
  destruct (ibm.import_target sample_target) as [cal|e] eqn:Hcal;
    [|vm_compute in Hcal; discriminate].
  exists cal. split; [reflexivity|].
  destruct (import_target_table_keys sample_target cal Hcal) as [Hs He].
  split; [apply (Hs 1); cbn; lia|].
  split; [intros Hk; apply (Hs 2) in Hk; cbn in Hk; lia|].
  split; [apply (He 0 1); cbn; rewrite elem_of_cons; by left|].
  intros Hk. apply (He 1 0) in Hk. cbn in Hk.
  rewrite elem_of_cons, elem_of_nil in Hk. destruct Hk as [Hk|[]]. by inversion Hk.
Defined.

Lemma import_qiskit_backend_keys_within_device_witness :
  exists d,
    ibm.IBMProvider_import_qiskit_backend sample_backend = Ok d
    /\ qubit_keys_in_range d /\ edge_keys_in_coupling_map d.
Proof.
  destruct (ibm.IBMProvider_import_qiskit_backend sample_backend) as [d|e] eqn:Hd;
    [|vm_compute in Hd; discriminate].
  exists d. split; [reflexivity|].
  apply (import_qiskit_backend_keys_within_device sample_backend d Hd).
  - reflexivity.
  - intros e He. exact He.
  - intros q rest Hin. cbn in Hin. rewrite !elem_of_cons, elem_of_nil in Hin.
    destruct Hin as [Hin|[Hin|[Hin|[Hin|[Hin|[]]]]]]; inversion Hin; cbn; lia.
Defined.
